(** * digger: policy resolution, authorization, event routing, orchestration

    A shallow embedding of the Go packages [policy] (access-policy provider
    and checker) and [gitlab] (event router and command orchestrator) of the
    digger repository, together with the properties of its specification.

    Go values are embedded as follows.
    - [string] is [String.string]; [int] is [Z] (no arithmetic is performed
      on it, so no wrap-around is involved).
    - a multi-value return [(T, error)] is a pair whose second component is
      [option error]; [None] is [nil].
    - a pointer that the code dereferences is an [option]; dereferencing
      [None] panics.
    - calls to collaborators (HTTP client, CI service, policy engine,
      executor) read and update an abstract [World] and are recorded, in
      order, in a trace of events. *)

From Stdlib Require Import String Ascii List ZArith Bool Lia DecimalString.
Import ListNotations.
Local Open Scope string_scope.
Local Open Scope list_scope.

(** ** The Go runtime and the fragments of its standard library in use *)

Module Go.

(** [errors.New]: an error value is identified by its message. *)
Inductive error : Type :=
| errors_New (msg : string).

Definition Error (e : error) : string :=
  match e with errors_New msg => msg end.

(** [fmt.Errorf] applied to a message that is already formatted. *)
Definition fmt_Errorf (msg : string) : error := errors_New msg.

(** [%v] of an [int]: decimal digits, with a leading minus sign. *)
Definition fmt_int (z : Z) : string := NilZero.string_of_int (Z.to_int z).

(** [interface{}] values as far as the code inspects or builds them. *)
Inductive any : Type :=
| ANil
| ABool (b : bool)
| AInt (z : Z)
| AString (s : string)
| AStrings (l : list string)
| AError (e : error).

(** [v.(bool)] in its two-value form: the value and whether the dynamic
    type is [bool]. *)
Definition assert_bool (v : any) : bool * bool :=
  match v with
  | ABool b => (b, true)
  | _ => (false, false)
  end.

(** [strings.Contains s substr]: [substr] occurs in [s] at some offset. *)
Fixpoint strings_Contains (s substr : string) : bool :=
  if prefix substr s then true
  else match s with
       | EmptyString => false
       | String _ s' => strings_Contains s' substr
       end.

(** [strings.ReplaceAll s old new] for a non-empty [old]: occurrences are
    replaced left to right without overlap; [skip] counts the characters
    of a replaced occurrence still to be dropped. *)
Fixpoint replace_from (old new : string) (skip : nat) (s : string) : string :=
  match s with
  | EmptyString => EmptyString
  | String c s' =>
      match skip with
      | S k => replace_from old new k s'
      | O => if prefix old s
             then new ++ replace_from old new (String.length old - 1) s'
             else String c (replace_from old new 0 s')
      end
  end.

Definition strings_ReplaceAll (s old new : string) : string :=
  replace_from old new 0 s.

(** How a function call ends: it returns, it panics, or the process
    exits ([os.Exit]). *)
Inductive Outcome (A : Type) : Type :=
| Returned (a : A)
| Panicked (msg : string)
| Exited (code : Z).
Arguments Returned {A} a.
Arguments Panicked {A} msg.
Arguments Exited {A} code.

(** A [for ... range] loop of pure code whose body may panic. *)
Fixpoint range_pure {A Acc} (l : list A) (body : Acc -> A -> Outcome Acc) (acc : Acc)
  : Outcome Acc :=
  match l with
  | [] => Returned acc
  | x :: l' =>
      match body acc x with
      | Returned acc' => range_pure l' body acc'
      | Panicked msg => Panicked msg
      | Exited code => Exited code
      end
  end.

Definition nil_dereference : string :=
  "invalid memory address or nil pointer dereference".

Section Monad.
Context {World Event : Type}.

(** The state threaded through a run: the collaborators' world and the
    calls made so far, oldest first. *)
Record State : Type := mkState { world : World; trace : list Event }.

Definition M (A : Type) : Type := State -> Outcome A * State.

Definition ret {A} (a : A) : M A := fun st => (Returned a, st).

Definition bind {A B} (m : M A) (k : A -> M B) : M B :=
  fun st =>
    match m st with
    | (Returned a, st') => k a st'
    | (Panicked msg, st') => (Panicked msg, st')
    | (Exited code, st') => (Exited code, st')
    end.

Definition panic {A} (msg : string) : M A := fun st => (Panicked msg, st).

Definition os_Exit {A} (code : Z) : M A := fun st => (Exited code, st).

(** Record a call in the trace. *)
Definition emit (e : Event) : M unit :=
  fun st => (Returned tt, mkState (world st) (trace st ++ [e])).

(** Let a collaborator act on the world. *)
Definition external {A} (f : World -> A * World) : M A :=
  fun st => let (a, w) := f (world st) in (Returned a, mkState w (trace st)).

(** Dereference a pointer. *)
Definition deref {A} (p : option A) : M A :=
  match p with
  | Some a => ret a
  | None => panic nil_dereference
  end.

(** [for _, x := range l { acc = body acc x }]: a loop whose body
    updates the local variables [acc]. *)
Fixpoint for_range {A Acc} (l : list A) (body : Acc -> A -> M Acc) (acc : Acc) : M Acc :=
  match l with
  | [] => ret acc
  | x :: l' => bind (body acc x) (for_range l' body)
  end.
End Monad.

Arguments State : clear implicits.
Arguments M : clear implicits.

Declare Scope go_scope.
Delimit Scope go_scope with go.
Notation "x <- m ;; k" := (bind m (fun x => k))
  (at level 61, m at next level, right associativity) : go_scope.
Notation "' p <- m ;; k" := (bind m (fun x => let 'p := x in k))
  (at level 61, p pattern, m at next level, right associativity) : go_scope.
Notation "m ;;; k" := (bind m (fun _ => k))
  (at level 61, right associativity) : go_scope.

End Go.

(** ** Package [policy]: the access-policy provider and the checkers *)

Module policy.
Import Go.
Local Open Scope go_scope.

(** *** [net/http] as the package uses it *)

Record Request : Type := mkRequest {
  Method : string;
  URL : string;
  Header : list (string * string)
}.

(** A response: its status code and what [io.ReadAll] gives on its body,
    the bytes or a read error. *)
Record Response : Type := mkResponse {
  StatusCode : Z;
  Body : string + error
}.

Definition Header_Add (req : Request) (key value : string) : Request :=
  mkRequest (Method req) (URL req) (Header req ++ [(key, value)]).

Definition io_ReadAll (body : string + error) : string * option error :=
  match body with
  | inl bytes => (bytes, None)
  | inr err => ("", Some err)
  end.

(** *** The policy engine ([rego]) as the package uses it *)

Record PreparedEvalQuery : Type := mkPreparedEvalQuery {
  Query : string;
  ModuleName : string;
  ModuleText : string
}.

Record ExpressionValue : Type := mkExpressionValue {
  Value : any;
  Text : string
}.

Record Result : Type := mkResult { Expressions : list ExpressionValue }.

Definition ResultSet : Type := list Result.

(** [map[string]interface{}] built by a literal: the keys with their values. *)
Definition Input : Type := list (string * any).

(** An operand of [fmt.Printf]. *)
Inductive operand : Type :=
| OpAny (v : any)
| OpMap (m : Input).

(** *** Calls to collaborators *)

Inductive Event : Type :=
| EvHttpDo (req : Request)
| EvBodyClose (resp : Response)
| EvGetUserTeams (organisation user : string)
| EvPrintf (format : string) (operands : list operand)
| EvRegoPrepare (query module_name module_text : string)
| EvRegoEval (query : PreparedEvalQuery) (input : Input).

Section Collaborators.
Context {World : Type}.

Local Abbreviation M := (Go.M World Event).

(** [*http.Client]: its [Do] method. *)
Record HttpClient_t : Type := mkHttpClient {
  Do : Request -> World -> (Response + error) * World
}.

(** [ci.CIService]: the one method the package calls. *)
Record CIService : Type := mkCIService {
  GetUserTeams : string -> string -> World -> (list string * option error) * World
}.

(** [http.NewRequest] fails when the URL does not parse; [rego]'s
    [PrepareForEval] fails when the module does not compile; [Eval] runs a
    prepared query on an input. *)
Variable url_Parse_error : string -> option error.
Variable rego_compile_error : string -> string -> string -> option error.
Variable rego_Eval : PreparedEvalQuery -> Input -> World -> (ResultSet * option error) * World.

Definition http_NewRequest (method url : string) : Request + error :=
  match url_Parse_error url with
  | Some err => inr err
  | None => inl (mkRequest method url [])
  end.

Definition HttpClient_Do (c : HttpClient_t) (req : Request) : M (Response + error) :=
  emit (EvHttpDo req) ;;; external (Do c req).

Definition fmt_Printf (format : string) (operands : list operand) : M unit :=
  emit (EvPrintf format operands).

Definition rego_PrepareForEval (query module_name module_text : string)
  : M (PreparedEvalQuery * option error) :=
  emit (EvRegoPrepare query module_name module_text) ;;;
  ret (mkPreparedEvalQuery query module_name module_text,
       rego_compile_error query module_name module_text).

Definition query_Eval (query : PreparedEvalQuery) (input : Input)
  : M (ResultSet * option error) :=
  emit (EvRegoEval query input) ;;; external (rego_Eval query input).

(** The provider behind a pointer that is not nil, holding a client that
    is not nil. The code dereferences both without a test; with a nil one
    it panics, and such runs are outside what is stated below. *)
Record DiggerHttpPolicyProvider : Type := mkDiggerHttpPolicyProvider {
  DiggerHost : string;
  DiggerOrganisation : string;
  AuthToken : string;
  HttpClient : HttpClient_t
}.

Inductive NoOpPolicyChecker : Type := mkNoOpPolicyChecker.

Definition NoOpPolicyChecker_Check (p : NoOpPolicyChecker)
  (_ _ _ _ _ : string) : M (bool * option error) :=
  ret (true, None).

Definition getPolicyForOrganisation (p : DiggerHttpPolicyProvider)
  : M (string * option Response * option error) :=
  let organisation := DiggerOrganisation p in
  match http_NewRequest "GET"
          (DiggerHost p ++ "/orgs/" ++ organisation ++ "/access-policy") with
  | inr err => ret ("", None, Some err)
  | inl req =>
      let req := Header_Add req "Authorization" ("Bearer " ++ AuthToken p) in
      r <- HttpClient_Do (HttpClient p) req ;;
      match r with
      | inr err => ret ("", None, Some err)
      | inl resp =>
          let '(body, err) := io_ReadAll (Body resp) in
          emit (EvBodyClose resp) ;;;
          match err with
          | Some _ => ret ("", Some resp, None)
          | None => ret (body, Some resp, None)
          end
      end
  end.

Definition getPolicyForNamespace (p : DiggerHttpPolicyProvider)
  (namespace projectName : string)
  : M (string * option Response * option error) :=
  let namespace := strings_ReplaceAll namespace "/" "-" in
  match http_NewRequest "GET"
          (DiggerHost p ++ "/repos/" ++ namespace ++ "/projects/" ++ projectName
           ++ "/access-policy") with
  | inr err => ret ("", None, Some err)
  | inl req =>
      let req := Header_Add req "Authorization" ("Bearer " ++ AuthToken p) in
      r <- HttpClient_Do (HttpClient p) req ;;
      match r with
      | inr err => ret ("", None, Some err)
      | inl resp =>
          let '(body, err) := io_ReadAll (Body resp) in
          emit (EvBodyClose resp) ;;;
          match err with
          | Some _ => ret ("", Some resp, None)
          | None => ret (body, Some resp, None)
          end
      end
  end.

Definition GetPolicy (p : DiggerHttpPolicyProvider) (namespace projectName : string)
  : M (string * option error) :=
  '(content, resp, err) <- getPolicyForNamespace p namespace projectName ;;
  match err with
  | Some err => ret ("", Some err)
  | None =>
      resp <- deref resp ;;
      if (StatusCode resp =? 200)%Z then ret (content, None)
      else if (StatusCode resp =? 404)%Z then
        '(content, resp, err) <- getPolicyForOrganisation p ;;
        match err with
        | Some err => ret ("", Some err)
        | None =>
            resp <- deref resp ;;
            if (StatusCode resp =? 200)%Z then ret (content, None)
            else if (StatusCode resp =? 404)%Z then ret ("", None)
            else ret ("", Some (errors_New
                   ("unexpected response while fetching organisation policy: "
                    ++ content ++ ", code " ++ fmt_int (StatusCode resp))))
        end
      else ret ("", Some (errors_New
             ("unexpected response while fetching org policy: "
              ++ content ++ " code " ++ fmt_int (StatusCode resp))))
  end.

(** The checker with its CI service set. With a nil [ciService] the call
    of [GetUserTeams] panics, and such runs are outside what is stated
    below. *)
Record DiggerPolicyChecker : Type := mkDiggerPolicyChecker {
  PolicyProvider : DiggerHttpPolicyProvider;
  ciService : CIService
}.

Definition ciService_GetUserTeams (c : CIService) (organisation user : string)
  : M (list string * option error) :=
  emit (EvGetUserTeams organisation user) ;;; external (GetUserTeams c organisation user).

(** The loop over [expressions] (lines 147-155) and the [return] after it. *)
Fixpoint Check_expressions (expressions : list ExpressionValue) : bool * option error :=
  match expressions with
  | [] => (true, None)
  | expression :: rest =>
      let '(decision, ok) := assert_bool (Value expression) in
      if negb ok then (false, Some (fmt_Errorf "decision is not a boolean"))
      else if negb decision then (false, None)
      else Check_expressions rest
  end.

Definition DiggerPolicyChecker_Check (p : DiggerPolicyChecker)
  (githubOrganisation namespace projectName command requestedBy : string)
  : M (bool * option error) :=
  let organisation := DiggerOrganisation (PolicyProvider p) in
  '(policy, err) <- GetPolicy (PolicyProvider p) namespace projectName ;;
  '(teams, err) <- ciService_GetUserTeams (ciService p) githubOrganisation requestedBy ;;
  match err with
  | Some err =>
      fmt_Printf "Error while fetching user teams for CI service: %v" [OpAny (AError err)] ;;;
      ret (false, Some err)
  | None =>
      let input : Input :=
        [ ("user", AString requestedBy);
          ("organisation", AString organisation);
          ("teams", AStrings teams);
          ("action", AString command);
          ("project", AString projectName) ] in
      if policy =? "" then ret (true, None)
      else
        fmt_Printf "DEBUG: passing the following input policy: %v ||| text: %v"
                   [OpMap input; OpAny (AString policy)] ;;;
        '(query, err) <- rego_PrepareForEval "data.digger.allow" "digger" policy ;;
        match err with
        | Some err => ret (false, Some err)
        | None =>
            '(results, err) <- query_Eval query input ;;
            if (length results =? 0)%nat
               || (length (Expressions (nth 0 results (mkResult []))) =? 0)%nat
            then ret (false, Some (fmt_Errorf "no result found"))
            else
              let expressions := Expressions (nth 0 results (mkResult [])) in
              ret (Check_expressions expressions)
        end
  end.

(** The interfaces of [pkg/core/policy] and the types that implement them. *)
Class Provider (T : Type) : Type := {
  Provider_GetPolicy : T -> string -> string -> M (string * option error)
}.

Class Checker (T : Type) : Type := {
  Checker_Check : T -> string -> string -> string -> string -> string -> M (bool * option error)
}.

#[export] Instance DiggerHttpPolicyProvider_Provider : Provider DiggerHttpPolicyProvider :=
  {| Provider_GetPolicy := GetPolicy |}.

#[export] Instance NoOpPolicyChecker_Checker : Checker NoOpPolicyChecker :=
  {| Checker_Check := NoOpPolicyChecker_Check |}.

#[export] Instance DiggerPolicyChecker_Checker : Checker DiggerPolicyChecker :=
  {| Checker_Check := DiggerPolicyChecker_Check |}.

End Collaborators.
End policy.

(** ** Package [digger]: the declarations the [gitlab] package uses *)

Module digger.

Record WorkflowConfiguration : Type := mkWorkflowConfiguration {
  OnPullRequestPushed : list string;
  OnPullRequestClosed : list string;
  OnCommitToDefault : list string
}.

Module Project.
Record t : Type := mk {
  Name : string;
  Dir : string;
  Workspace : string;
  Terragrunt : bool;
  WorkflowConfiguration : digger.WorkflowConfiguration
}.
End Project.

Module ProjectCommand.
Record t : Type := mk {
  ProjectName : string;
  ProjectDir : string;
  ProjectWorkspace : string;
  Terragrunt : bool;
  Commands : list string
}.
End ProjectCommand.

End digger.

(** ** Package [gitlab]: the event router and the orchestrator *)

Module gitlab.
Import Go.
Import digger.
Local Open Scope go_scope.

Definition PipelineSourceType : Type := string.
Definition GitLabEventType : Type := string.

Module GitLabContext.
Record t : Type := mk {
  PipelineSource : PipelineSourceType;
  EventType : GitLabEventType;
  PipelineId : option Z;
  PipelineIId : option Z;
  MergeRequestId : option Z;
  MergeRequestIId : option Z;
  ProjectName : string;
  ProjectNamespace : string;
  ProjectId : option Z;
  ProjectNamespaceId : option Z;
  Token : string;
  DiggerCommand : string
}.
End GitLabContext.

Module GitLabEvent.
Record t : Type := mk { EventType : GitLabEventType }.
End GitLabEvent.

Definition GitLabEventType_String (e : GitLabEventType) : string := e.

Definition MergeRequestOpened : GitLabEventType := "merge_request_opened".
Definition MergeRequestUpdated : GitLabEventType := "merge_request_updated".
Definition MergeRequestClosed : GitLabEventType := "merge_request_closed".
Definition MergeRequestComment : GitLabEventType := "merge_request_commented".

(** [%v] of a [GitLabEvent]: the struct's one field, printed through its
    [String] method, between braces. *)
Definition fmt_GitLabEvent (event : GitLabEvent.t) : string :=
  "{" ++ GitLabEventType_String (GitLabEvent.EventType event) ++ "}".

Definition ConvertGitLabEventToCommands (event : GitLabEvent.t)
  (gitLabContext : option GitLabContext.t) (impactedProjects : list Project.t)
  : Outcome (list ProjectCommand.t * option error) :=
  let commandsPerProject : list ProjectCommand.t := [] in
  if GitLabEvent.EventType event =? MergeRequestOpened then
    let commandsPerProject :=
      fold_left (fun commandsPerProject project =>
        commandsPerProject ++
        [ProjectCommand.mk (Project.Name project) (Project.Dir project)
           (Project.Workspace project) (Project.Terragrunt project)
           (OnCommitToDefault (Project.WorkflowConfiguration project))])
        impactedProjects commandsPerProject in
    Returned (commandsPerProject, None)
  else if GitLabEvent.EventType event =? MergeRequestUpdated then
    let commandsPerProject :=
      fold_left (fun commandsPerProject project =>
        commandsPerProject ++
        [ProjectCommand.mk (Project.Name project) (Project.Dir project)
           (Project.Workspace project) (Project.Terragrunt project)
           (OnPullRequestPushed (Project.WorkflowConfiguration project))])
        impactedProjects commandsPerProject in
    Returned (commandsPerProject, None)
  else if GitLabEvent.EventType event =? MergeRequestClosed then
    let commandsPerProject :=
      fold_left (fun commandsPerProject project =>
        commandsPerProject ++
        [ProjectCommand.mk (Project.Name project) (Project.Dir project)
           (Project.Workspace project) (Project.Terragrunt project)
           (OnPullRequestClosed (Project.WorkflowConfiguration project))])
        impactedProjects commandsPerProject in
    Returned (commandsPerProject, None)
  else if GitLabEvent.EventType event =? MergeRequestComment then
    let supportedCommands :=
      ["digger plan"; "digger apply"; "digger unlock"; "digger lock"] in
    match
      range_pure supportedCommands (fun commandsPerProject command =>
        match gitLabContext with
        | None => Panicked nil_dereference
        | Some ctx =>
            if strings_Contains (GitLabContext.DiggerCommand ctx) command then
              Returned
                (fold_left (fun commandsPerProject project =>
                   let workspace := Project.Workspace project in
                   commandsPerProject ++
                   [ProjectCommand.mk (Project.Name project) (Project.Dir project)
                      workspace (Project.Terragrunt project) [command]])
                   impactedProjects commandsPerProject)
            else Returned commandsPerProject
        end) commandsPerProject
    with
    | Returned commandsPerProject => Returned (commandsPerProject, None)
    | Panicked msg => Panicked msg
    | Exited code => Exited code
    end
  else
    Returned ([], Some (fmt_Errorf ("unsupported GitLab event type: " ++ fmt_GitLabEvent event))).

(** *** The orchestrator *)

Section Orchestrator.
(** [utils.Lock], [CIService] and [digger.DiggerConfig] are passed through
    to the executor and never inspected here. *)
Context {World Lock CIService DiggerConfig : Type}.

Record ProjectLockImpl : Type := mkProjectLockImpl {
  InternalLock : Lock;
  PrManager : CIService;
  ProjectName : string;
  RepoName : string;
  RepoOwner : string
}.

(** [digger.DiggerExecutor] is built by a positional literal; its
    declaration is in package [digger]. The fields are listed in the order
    of the literal and named after the values it receives. *)
Record DiggerExecutor : Type := mkDiggerExecutor {
  executor_workingDir : string;
  executor_workspace : string;
  executor_repoOwner : string;
  executor_projectName : string;
  executor_projectDir : string;
  executor_repoName : string;
  executor_terragrunt : bool;
  executor_ciService : CIService;
  executor_projectLock : ProjectLockImpl;
  executor_diggerConfig : option DiggerConfig
}.

(** Calls that leave the orchestrator. [EvCheck] is a call of
    [policy.Checker.Check] with its decision; [EvLock] carries what the
    acquisition returned. *)
Inductive Event : Type :=
| EvCheck (organisation namespace project command requestedBy : string) (allowed : bool)
| EvSendUsageRecord (repoOwner eventName action : string)
| EvPlan (executor : DiggerExecutor) (prNumber : Z)
| EvApply (executor : DiggerExecutor) (prNumber : Z)
| EvUnlock (executor : DiggerExecutor) (prNumber : Z)
| EvLock (executor : DiggerExecutor) (prNumber : Z) (acquired : bool).

Local Abbreviation M := (Go.M World Event).

(** The executor's four operations and the usage telemetry act on the
    world; of their results the orchestrator reads only what [Lock]
    returns. *)
Variable executor_Plan : DiggerExecutor -> Z -> World -> World.
Variable executor_Apply : DiggerExecutor -> Z -> World -> World.
Variable executor_Unlock : DiggerExecutor -> Z -> World -> World.
Variable executor_Lock : DiggerExecutor -> Z -> World -> bool * World.
Variable usage_record : string -> string -> string -> World -> World.

Definition utils_SendUsageRecord (repoOwner eventName action : string) : M unit :=
  emit (EvSendUsageRecord repoOwner eventName action) ;;;
  external (fun w => (tt, usage_record repoOwner eventName action w)).

Definition DiggerExecutor_Plan (e : DiggerExecutor) (prNumber : Z) : M unit :=
  emit (EvPlan e prNumber) ;;; external (fun w => (tt, executor_Plan e prNumber w)).

Definition DiggerExecutor_Apply (e : DiggerExecutor) (prNumber : Z) : M unit :=
  emit (EvApply e prNumber) ;;; external (fun w => (tt, executor_Apply e prNumber w)).

Definition DiggerExecutor_Unlock (e : DiggerExecutor) (prNumber : Z) : M unit :=
  emit (EvUnlock e prNumber) ;;; external (fun w => (tt, executor_Unlock e prNumber w)).

Definition DiggerExecutor_Lock (e : DiggerExecutor) (prNumber : Z) : M bool :=
  acquired <- external (executor_Lock e prNumber) ;;
  emit (EvLock e prNumber acquired) ;;;
  ret acquired.

Definition RunCommandsPerProject (commandsPerProject : list ProjectCommand.t)
  (gitLabContext : GitLabContext.t) (diggerConfig : option DiggerConfig)
  (service : CIService) (lock : Lock) (workingDir : string) : M (option error) :=
  let lockAcquisitionSuccess := true in
  lockAcquisitionSuccess <-
    for_range commandsPerProject (fun lockAcquisitionSuccess projectCommands =>
      for_range (ProjectCommand.Commands projectCommands)
        (fun lockAcquisitionSuccess command =>
          let projectLock :=
            mkProjectLockImpl lock service
              (ProjectCommand.ProjectName projectCommands)
              (GitLabContext.ProjectName gitLabContext)
              (GitLabContext.ProjectNamespace gitLabContext) in
          let diggerExecutor :=
            mkDiggerExecutor workingDir
              (ProjectCommand.ProjectWorkspace projectCommands)
              (GitLabContext.ProjectNamespace gitLabContext)
              (ProjectCommand.ProjectName projectCommands)
              (ProjectCommand.ProjectDir projectCommands)
              (GitLabContext.ProjectName gitLabContext)
              (ProjectCommand.Terragrunt projectCommands)
              service projectLock diggerConfig in
          if command =? "digger plan" then
            utils_SendUsageRecord (GitLabContext.ProjectNamespace gitLabContext)
              (GitLabEventType_String (GitLabContext.EventType gitLabContext)) "plan" ;;;
            prNumber <- deref (GitLabContext.MergeRequestIId gitLabContext) ;;
            DiggerExecutor_Plan diggerExecutor prNumber ;;;
            ret lockAcquisitionSuccess
          else if command =? "digger apply" then
            utils_SendUsageRecord (GitLabContext.ProjectName gitLabContext)
              (GitLabEventType_String (GitLabContext.EventType gitLabContext)) "apply" ;;;
            prNumber <- deref (GitLabContext.MergeRequestIId gitLabContext) ;;
            DiggerExecutor_Apply diggerExecutor prNumber ;;;
            ret lockAcquisitionSuccess
          else if command =? "digger unlock" then
            utils_SendUsageRecord (GitLabContext.ProjectNamespace gitLabContext)
              (GitLabEventType_String (GitLabContext.EventType gitLabContext)) "unlock" ;;;
            prNumber <- deref (GitLabContext.MergeRequestIId gitLabContext) ;;
            DiggerExecutor_Unlock diggerExecutor prNumber ;;;
            ret lockAcquisitionSuccess
          else if command =? "digger lock" then
            utils_SendUsageRecord (GitLabContext.ProjectNamespace gitLabContext)
              (GitLabEventType_String (GitLabContext.EventType gitLabContext)) "lock" ;;;
            prNumber <- deref (GitLabContext.MergeRequestIId gitLabContext) ;;
            DiggerExecutor_Lock diggerExecutor prNumber
          else ret lockAcquisitionSuccess)
        lockAcquisitionSuccess)
      lockAcquisitionSuccess ;;
  if negb lockAcquisitionSuccess then os_Exit 1 else ret None.

End Orchestrator.

End gitlab.

(** ** Vocabulary of the properties and concrete scenarios *)

Module scenario.
Import Go.

(** What a fetch hands back: an error with no response and no content, or
    a response with no error. *)
Inductive fetch_shape : string * option policy.Response * option error -> Prop :=
| fetch_failed (err : error) : fetch_shape ("", None, Some err)
| fetch_answered (content : string) (resp : policy.Response) :
    fetch_shape (content, Some resp, None).

(** An HTTP client that answers requests under [/repos/] of the host with
    [project] and every other request with [organisation]. *)
Definition scripted_client (host : string) (project organisation : policy.Response + error)
  : @policy.HttpClient_t unit :=
  policy.mkHttpClient
    (fun req w =>
       (if prefix (host ++ "/repos/") (policy.URL req) then project else organisation, w)).

Definition provider (project organisation : policy.Response + error)
  : @policy.DiggerHttpPolicyProvider unit :=
  policy.mkDiggerHttpPolicyProvider "https://cloud.digger.dev" "acme" "t0ken"
    (scripted_client "https://cloud.digger.dev" project organisation).

(** A CI service whose team lookup always answers [answer]. *)
Definition fixed_teams (answer : list string * option error) : @policy.CIService unit :=
  policy.mkCIService (fun _ _ w => (answer, w)).

Definition checker (project organisation : policy.Response + error)
  (answer : list string * option error) : @policy.DiggerPolicyChecker unit :=
  policy.mkDiggerPolicyChecker (provider project organisation) (fixed_teams answer).

(** Every URL parses, every module compiles, and the engine answers
    [results] with no error. *)
Definition url_ok (_ : string) : option error := None.
Definition compile_ok (_ _ _ : string) : option error := None.
Definition eval_to (results : policy.ResultSet)
  : policy.PreparedEvalQuery -> policy.Input -> unit -> (policy.ResultSet * option error) * unit :=
  fun _ _ w => ((results, None), w).

Definition start : Go.State unit policy.Event := mkState tt [].

(** The fact set that [Check] hands to the policy engine. *)
Definition facts (requestedBy organisation : string) (teams : list string)
  (command projectName : string) : policy.Input :=
  [ ("user", AString requestedBy);
    ("organisation", AString organisation);
    ("teams", AStrings teams);
    ("action", AString command);
    ("project", AString projectName) ].

(** The event is a call of the policy engine. *)
Definition engine_event (e : policy.Event) : bool :=
  match e with
  | policy.EvRegoPrepare _ _ _ | policy.EvRegoEval _ _ => true
  | _ => false
  end.

(** Between [st] and [st'] the trace was extended, and no call of the
    policy engine is among what was appended. *)
Definition quiet {World : Type} (st st' : Go.State World policy.Event) : Prop :=
  exists tr, trace st' = trace st ++ tr /\ existsb engine_event tr = false.



Definition expr (v : any) : policy.ExpressionValue :=
  policy.mkExpressionValue v "data.digger.allow".

Definition found (body : string) : policy.Response + error :=
  inl (policy.mkResponse 200 (inl body)).
Definition not_found : policy.Response + error :=
  inl (policy.mkResponse 404 (inl "not found")).
Definition server_error : policy.Response + error :=
  inl (policy.mkResponse 500 (inl "boom")).

(** *** The event router *)

(** The command vocabulary of comments, in the order the router tries it. *)
Definition vocabulary : list string :=
  ["digger plan"; "digger apply"; "digger unlock"; "digger lock"].

Definition recognised (command : string) : bool :=
  existsb (String.eqb command) vocabulary.

(** The unit of work for [project] carrying [commands]: name, dir,
    workspace and tool-dialect flag are the project's. *)
Definition command_for (project : digger.Project.t) (commands : list string)
  : digger.ProjectCommand.t :=
  digger.ProjectCommand.mk (digger.Project.Name project) (digger.Project.Dir project)
    (digger.Project.Workspace project) (digger.Project.Terragrunt project) commands.

Definition workflow (project : digger.Project.t) : digger.WorkflowConfiguration :=
  digger.Project.WorkflowConfiguration project.

Definition plan_only : digger.WorkflowConfiguration :=
  digger.mkWorkflowConfiguration ["digger plan"] ["digger unlock"] ["digger plan"].

Definition vpc : digger.Project.t :=
  digger.Project.mk "vpc" "infra/vpc" "default" false plan_only.

Definition db : digger.Project.t :=
  digger.Project.mk "db" "infra/db" "prod" true plan_only.

(** A merge-request pipeline of project [acme/infra] with comment [text]
    and merge-request number [iid]. *)
Definition context (text : string) (iid : option Z) : gitlab.GitLabContext.t :=
  gitlab.GitLabContext.mk "merge_request_event" gitlab.MergeRequestComment
    (Some 7%Z) (Some 3%Z) (Some 40%Z) iid "infra" "acme" (Some 11%Z) (Some 5%Z)
    "glpat" text.

(** *** The orchestrator *)

Section Traces.
Context {Lock CIService DiggerConfig : Type}.

Local Abbreviation Event := (@gitlab.Event Lock CIService DiggerConfig).

(** The exit status of the process is non-zero: [os.Exit] with a non-zero
    code, or a panic. *)
Definition failing_status (o : Outcome (option error)) : bool :=
  match o with
  | Returned _ => false
  | Panicked _ => true
  | Exited code => negb (code =? 0)%Z
  end.

(** Some lock acquisition in the trace returned [false]. *)
Definition lock_failed (tr : list Event) : bool :=
  existsb (fun e => match e with gitlab.EvLock _ _ acquired => negb acquired | _ => false end) tr.

(** What the last lock acquisition in the trace returned; [acc] when the
    trace holds none. *)
Definition last_lock (tr : list Event) (acc : bool) : bool :=
  fold_left (fun acc e => match e with gitlab.EvLock _ _ acquired => acquired | _ => acc end)
    tr acc.

Definition is_check (e : Event) : bool :=
  match e with gitlab.EvCheck _ _ _ _ _ _ => true | _ => false end.

(** The project and command that an event hands to the executor. *)
Definition delegated (e : Event) : option (string * string) :=
  match e with
  | gitlab.EvPlan ex _ => Some (gitlab.executor_projectName ex, "digger plan")
  | gitlab.EvApply ex _ => Some (gitlab.executor_projectName ex, "digger apply")
  | gitlab.EvUnlock ex _ => Some (gitlab.executor_projectName ex, "digger unlock")
  | gitlab.EvLock ex _ _ => Some (gitlab.executor_projectName ex, "digger lock")
  | _ => None
  end.

Definition delegations (tr : list Event) : list (string * string) :=
  flat_map (fun e => match delegated e with Some d => [d] | None => [] end) tr.

(** The recognised commands of a batch with their projects, in order. *)
Definition requested (batch : list digger.ProjectCommand.t) : list (string * string) :=
  flat_map (fun pc =>
              map (pair (digger.ProjectCommand.ProjectName pc))
                (filter recognised (digger.ProjectCommand.Commands pc))) batch.

Definition same (a b : string * string) : bool :=
  (fst a =? fst b) && (snd a =? snd b).

(** Every delegation in the trace comes after an authorization check that
    allowed the same command on the same project; [allowed] holds the
    decisions seen so far. *)
Fixpoint authorized_before (allowed : list (string * string)) (tr : list Event) : bool :=
  match tr with
  | [] => true
  | gitlab.EvCheck _ _ project command _ true :: tr' =>
      authorized_before ((project, command) :: allowed) tr'
  | e :: tr' =>
      match delegated e with
      | Some d => existsb (same d) allowed && authorized_before allowed tr'
      | None => authorized_before allowed tr'
      end
  end.

(** What one loop, or one iteration, did between two states: it appended
    [tr] to the trace, made no authorization check, delegated [ds], and
    left in the flag what the last acquisition returned. *)
Definition summary {World : Type} (ds : list (string * string))
  (acc : bool) (st : Go.State World Event) (acc' : bool) (st' : Go.State World Event) : Prop :=
  exists tr, trace st' = trace st ++ tr
             /\ Forall (fun e => is_check e = false) tr
             /\ delegations tr = ds
             /\ acc' = last_lock tr acc.

End Traces.

(** A world that scripts the answers of the lock acquisitions; the other
    operations leave it alone. *)
Definition scripted_Lock {E : Type} (_ : E) (_ : Z) (w : list bool) : bool * list bool :=
  match w with
  | answer :: w' => (answer, w')
  | [] => (true, [])
  end.

Definition idle {E : Type} (_ : E) (_ : Z) (w : list bool) : list bool := w.

Definition no_usage (_ _ _ : string) (w : list bool) : list bool := w.

(** The orchestrator run on [batch] with lock answers [answers]. *)
Definition run (batch : list digger.ProjectCommand.t) (iid : option Z) (answers : list bool)
  : Outcome (option error) * Go.State (list bool) (@gitlab.Event unit unit unit) :=
  gitlab.RunCommandsPerProject idle idle idle scripted_Lock no_usage
    batch (context "" iid) None tt tt "/work" (mkState answers []).

End scenario.

(** ** Package [gitlab]: context parsing, the CI service and the event intake *)

Module gitlab_ci.
Import Go.
Import digger.
Local Open Scope go_scope.

(** *** [go-gitlab] as the package uses it *)

Record MergeRequestDiff : Type := mkMergeRequestDiff {
  OldPath : string;
  NewPath : string
}.

Record MergeRequest : Type := mkMergeRequest { Changes : list MergeRequestDiff }.

(** An operand of the two [fmt.Printf] calls of [ParseGitLabContext]. *)
Inductive printed : Type :=
| PError (err : error)
| PContext (ctx : gitlab.GitLabContext.t).

Inductive Event : Type :=
| EvEnvParse
| EvPrintf (format : string) (operand : printed)
| EvNewClient (token : string)
| EvLogFatalf (format : string) (err : error)
| EvGetMergeRequestChanges (pid mergeRequest : Z)
| EvGetModifiedProjects (changedFiles : list string).

Definition newline : string := String (Ascii.ascii_of_nat 10) EmptyString.

(** [s[i] = v] on a slice: out of range it panics. *)
Fixpoint set_index {A : Type} (s : list A) (i : nat) (v : A) : option (list A) :=
  match s, i with
  | [], _ => None
  | _ :: s', O => Some (v :: s')
  | x :: s', S i' =>
      match set_index s' i' v with
      | Some s'' => Some (x :: s'')
      | None => None
      end
  end.

Definition index_out_of_range : string := "index out of range".

(** [for i, x := range l]: the elements with their indices. *)
Definition enumerate {A : Type} (l : list A) : list (nat * A) :=
  combine (seq 0 (List.length l)) l.

Section Service.
Context {World Client DiggerConfig : Type}.

Local Abbreviation M := (Go.M World Event).

(** [env.Parse] fills the struct it is given and may fail;
    [go_gitlab.NewClient] and [GetMergeRequestChanges] give a value or an
    error; [GetModifiedProjects] is the configuration's method. *)
Variable env_Parse : World -> (gitlab.GitLabContext.t * option error) * World.
Variable go_gitlab_NewClient : string -> World -> (Client + error) * World.
Variable MergeRequests_GetMergeRequestChanges :
  Client -> Z -> Z -> World -> (MergeRequest + error) * World.
Variable DiggerConfig_GetModifiedProjects :
  option DiggerConfig -> list string -> World -> list Project.t * World.

(** The result of pure code inside a run. *)
Definition lift {A : Type} (o : Outcome A) : M A := fun st => (o, st).

Definition fmt_Printf (format : string) (operand : printed) : M unit :=
  emit (EvPrintf format operand).

(** [log.Fatalf] prints and exits with status 1. *)
Definition log_Fatalf {A : Type} (format : string) (err : error) : M A :=
  emit (EvLogFatalf format err) ;;; os_Exit 1.

(** The interface [CIService] of this package. *)
Record CIService : Type := mkCIService {
  GetChangedFiles : Z -> M (list string * option error);
  PublishComment : Z -> string -> M unit
}.

Record GitLabService : Type := mkGitLabService {
  Client_ : option Client;
  Context_ : option gitlab.GitLabContext.t
}.

Definition PipelineSourceType_String (t : gitlab.PipelineSourceType) : string := t.

Definition ParseGitLabContext : M (option gitlab.GitLabContext.t * option error) :=
  '(parsedGitLabContext, err) <- (emit EvEnvParse ;;; external env_Parse) ;;
  match err with
  | Some err => fmt_Printf ("%+v" ++ newline) (PError err)
  | None => ret tt
  end ;;;
  fmt_Printf ("%+v" ++ newline) (PContext parsedGitLabContext) ;;;
  ret (Some parsedGitLabContext, None).

Definition GitLabService_GetChangedFiles (gitlabService : GitLabService)
  (mergeRequestId : Z) : M (list string * option error) :=
  client <- deref (Client_ gitlabService) ;;
  context <- deref (Context_ gitlabService) ;;
  projectId <- deref (gitlab.GitLabContext.ProjectId context) ;;
  r <- (emit (EvGetMergeRequestChanges projectId mergeRequestId) ;;;
        external (MergeRequests_GetMergeRequestChanges client projectId mergeRequestId)) ;;
  match r with
  | inr err => log_Fatalf "error getting gitlab's merge request: %v" err
  | inl mergeRequestChanges =>
      let fileNames := repeat "" (List.length (Changes mergeRequestChanges)) in
      fileNames <-
        lift (range_pure (enumerate (Changes mergeRequestChanges))
                (fun fileNames '(i, change) =>
                   match set_index fileNames i (NewPath change) with
                   | Some fileNames => Returned fileNames
                   | None => Panicked index_out_of_range
                   end) fileNames) ;;
      ret (fileNames, None)
  end.

Definition GitLabService_PublishComment (gitlabService : GitLabService)
  (mergeRequest : Z) (comment : string) : M unit :=
  ret tt.

(** [GitLabService] as a [CIService]. *)
Definition GitLabService_CIService (gitlabService : GitLabService) : CIService :=
  mkCIService (GitLabService_GetChangedFiles gitlabService)
    (GitLabService_PublishComment gitlabService).

Definition NewGitLabService (token : string) (gitLabContext : option gitlab.GitLabContext.t)
  : M (CIService * option error) :=
  r <- (emit (EvNewClient token) ;;; external (go_gitlab_NewClient token)) ;;
  match r with
  | inr err => log_Fatalf "failed to create gitlab client: %v" err
  | inl client =>
      ret (GitLabService_CIService (mkGitLabService (Some client) gitLabContext), None)
  end.

Definition ProcessGitLabEvent (gitlabContext : option gitlab.GitLabContext.t)
  (diggerConfig : option DiggerConfig) (service : CIService)
  : M (list Project.t * option error) :=
  context <- deref gitlabContext ;;
  let mergeRequestId := gitlab.GitLabContext.MergeRequestIId context in
  mergeRequestId <- deref mergeRequestId ;;
  '(changedFiles, err) <- GetChangedFiles service mergeRequestId ;;
  match err with
  | Some _ => ret ([], Some (fmt_Errorf "could not get changed files"))
  | None =>
      impactedProjects <-
        (emit (EvGetModifiedProjects changedFiles) ;;;
         external (DiggerConfig_GetModifiedProjects diggerConfig changedFiles)) ;;
      ret (impactedProjects, None)
  end.

End Service.
End gitlab_ci.

(** ** Further vocabulary: what a trace shows, and more scenarios *)

Module observe.
Import Go.

(** *** The policy provider and the checker *)

(** The HTTP requests of a trace, in order. *)
Definition requests (tr : list policy.Event) : list policy.Request :=
  flat_map (fun e => match e with policy.EvHttpDo req => [req] | _ => [] end) tr.

(** ["/"] becomes ["-"], every other character stays. *)
Definition dash (c : ascii) : ascii := if Ascii.eqb c "/" then "-"%char else c.

Fixpoint map_chars (f : ascii -> ascii) (s : string) : string :=
  match s with
  | EmptyString => EmptyString
  | String c s' => String (f c) (map_chars f s')
  end.

Section Provider.
Context {World : Type}.

Definition bearer (p : @policy.DiggerHttpPolicyProvider World) : list (string * string) :=
  [("Authorization", ("Bearer " ++ policy.AuthToken p)%string)].

(** The request for the access policy of a project, with namespace
    segment [segment], and the one for the organisation's. *)
Definition project_request (p : @policy.DiggerHttpPolicyProvider World)
  (segment projectName : string) : policy.Request :=
  policy.mkRequest "GET"
    (policy.DiggerHost p ++ "/repos/" ++ segment ++ "/projects/" ++ projectName
     ++ "/access-policy")
    (bearer p).

Definition organisation_request (p : @policy.DiggerHttpPolicyProvider World)
  : policy.Request :=
  policy.mkRequest "GET"
    (policy.DiggerHost p ++ "/orgs/" ++ policy.DiggerOrganisation p ++ "/access-policy")
    (bearer p).

End Provider.


(** A response with status [status] whose body cannot be read, and a
    request that gets no response at all. *)
Definition unreadable (status : Z) : policy.Response + error :=
  inl (policy.mkResponse status (inr (errors_New "unexpected EOF"))).

Definition unreachable : policy.Response + error :=
  inr (errors_New "connection refused").

(** A parser that rejects every URL; a compiler that rejects every
    module; an engine that fails with no results. *)
Definition url_bad (_ : string) : option error := Some (errors_New "invalid URL escape").

Definition compile_fails (_ _ _ : string) : option error :=
  Some (errors_New "rego_parse_error").

Definition eval_fails
  : policy.PreparedEvalQuery -> policy.Input -> unit -> (policy.ResultSet * option error) * unit :=
  fun _ _ w => (([], Some (errors_New "eval_internal_error")), w).

(** *** The orchestrator *)

Section Wiring.
Context {Lock CIService DiggerConfig : Type}.

Local Abbreviation Event := (@gitlab.Event Lock CIService DiggerConfig).
Local Abbreviation DiggerExecutor := (@gitlab.DiggerExecutor Lock CIService DiggerConfig).

(** The executor and the merge-request number of a call that reaches the
    executor. *)
Definition executor_call (e : Event) : option (DiggerExecutor * Z) :=
  match e with
  | gitlab.EvPlan ex n | gitlab.EvApply ex n | gitlab.EvUnlock ex n
  | gitlab.EvLock ex n _ => Some (ex, n)
  | _ => None
  end.

(** The project lock of an executor is keyed like the executor itself:
    same owner, same repository, same project, same CI service. *)
Definition lock_matches (ex : DiggerExecutor) : Prop :=
  let l := gitlab.executor_projectLock ex in
  gitlab.RepoOwner l = gitlab.executor_repoOwner ex
  /\ gitlab.RepoName l = gitlab.executor_repoName ex
  /\ gitlab.ProjectName l = gitlab.executor_projectName ex
  /\ gitlab.PrManager l = gitlab.executor_ciService ex.

(** The executor works on project command [pc] of the repository of
    [gitLabContext]. *)
Definition works_on (gitLabContext : gitlab.GitLabContext.t)
  (pc : digger.ProjectCommand.t) (ex : DiggerExecutor) : Prop :=
  gitlab.executor_projectName ex = digger.ProjectCommand.ProjectName pc
  /\ gitlab.executor_projectDir ex = digger.ProjectCommand.ProjectDir pc
  /\ gitlab.executor_workspace ex = digger.ProjectCommand.ProjectWorkspace pc
  /\ gitlab.executor_terragrunt ex = digger.ProjectCommand.Terragrunt pc
  /\ gitlab.executor_repoOwner ex = gitlab.GitLabContext.ProjectNamespace gitLabContext
  /\ gitlab.executor_repoName ex = gitlab.GitLabContext.ProjectName gitLabContext.

(** An event that reaches the executor does so for merge request [n],
    with an executor that works on [pc], holds a matching lock, and was
    given the caller's lock store, service, configuration and working
    directory. *)
Definition wired (gitLabContext : gitlab.GitLabContext.t)
  (diggerConfig : option DiggerConfig) (service : CIService) (lock : Lock)
  (workingDir : string) (n : Z) (pc : digger.ProjectCommand.t) (e : Event) : Prop :=
  match executor_call e with
  | None => True
  | Some (ex, prNumber) =>
      prNumber = n
      /\ works_on gitLabContext pc ex
      /\ lock_matches ex
      /\ gitlab.InternalLock (gitlab.executor_projectLock ex) = lock
      /\ gitlab.executor_ciService ex = service
      /\ gitlab.executor_diggerConfig ex = diggerConfig
      /\ gitlab.executor_workingDir ex = workingDir
  end.

(** The usage record of a recognised command: owner, event name and
    action. Plan, unlock and lock are recorded under the repository's
    namespace, apply under the repository's name. *)
Definition usage_of (gitLabContext : gitlab.GitLabContext.t) (command : string)
  : string * string * string :=
  let eventName :=
    gitlab.GitLabEventType_String (gitlab.GitLabContext.EventType gitLabContext) in
  if command =? "digger plan"
  then (gitlab.GitLabContext.ProjectNamespace gitLabContext, eventName, "plan")
  else if command =? "digger apply"
  then (gitlab.GitLabContext.ProjectName gitLabContext, eventName, "apply")
  else if command =? "digger unlock"
  then (gitlab.GitLabContext.ProjectNamespace gitLabContext, eventName, "unlock")
  else (gitlab.GitLabContext.ProjectNamespace gitLabContext, eventName, "lock").

(** The state after the usage record [u] was sent from [st] and nothing
    else happened. *)
Definition sent {World : Type} (usage_record : string -> string -> string -> World -> World)
  (u : string * string * string) (st : Go.State World Event) : Go.State World Event :=
  let '(owner, eventName, action) := u in
  mkState (usage_record owner eventName action (world st))
    (trace st ++ [gitlab.EvSendUsageRecord owner eventName action]).

(** The batch holds no lock command. *)
Definition lock_free (batch : list digger.ProjectCommand.t) : Prop :=
  forall pc, In pc batch -> ~ In "digger lock" (digger.ProjectCommand.Commands pc).

End Wiring.

(** *** The CI service and the event intake *)

(** The context [env.Parse] leaves when no variable is set. *)
Definition zero_context : gitlab.GitLabContext.t :=
  gitlab.GitLabContext.mk "" "" None None None None "" "" None None "" "".

Definition parse_fails (w : unit) : (gitlab.GitLabContext.t * option error) * unit :=
  ((zero_context, Some (errors_New "env: parse error")), w).

(** An API that answers every request for merge-request changes with
    [changes]; one that fails. *)
Definition api_answers (changes : list gitlab_ci.MergeRequestDiff)
  : unit -> Z -> Z -> unit -> (gitlab_ci.MergeRequest + error) * unit :=
  fun _ _ _ w => (inl (gitlab_ci.mkMergeRequest changes), w).

Definition api_fails : unit -> Z -> Z -> unit -> (gitlab_ci.MergeRequest + error) * unit :=
  fun _ _ _ w => (inr (errors_New "404 Not Found"), w).

Definition client_fails (_ : string) (w : unit) : (unit + error) * unit :=
  (inr (errors_New "invalid base URL"), w).

Definition client_created (_ : string) (w : unit) : (unit + error) * unit :=
  (inl tt, w).

(** A configuration in which a change under "infra/vpc/" touches the
    project [vpc] and nothing else is a project. *)
Definition modified_projects (_ : option unit) (changedFiles : list string) (w : unit)
  : list digger.Project.t * unit :=
  (if existsb (prefix "infra/vpc/") changedFiles then [scenario.vpc] else [], w).

(** A CI service whose file listing returns an error. *)
Definition broken_service : @gitlab_ci.CIService unit :=
  gitlab_ci.mkCIService
    (fun _ => Go.ret (["stale"], Some (errors_New "rate limited")))
    (fun _ _ => Go.ret tt).

Definition ci_start : Go.State unit gitlab_ci.Event := mkState tt [].

End observe.

(** * Properties *)

Import Go.

(** ** The policy provider *)

Section ProviderProperties.
Import scenario.
Context {World : Type}.
Variable url_Parse_error : string -> option error.

Local Abbreviation getPolicyForNamespace := (@policy.getPolicyForNamespace World url_Parse_error).
Local Abbreviation getPolicyForOrganisation := (@policy.getPolicyForOrganisation World url_Parse_error).
Local Abbreviation GetPolicy := (@policy.GetPolicy World url_Parse_error).

Lemma quiet_refl (st : Go.State World policy.Event) : scenario.quiet st st.
Proof. exists []. now rewrite app_nil_r. Qed.

Lemma quiet_trans (st st' st'' : Go.State World policy.Event) :
  scenario.quiet st st' -> scenario.quiet st' st'' -> scenario.quiet st st''.
Proof.
  intros (tr1 & H1 & E1) (tr2 & H2 & E2). exists (tr1 ++ tr2). split.
  - rewrite H2, H1. now rewrite app_assoc.
  - rewrite existsb_app, E1, E2. reflexivity.
Qed.

Ltac quiet_by_trace :=
  match goal with
  | |- scenario.quiet ?st _ => eexists; cbn [trace]; rewrite <- ?app_assoc; split; reflexivity
  end.

Lemma getPolicyForNamespace_shape p namespace projectName st :
  exists r st', getPolicyForNamespace p namespace projectName st = (Returned r, st')
                /\ fetch_shape r /\ scenario.quiet st st'.
Proof.
  unfold policy.getPolicyForNamespace, policy.http_NewRequest.
  destruct (url_Parse_error _) as [err|]; cbn.
  - eexists _, _; split; [reflexivity | split; [constructor | apply quiet_refl]].
  - unfold bind, policy.HttpClient_Do, bind, emit, external; cbn.
    destruct (policy.Do _ _ _) as [[resp|err] w]; cbn.
    + destruct (policy.Body resp) as [bytes|rerr]; cbn;
        eexists _, _; (split; [reflexivity | split; [constructor | quiet_by_trace]]).
    + eexists _, _; split; [reflexivity | split; [constructor | quiet_by_trace]].
Qed.

Lemma getPolicyForOrganisation_shape p st :
  exists r st', getPolicyForOrganisation p st = (Returned r, st')
                /\ fetch_shape r /\ scenario.quiet st st'.
Proof.
  unfold policy.getPolicyForOrganisation, policy.http_NewRequest.
  destruct (url_Parse_error _) as [err|]; cbn.
  - eexists _, _; split; [reflexivity | split; [constructor | apply quiet_refl]].
  - unfold bind, policy.HttpClient_Do, bind, emit, external; cbn.
    destruct (policy.Do _ _ _) as [[resp|err] w]; cbn.
    + destruct (policy.Body resp) as [bytes|rerr]; cbn;
        eexists _, _; (split; [reflexivity | split; [constructor | quiet_by_trace]]).
    + eexists _, _; split; [reflexivity | split; [constructor | quiet_by_trace]].
Qed.

(** [GetPolicy] always returns (no nil response is ever dereferenced),
    whenever it returns an error the policy text it returns is empty, and
    it makes no call of the policy engine. *)
Lemma GetPolicy_returns p namespace projectName st :
  exists content err st',
    GetPolicy p namespace projectName st = (Returned (content, err), st')
    /\ (err <> None -> content = "")
    /\ scenario.quiet st st'.
Proof.
  unfold policy.GetPolicy, bind.
  destruct (getPolicyForNamespace_shape p namespace projectName st)
    as (r & st1 & -> & Hr & Hq).
  destruct Hr as [err | content resp]; cbn.
  - eexists _, _, _; split; [reflexivity | split; [reflexivity | exact Hq]].
  - destruct (policy.StatusCode resp =? 200)%Z.
    + eexists _, _, _; split; [reflexivity | split; [intros H; now elim H | exact Hq]].
    + destruct (policy.StatusCode resp =? 404)%Z.
      * destruct (getPolicyForOrganisation_shape p st1) as (r' & st2 & -> & Hr' & Hq').
        pose proof (quiet_trans _ _ _ Hq Hq') as Hq2.
        destruct Hr' as [err' | content' resp']; cbn.
        -- eexists _, _, _; split; [reflexivity | split; [reflexivity | exact Hq2]].
        -- destruct (policy.StatusCode resp' =? 200)%Z;
             [ | destruct (policy.StatusCode resp' =? 404)%Z ];
             eexists _, _, _; (split; [reflexivity | split; [ | exact Hq2]]); intros H;
             solve [now elim H | reflexivity].
      * eexists _, _, _; split; [reflexivity | split; [reflexivity | exact Hq]].
Qed.

(** What an answered project-scoped fetch did: one GET request, to the
    project's access-policy resource with "/" in the namespace replaced by
    "-", carrying the bearer token; the content is the body of the
    response, or empty when reading the body failed. *)
Lemma getPolicyForNamespace_answered p namespace projectName st content resp st1 :
  getPolicyForNamespace p namespace projectName st
  = (Returned (content, Some resp, None), st1) ->
  content = fst (policy.io_ReadAll (policy.Body resp))
  /\ trace st1
     = trace st
       ++ [policy.EvHttpDo
             (policy.mkRequest "GET"
                (policy.DiggerHost p ++ "/repos/" ++ strings_ReplaceAll namespace "/" "-"
                 ++ "/projects/" ++ projectName ++ "/access-policy")
                [("Authorization", ("Bearer " ++ policy.AuthToken p)%string)]);
           policy.EvBodyClose resp].
Proof.
  unfold policy.getPolicyForNamespace, policy.http_NewRequest.
  destruct (url_Parse_error _) as [err|]; cbn; [discriminate|].
  unfold bind, policy.HttpClient_Do, bind, emit, external; cbn.
  destruct (policy.Do _ _ _) as [[resp'|err] w]; cbn; [|discriminate].
  destruct (policy.Body resp') as [bytes|rerr] eqn:E; cbn;
    intros H; injection H as <- <- <-; cbn; rewrite E, <- app_assoc; split; reflexivity.
Qed.

End ProviderProperties.

Section ProviderRuns.
Context {World : Type}.
Variable url_Parse_error : string -> option error.

Local Abbreviation getPolicyForNamespace := (@policy.getPolicyForNamespace World url_Parse_error).
Local Abbreviation getPolicyForOrganisation := (@policy.getPolicyForOrganisation World url_Parse_error).
Local Abbreviation GetPolicy := (@policy.GetPolicy World url_Parse_error).

Variable p : @policy.DiggerHttpPolicyProvider World.
Variables namespace projectName : string.
Variable st : Go.State World policy.Event.

Local Abbreviation project_req :=
  (observe.project_request p (strings_ReplaceAll namespace "/" "-") projectName).
Local Abbreviation organisation_req := (observe.organisation_request p).

(** The two fetches, as functions of what the URL parser and the client
    answer. *)
Lemma getPolicyForNamespace_run :
  getPolicyForNamespace p namespace projectName st
  = match url_Parse_error (policy.URL project_req) with
    | Some err => (Returned ("", None, Some err), st)
    | None =>
        match policy.Do (policy.HttpClient p) project_req (world st) with
        | (inr err, w) =>
            (Returned ("", None, Some err),
             mkState w (trace st ++ [policy.EvHttpDo project_req]))
        | (inl resp, w) =>
            (Returned (fst (policy.io_ReadAll (policy.Body resp)), Some resp, None),
             mkState w (trace st ++ [policy.EvHttpDo project_req; policy.EvBodyClose resp]))
        end
    end.
Proof.
  unfold policy.getPolicyForNamespace, policy.http_NewRequest.
  change (policy.DiggerHost p ++ "/repos/" ++ strings_ReplaceAll namespace "/" "-"
          ++ "/projects/" ++ projectName ++ "/access-policy")%string
    with (policy.URL project_req).
  destruct (url_Parse_error _) as [err|]; cbn; [reflexivity|].
  unfold bind, policy.HttpClient_Do, bind, emit, external; cbn.
  destruct (policy.Do _ _ _) as [[resp|err] w]; cbn; [|reflexivity].
  destruct (policy.Body resp) as [bytes|rerr]; cbn; rewrite <- app_assoc; reflexivity.
Qed.

Lemma getPolicyForOrganisation_run (st1 : Go.State World policy.Event) :
  getPolicyForOrganisation p st1
  = match url_Parse_error (policy.URL organisation_req) with
    | Some err => (Returned ("", None, Some err), st1)
    | None =>
        match policy.Do (policy.HttpClient p) organisation_req (world st1) with
        | (inr err, w) =>
            (Returned ("", None, Some err),
             mkState w (trace st1 ++ [policy.EvHttpDo organisation_req]))
        | (inl resp, w) =>
            (Returned (fst (policy.io_ReadAll (policy.Body resp)), Some resp, None),
             mkState w (trace st1
                        ++ [policy.EvHttpDo organisation_req; policy.EvBodyClose resp]))
        end
    end.
Proof.
  unfold policy.getPolicyForOrganisation, policy.http_NewRequest.
  change (policy.DiggerHost p ++ "/orgs/" ++ policy.DiggerOrganisation p
          ++ "/access-policy")%string
    with (policy.URL organisation_req).
  destruct (url_Parse_error _) as [err|]; cbn; [reflexivity|].
  unfold bind, policy.HttpClient_Do, bind, emit, external; cbn.
  destruct (policy.Do _ _ _) as [[resp|err] w]; cbn; [|reflexivity].
  destruct (policy.Body resp) as [bytes|rerr]; cbn; rewrite <- app_assoc; reflexivity.
Qed.

End ProviderRuns.

Section FallbackProperties.
Context {World : Type}.
Variable url_Parse_error : string -> option error.

Local Abbreviation GetPolicy := (@policy.GetPolicy World url_Parse_error).

Variable p : @policy.DiggerHttpPolicyProvider World.
Variables namespace projectName : string.
Variable st : Go.State World policy.Event.

Local Abbreviation project_req :=
  (observe.project_request p (strings_ReplaceAll namespace "/" "-") projectName).
Local Abbreviation organisation_req := (observe.organisation_request p).

(** C6. [GetPolicy] implements the two-level fallback. Let the client
    answer the project-scoped request with response [resp].
    - Status 200: [GetPolicy] returns what was read of the body (the
      whole body when the read succeeds) with no error, and the project
      request is the only request of the run: the organisation is not
      consulted.
    - Status 404: the organisation-scoped request follows. Answered with
      200, the content of that response is returned; with 404, the empty
      string and no error; with any other status, an error whose message
      holds that content and that status.
    - Any other status: an error whose message holds the content and the
      status of the project response, again after that single request. *)
Theorem GetPolicy_two_level_fallback (resp : policy.Response) (w : World) :
  url_Parse_error (policy.URL project_req) = None ->
  policy.Do (policy.HttpClient p) project_req (world st) = (inl resp, w) ->
  let content := fst (policy.io_ReadAll (policy.Body resp)) in
  let st1 := mkState w (trace st ++ [policy.EvHttpDo project_req; policy.EvBodyClose resp]) in
  (policy.StatusCode resp = 200%Z ->
     policy.GetPolicy url_Parse_error p namespace projectName st
     = (Returned (content, None), st1))
  /\ (policy.StatusCode resp = 404%Z ->
      forall (resp' : policy.Response) (w' : World),
        url_Parse_error (policy.URL organisation_req) = None ->
        policy.Do (policy.HttpClient p) organisation_req w = (inl resp', w') ->
        let content' := fst (policy.io_ReadAll (policy.Body resp')) in
        let st2 :=
          mkState w' (trace st1 ++ [policy.EvHttpDo organisation_req;
                                    policy.EvBodyClose resp']) in
        (policy.StatusCode resp' = 200%Z ->
           policy.GetPolicy url_Parse_error p namespace projectName st
           = (Returned (content', None), st2))
        /\ (policy.StatusCode resp' = 404%Z ->
            policy.GetPolicy url_Parse_error p namespace projectName st
            = (Returned ("", None), st2))
        /\ (policy.StatusCode resp' <> 200%Z -> policy.StatusCode resp' <> 404%Z ->
            policy.GetPolicy url_Parse_error p namespace projectName st
            = (Returned ("", Some (errors_New
                 ("unexpected response while fetching organisation policy: "
                  ++ content' ++ ", code " ++ fmt_int (policy.StatusCode resp')))), st2)))
  /\ (policy.StatusCode resp <> 200%Z -> policy.StatusCode resp <> 404%Z ->
      policy.GetPolicy url_Parse_error p namespace projectName st
      = (Returned ("", Some (errors_New
           ("unexpected response while fetching org policy: "
            ++ content ++ " code " ++ fmt_int (policy.StatusCode resp)))), st1)).
Proof.
  intros Hurl HDo content st1.
  unfold policy.GetPolicy, bind.
  rewrite getPolicyForNamespace_run, Hurl, HDo. cbn [deref ret].
  split; [ | split ].
  - intros ->. reflexivity.
  - intros -> resp' w' Hurl' HDo'. cbv zeta. cbn [Z.eqb Pos.eqb].
    rewrite getPolicyForOrganisation_run, Hurl'. cbn [world]. rewrite HDo'.
    cbn [deref ret].
    split; [ | split ].
    + intros ->. reflexivity.
    + intros ->. reflexivity.
    + intros H200 H404.
      apply Z.eqb_neq in H200, H404. rewrite H200, H404. reflexivity.
  - intros H200 H404.
    apply Z.eqb_neq in H200, H404. rewrite H200, H404. reflexivity.
Qed.

End FallbackProperties.

(** The four routes on concrete answers. A project-level 200 is returned
    verbatim after a single request; a project-level 404 with an
    organisation-level 200 returns the organisation's policy after two
    requests; 404 at both levels returns the empty text and no error;
    a 500 at the project level, and one at the organisation level after a
    404, give errors that mention 500. *)
Lemma GetPolicy_two_level_fallback_witness :
  (exists st1,
      policy.GetPolicy scenario.url_ok
        (scenario.provider (scenario.found "package digger") scenario.server_error)
        "acme/infra" "vpc" scenario.start
      = (Returned ("package digger", None), st1)
      /\ List.length (observe.requests (trace st1)) = 1%nat)
  /\ (exists st2,
        policy.GetPolicy scenario.url_ok
          (scenario.provider scenario.not_found (scenario.found "package org"))
          "acme/infra" "vpc" scenario.start
        = (Returned ("package org", None), st2)
        /\ List.length (observe.requests (trace st2)) = 2%nat)
  /\ fst (policy.GetPolicy scenario.url_ok
            (scenario.provider scenario.not_found scenario.not_found)
            "acme/infra" "vpc" scenario.start)
     = Returned ("", None)
  /\ (exists e,
        fst (policy.GetPolicy scenario.url_ok
               (scenario.provider scenario.server_error scenario.not_found)
               "acme/infra" "vpc" scenario.start)
        = Returned ("", Some e)
        /\ strings_Contains (Error e) "500" = true)
  /\ (exists e,
        fst (policy.GetPolicy scenario.url_ok
               (scenario.provider scenario.not_found scenario.server_error)
               "acme/infra" "vpc" scenario.start)
        = Returned ("", Some e)
        /\ strings_Contains (Error e) "500" = true).
Proof.
  split; [ | split; [ | split; [ | split ] ] ].
  - destruct (GetPolicy_two_level_fallback scenario.url_ok
                (scenario.provider (scenario.found "package digger") scenario.server_error)
                "acme/infra" "vpc" scenario.start _ _ eq_refl eq_refl) as (H & _).
    eexists. split; [apply H; reflexivity | reflexivity].
  - destruct (GetPolicy_two_level_fallback scenario.url_ok
                (scenario.provider scenario.not_found (scenario.found "package org"))
                "acme/infra" "vpc" scenario.start _ _ eq_refl eq_refl) as (_ & H & _).
    destruct (H eq_refl _ _ eq_refl eq_refl) as (H200 & _).
    eexists. split; [apply H200; reflexivity | reflexivity].
  - destruct (GetPolicy_two_level_fallback scenario.url_ok
                (scenario.provider scenario.not_found scenario.not_found)
                "acme/infra" "vpc" scenario.start _ _ eq_refl eq_refl) as (_ & H & _).
    destruct (H eq_refl _ _ eq_refl eq_refl) as (_ & H404 & _).
    rewrite H404 by reflexivity. reflexivity.
  - destruct (GetPolicy_two_level_fallback scenario.url_ok
                (scenario.provider scenario.server_error scenario.not_found)
                "acme/infra" "vpc" scenario.start _ _ eq_refl eq_refl) as (_ & _ & H).
    rewrite H by (cbn; lia).
    eexists; split; reflexivity.
  - destruct (GetPolicy_two_level_fallback scenario.url_ok
                (scenario.provider scenario.not_found scenario.server_error)
                "acme/infra" "vpc" scenario.start _ _ eq_refl eq_refl) as (_ & H & _).
    destruct (H eq_refl _ _ eq_refl eq_refl) as (_ & _ & Hother).
    rewrite Hother by (cbn; lia).
    eexists; split; reflexivity.
Defined.

(** ** The checkers *)

(** C10. [NoOpPolicyChecker.Check] returns [(true, nil)] for every
    organisation, namespace, project, command and requester, and leaves
    the state as it found it: no policy is fetched and no team membership
    is looked up. *)
Theorem NoOpPolicyChecker_always_allows
  (World : Type) (p : policy.NoOpPolicyChecker)
  (SCMOrganisation namespace projectname command requestedBy : string)
  (st : Go.State World policy.Event) :
  policy.NoOpPolicyChecker_Check p SCMOrganisation namespace projectname command requestedBy st
  = (Returned (true, None), st).
Proof. reflexivity. Qed.



Section CheckerProperties.
Context {World : Type}.
Variable url_Parse_error : string -> option error.
Variable rego_compile_error : string -> string -> string -> option error.
Variable rego_Eval : policy.PreparedEvalQuery -> policy.Input -> World
                     -> (policy.ResultSet * option error) * World.

Local Abbreviation GetPolicy := (@policy.GetPolicy World url_Parse_error).
Local Abbreviation checker_Check :=
  (@policy.DiggerPolicyChecker_Check World url_Parse_error rego_compile_error rego_Eval).

Variable c : @policy.DiggerPolicyChecker World.
Variables githubOrganisation namespace projectName command requestedBy : string.
Variable st : Go.State World policy.Event.

(** The state in which [GetPolicy] leaves the collaborators, and what the
    team lookup answers there. *)
Local Abbreviation fetched := (GetPolicy (policy.PolicyProvider c) namespace projectName st).
Local Abbreviation lookup :=
  (policy.GetUserTeams (policy.ciService c) githubOrganisation requestedBy
     (world (snd fetched))).

(** [Check] once the policy text and the answer of the team lookup are
    known, up to the call of the engine. *)
Lemma Check_unfold (text : string) (perr : option error) :
  fst fetched = Returned (text, perr) ->
  checker_Check c githubOrganisation namespace projectName command requestedBy st
  = let st2 := mkState (snd lookup)
                 (trace (snd fetched) ++ [policy.EvGetUserTeams githubOrganisation requestedBy]) in
    match snd (fst lookup) with
    | Some err =>
        (Returned (false, Some err),
         mkState (world st2)
           (trace st2 ++ [policy.EvPrintf "Error while fetching user teams for CI service: %v"
                            [policy.OpAny (AError err)]]))
    | None =>
        if text =? "" then (Returned (true, None), st2)
        else
          let input := scenario.facts requestedBy
                         (policy.DiggerOrganisation (policy.PolicyProvider c))
                         (fst (fst lookup)) command projectName in
          let query := policy.mkPreparedEvalQuery "data.digger.allow" "digger" text in
          let tr := trace st2
                    ++ [policy.EvPrintf
                          "DEBUG: passing the following input policy: %v ||| text: %v"
                          [policy.OpMap input; policy.OpAny (AString text)]]
                    ++ [policy.EvRegoPrepare "data.digger.allow" "digger" text] in
          match rego_compile_error "data.digger.allow" "digger" text with
          | Some err => (Returned (false, Some err), mkState (world st2) tr)
          | None =>
              let answer := rego_Eval query input (world st2) in
              let results := fst (fst answer) in
              let expressions := policy.Expressions (nth 0 results (policy.mkResult [])) in
              (Returned
                 (if (List.length results =? 0)%nat || (List.length expressions =? 0)%nat
                  then (false, Some (fmt_Errorf "no result found"))
                  else policy.Check_expressions expressions),
               mkState (snd answer) (tr ++ [policy.EvRegoEval query input]))
          end
    end.
Proof.
  intros Hf.
  unfold policy.DiggerPolicyChecker_Check.
  unfold bind at 1.
  destruct fetched as [o st1] eqn:E. cbn in Hf. subst o. cbn [snd].
  unfold bind at 1.
  unfold policy.ciService_GetUserTeams, bind at 1, emit, external. cbn.
  destruct (policy.GetUserTeams _ _ _ _) as [[teams terr] w2]. cbn.
  destruct terr as [err|]; cbn; [reflexivity|].
  destruct (text =? ""); [reflexivity|].
  unfold bind, policy.fmt_Printf, policy.rego_PrepareForEval, policy.query_Eval,
    bind, emit, external, ret; cbn.
  rewrite <- app_assoc.
  destruct (rego_compile_error _ _ _); cbn; [reflexivity|].
  destruct (rego_Eval _ _ _) as [[results everr] w3]. cbn.
  destruct ((List.length results =? 0)%nat || _); reflexivity.
Qed.

(** C7. When the team lookup of the CI service fails, [Check] returns
    [(false, err)] with the lookup's error, whatever [GetPolicy] gave. *)
Theorem Check_team_lookup_failure_denies (teams : list string) (err : error) (w2 : World) :
  lookup = ((teams, Some err), w2) ->
  fst (checker_Check c githubOrganisation namespace projectName command requestedBy st)
  = Returned (false, Some err).
Proof.
  intros Hl.
  destruct (GetPolicy_returns url_Parse_error (policy.PolicyProvider c)
              namespace projectName st) as (text & perr & st1 & Hf & _ & _).
  rewrite (Check_unfold text perr) by (rewrite Hf; reflexivity).
  cbv zeta. rewrite Hl. reflexivity.
Qed.

(** C4. When [GetPolicy] succeeds with the empty policy text, [Check]
    returns [(true, nil)] for every fact set, that is for every requester,
    organisation, command and project and for every list of teams the
    lookup returns. The only call made after the policy fetch is the team
    lookup, and the policy engine is not invoked anywhere in the run. *)
Theorem Check_empty_policy_grants (teams : list string) (w2 : World) :
  fst fetched = Returned ("", None) ->
  lookup = ((teams, None), w2) ->
  let result :=
    checker_Check c githubOrganisation namespace projectName command requestedBy st in
  result
  = (Returned (true, None),
     mkState w2 (trace (snd fetched)
                 ++ [policy.EvGetUserTeams githubOrganisation requestedBy]))
  /\ scenario.quiet st (snd result).
Proof.
  intros Hf Hl result.
  assert (H : result
              = (Returned (true, None),
                 mkState w2 (trace (snd fetched)
                             ++ [policy.EvGetUserTeams githubOrganisation requestedBy]))).
  { subst result. rewrite (Check_unfold "" None Hf).
    cbv zeta. rewrite Hl. reflexivity. }
  split; [exact H|].
  rewrite H. cbn [snd].
  destruct (GetPolicy_returns url_Parse_error (policy.PolicyProvider c)
              namespace projectName st) as (text & perr & st1 & Hf' & _ & Hq).
  rewrite Hf'. cbn [snd].
  apply (quiet_trans st st1); [exact Hq|].
  eexists; split; reflexivity.
Qed.

(** Whenever [GetPolicy] returns an error and the team lookup succeeds,
    [Check] grants: the error of the fetch is overwritten by the result of
    the lookup before it is ever read. *)
Lemma Check_drops_policy_error (text : string) (perr : error)
  (teams : list string) (w2 : World) :
  fst fetched = Returned (text, Some perr) ->
  lookup = ((teams, None), w2) ->
  fst (checker_Check c githubOrganisation namespace projectName command requestedBy st)
  = Returned (true, None).
Proof.
  intros Hf Hl.
  destruct (GetPolicy_returns url_Parse_error (policy.PolicyProvider c)
              namespace projectName st) as (text' & perr' & st1 & Hf' & Hempty & _).
  rewrite Hf' in Hf. cbn in Hf. injection Hf as -> ->.
  rewrite (Check_unfold text (Some perr)) by (rewrite Hf'; reflexivity).
  cbv zeta. rewrite Hl. cbn.
  rewrite Hempty by discriminate. reflexivity.
Qed.



End CheckerProperties.

(** The team lookup fails while a policy is configured: denied, with the
    lookup's error. *)
Lemma Check_team_lookup_failure_denies_witness :
  fst (policy.DiggerPolicyChecker_Check scenario.url_ok scenario.compile_ok
         (scenario.eval_to [])
         (scenario.checker (scenario.found "package digger") scenario.not_found
            ([], Some (errors_New "teams unavailable")))
         "acme" "acme/infra" "vpc" "digger apply" "bob" scenario.start)
  = Returned (false, Some (errors_New "teams unavailable")).
Proof.
  apply (Check_team_lookup_failure_denies scenario.url_ok scenario.compile_ok
           (scenario.eval_to [])
           (scenario.checker (scenario.found "package digger") scenario.not_found
              ([], Some (errors_New "teams unavailable")))
           "acme" "acme/infra" "vpc" "digger apply" "bob"
           scenario.start [] (errors_New "teams unavailable") tt).
  reflexivity.
Defined.

(** No policy at either level and a requester in team "ops": granted. *)
Lemma Check_empty_policy_grants_witness :
  fst (policy.DiggerPolicyChecker_Check scenario.url_ok scenario.compile_ok
         (scenario.eval_to [])
         (scenario.checker scenario.not_found scenario.not_found (["ops"], None))
         "acme" "acme/infra" "vpc" "digger apply" "bob" scenario.start)
  = Returned (true, None).
Proof.
  destruct (Check_empty_policy_grants scenario.url_ok scenario.compile_ok
              (scenario.eval_to [])
              (scenario.checker scenario.not_found scenario.not_found (["ops"], None))
              "acme" "acme/infra" "vpc" "digger apply" "bob"
              scenario.start ["ops"] tt eq_refl eq_refl) as (H & _).
  rewrite H. reflexivity.
Defined.


(** C3 fails on the code. The project-scoped fetch answers 500, so
    [GetPolicy] returns an error; the team lookup succeeds; [Check] then
    returns [(true, nil)]: the error is lost and the request is granted. *)
Theorem Check_grants_when_policy_fetch_fails :
  (exists e,
      fst (policy.GetPolicy scenario.url_ok
             (scenario.provider scenario.server_error scenario.not_found)
             "acme/infra" "vpc" scenario.start)
      = Returned ("", Some e))
  /\ fst (policy.DiggerPolicyChecker_Check scenario.url_ok scenario.compile_ok
            (scenario.eval_to [])
            (scenario.checker scenario.server_error scenario.not_found (["ops"], None))
            "acme" "acme/infra" "vpc" "digger apply" "mallory" scenario.start)
     = Returned (true, None).
Proof.
  split; [eexists; reflexivity | reflexivity].
Qed.

(** ** The event router *)

(** [strings_Contains] is substring containment. *)
Lemma prefix_split (p s : string) :
  prefix p s = true <-> exists rest, s = (p ++ rest)%string.
Proof.
  revert s. induction p as [|a p IH]; intros s.
  - split; [intros _; now exists s | intros _; destruct s; reflexivity].
  - destruct s as [|b s]; cbn.
    + split; [discriminate | intros [rest H]; discriminate].
    + destruct (Ascii.ascii_dec a b) as [->|Hab].
      * rewrite IH. split; intros [rest H]; exists rest; congruence.
      * split; [discriminate | intros [rest H]; congruence].
Qed.

Lemma strings_Contains_unfold (s substr : string) :
  strings_Contains s substr
  = if prefix substr s then true
    else match s with
         | EmptyString => false
         | String _ s' => strings_Contains s' substr
         end.
Proof. destruct s; reflexivity. Qed.

Lemma strings_Contains_substring (s substr : string) :
  strings_Contains s substr = true
  <-> exists before after, s = (before ++ substr ++ after)%string.
Proof.
  induction s as [|a s IH]; rewrite strings_Contains_unfold.
  - destruct (prefix substr "") eqn:E.
    + apply prefix_split in E as [rest E].
      split; [intros _; now exists "", rest | reflexivity].
    + split; [discriminate|].
      intros (before & after & H).
      destruct before; [|discriminate]. cbn in H.
      assert (prefix substr "" = true) by (apply prefix_split; now exists after).
      congruence.
  - destruct (prefix substr (String a s)) eqn:E.
    + apply prefix_split in E as [rest E].
      split; [intros _; now exists "", rest | reflexivity].
    + rewrite IH. split.
      * intros (before & after & ->). now exists (String a before), after.
      * intros (before & after & H).
        destruct before as [|b before]; cbn in H.
        -- assert (prefix substr (String a s) = true)
             by (apply prefix_split; now exists after).
           congruence.
        -- injection H as _ ->. now exists before, after.
Qed.

(** A loop that appends one element per iteration builds a [map]. *)
Lemma fold_left_append_map {A B : Type} (f : A -> B) (l : list A) (acc : list B) :
  fold_left (fun acc x => acc ++ [f x]) l acc = acc ++ map f l.
Proof.
  revert acc. induction l as [|x l IH]; intros acc; cbn.
  - now rewrite app_nil_r.
  - rewrite IH, <- app_assoc. reflexivity.
Qed.

(** C8. For every list of impacted projects, an Opened event maps to one
    [ProjectCommand] per project, in order, with the project's name, dir,
    workspace and tool-dialect flag and its [OnCommitToDefault] commands;
    Updated maps to [OnPullRequestPushed] and Closed to
    [OnPullRequestClosed] in the same way. An event type outside the four
    lifecycle values returns no commands and the error
    "unsupported GitLab event type: {<type>}". *)
Theorem ConvertGitLabEventToCommands_lifecycle
  (gitLabContext : option gitlab.GitLabContext.t)
  (impactedProjects : list digger.Project.t) :
  gitlab.ConvertGitLabEventToCommands
    (gitlab.GitLabEvent.mk gitlab.MergeRequestOpened) gitLabContext impactedProjects
  = Returned
      (map (fun p => scenario.command_for p (digger.OnCommitToDefault (scenario.workflow p)))
         impactedProjects, None)
  /\ gitlab.ConvertGitLabEventToCommands
       (gitlab.GitLabEvent.mk gitlab.MergeRequestUpdated) gitLabContext impactedProjects
     = Returned
         (map (fun p => scenario.command_for p (digger.OnPullRequestPushed (scenario.workflow p)))
            impactedProjects, None)
  /\ gitlab.ConvertGitLabEventToCommands
       (gitlab.GitLabEvent.mk gitlab.MergeRequestClosed) gitLabContext impactedProjects
     = Returned
         (map (fun p => scenario.command_for p (digger.OnPullRequestClosed (scenario.workflow p)))
            impactedProjects, None)
  /\ forall event : gitlab.GitLabEvent.t,
       gitlab.GitLabEvent.EventType event <> gitlab.MergeRequestOpened ->
       gitlab.GitLabEvent.EventType event <> gitlab.MergeRequestUpdated ->
       gitlab.GitLabEvent.EventType event <> gitlab.MergeRequestClosed ->
       gitlab.GitLabEvent.EventType event <> gitlab.MergeRequestComment ->
       gitlab.ConvertGitLabEventToCommands event gitLabContext impactedProjects
       = Returned
           ([], Some (fmt_Errorf ("unsupported GitLab event type: {"
                                  ++ gitlab.GitLabEvent.EventType event ++ "}")%string)).
Proof.
  repeat split.
  - unfold gitlab.ConvertGitLabEventToCommands. cbn [gitlab.GitLabEvent.EventType].
    change (gitlab.MergeRequestOpened =? gitlab.MergeRequestOpened) with true. cbv iota.
    rewrite (fold_left_append_map
               (fun p => scenario.command_for p (digger.OnCommitToDefault (scenario.workflow p)))).
    reflexivity.
  - unfold gitlab.ConvertGitLabEventToCommands. cbn [gitlab.GitLabEvent.EventType].
    change (gitlab.MergeRequestUpdated =? gitlab.MergeRequestOpened) with false.
    change (gitlab.MergeRequestUpdated =? gitlab.MergeRequestUpdated) with true. cbv iota.
    rewrite (fold_left_append_map
               (fun p => scenario.command_for p (digger.OnPullRequestPushed (scenario.workflow p)))).
    reflexivity.
  - unfold gitlab.ConvertGitLabEventToCommands. cbn [gitlab.GitLabEvent.EventType].
    change (gitlab.MergeRequestClosed =? gitlab.MergeRequestOpened) with false.
    change (gitlab.MergeRequestClosed =? gitlab.MergeRequestUpdated) with false.
    change (gitlab.MergeRequestClosed =? gitlab.MergeRequestClosed) with true. cbv iota.
    rewrite (fold_left_append_map
               (fun p => scenario.command_for p (digger.OnPullRequestClosed (scenario.workflow p)))).
    reflexivity.
  - intros event H1 H2 H3 H4.
    apply String.eqb_neq in H1, H2, H3, H4.
    unfold gitlab.ConvertGitLabEventToCommands.
    rewrite H1, H2, H3, H4. reflexivity.
Qed.

(** The spec's example: two impacted projects with
    [OnCommitToDefault = ["digger plan"]] give two commands on Opened; an
    event type outside the lifecycle gives the error and no commands. *)
Lemma ConvertGitLabEventToCommands_lifecycle_witness :
  gitlab.ConvertGitLabEventToCommands
    (gitlab.GitLabEvent.mk gitlab.MergeRequestOpened) None [scenario.vpc; scenario.db]
  = Returned ([scenario.command_for scenario.vpc ["digger plan"];
               scenario.command_for scenario.db ["digger plan"]], None)
  /\ gitlab.ConvertGitLabEventToCommands
       (gitlab.GitLabEvent.mk "merge_request_approved") None [scenario.vpc; scenario.db]
     = Returned ([], Some (fmt_Errorf "unsupported GitLab event type: {merge_request_approved}")).
Proof.
  destruct (ConvertGitLabEventToCommands_lifecycle None [scenario.vpc; scenario.db])
    as (Hopened & _ & _ & Hother).
  split.
  - rewrite Hopened. reflexivity.
  - rewrite (Hother (gitlab.GitLabEvent.mk "merge_request_approved"))
      by (cbn; discriminate).
    reflexivity.
Defined.

(** The loop over the vocabulary, started with [acc]: every phrase that
    occurs in [text] appends its commands, one per project. *)
Lemma comment_loop (ctx : gitlab.GitLabContext.t) (impactedProjects : list digger.Project.t)
  (phrases : list string) (acc : list digger.ProjectCommand.t) :
  range_pure phrases
    (fun commandsPerProject command =>
       match Some ctx with
       | None => Panicked nil_dereference
       | Some ctx =>
           if strings_Contains (gitlab.GitLabContext.DiggerCommand ctx) command then
             Returned
               (fold_left (fun commandsPerProject project =>
                  let workspace := digger.Project.Workspace project in
                  commandsPerProject ++
                  [digger.ProjectCommand.mk (digger.Project.Name project)
                     (digger.Project.Dir project) workspace
                     (digger.Project.Terragrunt project) [command]])
                  impactedProjects commandsPerProject)
           else Returned commandsPerProject
       end) acc
  = Returned
      (acc ++ flat_map (fun phrase => map (fun p => scenario.command_for p [phrase])
                                        impactedProjects)
                (filter (strings_Contains (gitlab.GitLabContext.DiggerCommand ctx)) phrases)).
Proof.
  revert acc. induction phrases as [|phrase phrases IH]; intros acc.
  - cbn. now rewrite app_nil_r.
  - cbn [range_pure filter].
    destruct (strings_Contains _ phrase).
    + cbv zeta.
      rewrite (fold_left_append_map (fun p => scenario.command_for p [phrase])).
      rewrite IH. cbn [flat_map]. now rewrite app_assoc.
    + apply IH.
Qed.

(** C9. For a Commented event the router tests the comment text for each
    phrase of the vocabulary by substring containment, in the order plan,
    apply, unlock, lock. The result is, for every phrase that occurs,
    taken in that order, one [ProjectCommand] per impacted project, in
    project order, whose [Commands] is that single phrase; there is no
    error. Several phrases in one comment each fire; a comment with none
    gives the empty list with no error. *)
Theorem ConvertGitLabEventToCommands_comment
  (ctx : gitlab.GitLabContext.t) (impactedProjects : list digger.Project.t) :
  let text := gitlab.GitLabContext.DiggerCommand ctx in
  let commands :=
    gitlab.ConvertGitLabEventToCommands
      (gitlab.GitLabEvent.mk gitlab.MergeRequestComment) (Some ctx) impactedProjects in
  commands
  = Returned
      (flat_map (fun phrase => map (fun p => scenario.command_for p [phrase]) impactedProjects)
         (filter (strings_Contains text) scenario.vocabulary), None)
  /\ ((forall phrase, In phrase scenario.vocabulary -> strings_Contains text phrase = false) ->
      commands = Returned ([], None)).
Proof.
  intros text commands.
  assert (H : commands
              = Returned
                  (flat_map (fun phrase => map (fun p => scenario.command_for p [phrase])
                                             impactedProjects)
                     (filter (strings_Contains text) scenario.vocabulary), None)).
  { subst commands. unfold gitlab.ConvertGitLabEventToCommands.
    cbn [gitlab.GitLabEvent.EventType].
    change (gitlab.MergeRequestComment =? gitlab.MergeRequestOpened) with false.
    change (gitlab.MergeRequestComment =? gitlab.MergeRequestUpdated) with false.
    change (gitlab.MergeRequestComment =? gitlab.MergeRequestClosed) with false.
    change (gitlab.MergeRequestComment =? gitlab.MergeRequestComment) with true.
    cbv iota zeta.
    rewrite (comment_loop ctx impactedProjects). reflexivity. }
  split; [exact H|].
  intros Hnone. rewrite H.
  replace (filter (strings_Contains text) scenario.vocabulary) with (@nil string);
    [reflexivity|].
  symmetry. clear H.
  induction scenario.vocabulary as [|phrase l IH]; [reflexivity|].
  cbn [filter]. rewrite (Hnone phrase) by (left; reflexivity).
  apply IH. intros q Hq. apply Hnone. right; exact Hq.
Qed.

(** The spec's examples: "please run digger plan" on one project gives one
    command; "digger plan digger apply" gives two, one per phrase; a
    comment without any phrase gives none. *)
Lemma ConvertGitLabEventToCommands_comment_witness :
  gitlab.ConvertGitLabEventToCommands (gitlab.GitLabEvent.mk gitlab.MergeRequestComment)
    (Some (scenario.context "please run digger plan" (Some 3%Z))) [scenario.vpc]
  = Returned ([scenario.command_for scenario.vpc ["digger plan"]], None)
  /\ gitlab.ConvertGitLabEventToCommands (gitlab.GitLabEvent.mk gitlab.MergeRequestComment)
       (Some (scenario.context "digger plan digger apply" (Some 3%Z))) [scenario.vpc]
     = Returned ([scenario.command_for scenario.vpc ["digger plan"];
                  scenario.command_for scenario.vpc ["digger apply"]], None)
  /\ gitlab.ConvertGitLabEventToCommands (gitlab.GitLabEvent.mk gitlab.MergeRequestComment)
       (Some (scenario.context "looks good to me" (Some 3%Z))) [scenario.vpc]
     = Returned ([], None).
Proof.
  split; [ | split ].
  - destruct (ConvertGitLabEventToCommands_comment
                (scenario.context "please run digger plan" (Some 3%Z)) [scenario.vpc])
      as (H & _).
    rewrite H. reflexivity.
  - destruct (ConvertGitLabEventToCommands_comment
                (scenario.context "digger plan digger apply" (Some 3%Z)) [scenario.vpc])
      as (H & _).
    rewrite H. reflexivity.
  - destruct (ConvertGitLabEventToCommands_comment
                (scenario.context "looks good to me" (Some 3%Z)) [scenario.vpc])
      as (_ & H).
    apply H. intros phrase Hin.
    repeat (destruct Hin as [<- | Hin]; [reflexivity|]). destruct Hin.
Defined.

(** ** The orchestrator *)

Section OrchestratorProperties.
Context {World Lock CIService DiggerConfig : Type}.

Local Abbreviation Event := (@gitlab.Event Lock CIService DiggerConfig).
Local Abbreviation DiggerExecutor := (@gitlab.DiggerExecutor Lock CIService DiggerConfig).
Local Abbreviation State := (Go.State World Event).

Variable executor_Plan : DiggerExecutor -> Z -> World -> World.
Variable executor_Apply : DiggerExecutor -> Z -> World -> World.
Variable executor_Unlock : DiggerExecutor -> Z -> World -> World.
Variable executor_Lock : DiggerExecutor -> Z -> World -> bool * World.
Variable usage_record : string -> string -> string -> World -> World.

Local Abbreviation RunCommandsPerProject :=
  (gitlab.RunCommandsPerProject executor_Plan executor_Apply executor_Unlock
     executor_Lock usage_record).

Lemma delegations_app (tr1 tr2 : list Event) :
  scenario.delegations (tr1 ++ tr2) = scenario.delegations tr1 ++ scenario.delegations tr2.
Proof. apply flat_map_app. Qed.

Lemma last_lock_app (tr1 tr2 : list Event) (acc : bool) :
  scenario.last_lock (tr1 ++ tr2) acc = scenario.last_lock tr2 (scenario.last_lock tr1 acc).
Proof. apply fold_left_app. Qed.

Lemma summary_refl (acc : bool) (st : State) : scenario.summary [] acc st acc st.
Proof.
  exists []. rewrite app_nil_r. repeat split. constructor.
Qed.

Lemma summary_trans (d1 d2 : list (string * string)) (a a' a'' : bool) (st st' st'' : State) :
  scenario.summary d1 a st a' st' ->
  scenario.summary d2 a' st' a'' st'' ->
  scenario.summary (d1 ++ d2) a st a'' st''.
Proof.
  intros (tr1 & Ht1 & Hc1 & Hd1 & Ha1) (tr2 & Ht2 & Hc2 & Hd2 & Ha2).
  exists (tr1 ++ tr2). repeat split.
  - rewrite Ht2, Ht1. now rewrite app_assoc.
  - apply Forall_app. split; assumption.
  - rewrite delegations_app. congruence.
  - rewrite last_lock_app. congruence.
Qed.

(** A loop whose every iteration returns and is summarised by [f] returns
    and is summarised by [f] over the whole list. *)
Lemma for_range_summary {A : Type} (f : A -> list (string * string))
  (body : bool -> A -> Go.M World Event bool) :
  (forall x acc st, exists acc' st',
      body acc x st = (Returned acc', st') /\ scenario.summary (f x) acc st acc' st') ->
  forall l acc st, exists acc' st',
      for_range l body acc st = (Returned acc', st')
      /\ scenario.summary (flat_map f l) acc st acc' st'.
Proof.
  intros Hbody l. induction l as [|x l IH]; intros acc st.
  - exists acc, st. split; [reflexivity | apply summary_refl].
  - destruct (Hbody x acc st) as (acc1 & st1 & Hrun & Hsum).
    destruct (IH acc1 st1) as (acc2 & st2 & Hrun' & Hsum').
    exists acc2, st2. split.
    + cbn [for_range]. unfold bind. rewrite Hrun. exact Hrun'.
    + cbn [flat_map]. eapply summary_trans; eassumption.
Qed.

Lemma requested_commands (name : string) (commands : list string) :
  flat_map (fun command => if scenario.recognised command then [(name, command)] else [])
    commands
  = map (pair name) (filter scenario.recognised commands).
Proof.
  induction commands as [|command commands IH]; [reflexivity|].
  cbn [flat_map filter]. rewrite IH.
  destruct (scenario.recognised command); reflexivity.
Qed.

(** The two loops of [RunCommandsPerProject], when the merge-request
    number is set: they return, make no authorization check, delegate every
    recognised command of the batch in order, and leave in the flag what
    the last lock acquisition returned. *)
Lemma RunCommandsPerProject_summary
  (commandsPerProject : list digger.ProjectCommand.t)
  (gitLabContext : gitlab.GitLabContext.t) (diggerConfig : option DiggerConfig)
  (service : CIService) (lock : Lock) (workingDir : string) (st : State) (n : Z) :
  gitlab.GitLabContext.MergeRequestIId gitLabContext = Some n ->
  exists (flag : bool) (st' : State),
    RunCommandsPerProject commandsPerProject gitLabContext diggerConfig service lock
      workingDir st
    = (if flag then Returned None else Exited 1%Z, st')
    /\ scenario.summary (scenario.requested commandsPerProject) true st flag st'.
Proof.
  intros Hiid.
  unfold gitlab.RunCommandsPerProject.
  unfold bind at 1.
  match goal with
  | |- context [for_range commandsPerProject ?body true st] =>
      destruct (for_range_summary
                  (fun pc => map (pair (digger.ProjectCommand.ProjectName pc))
                               (filter scenario.recognised (digger.ProjectCommand.Commands pc)))
                  body) with (l := commandsPerProject) (acc := true) (st := st)
        as (flag & st' & Hrun & Hsum)
  end.
  - intros pc acc0 st0.
    rewrite <- requested_commands.
    apply for_range_summary.
    intros command acc1 st1. rewrite Hiid.
    unfold scenario.recognised, scenario.vocabulary. cbn [existsb].
    destruct (command =? "digger plan") eqn:E1;
      [ | destruct (command =? "digger apply") eqn:E2;
          [ | destruct (command =? "digger unlock") eqn:E3;
              [ | destruct (command =? "digger lock") eqn:E4 ] ] ];
      cbn [orb].
    + apply String.eqb_eq in E1. subst command.
      eexists _, _. split; [reflexivity|].
      eexists [_; _]. cbn. rewrite <- app_assoc. repeat split.
      repeat constructor.
    + apply String.eqb_eq in E2. subst command.
      eexists _, _. split; [reflexivity|].
      eexists [_; _]. cbn. rewrite <- app_assoc. repeat split.
      repeat constructor.
    + apply String.eqb_eq in E3. subst command.
      eexists _, _. split; [reflexivity|].
      eexists [_; _]. cbn. rewrite <- app_assoc. repeat split.
      repeat constructor.
    + apply String.eqb_eq in E4. subst command.
      unfold bind, gitlab.utils_SendUsageRecord, gitlab.DiggerExecutor_Lock, deref,
        bind, emit, external, ret. cbn.
      destruct (executor_Lock _ n _) as [acquired w'].
      eexists _, _. split; [reflexivity|].
      eexists [_; _]. cbn. rewrite <- app_assoc. repeat split.
      repeat constructor.
    + exists acc1, st1. split; [reflexivity | apply summary_refl].
  - rewrite Hrun. exists flag, st'. split; [ | exact Hsum ].
    destruct flag; reflexivity.
Qed.

(** The terminal status follows the last lock acquisition of the batch:
    with the merge-request number set, the run fails exactly when the last
    acquisition in its trace returned [false]. *)
Lemma RunCommandsPerProject_status_follows_last_lock
  (commandsPerProject : list digger.ProjectCommand.t)
  (gitLabContext : gitlab.GitLabContext.t) (diggerConfig : option DiggerConfig)
  (service : CIService) (lock : Lock) (workingDir : string) (st : State) (n : Z) :
  gitlab.GitLabContext.MergeRequestIId gitLabContext = Some n ->
  let result :=
    RunCommandsPerProject commandsPerProject gitLabContext diggerConfig service lock
      workingDir st in
  exists tr,
    trace (snd result) = trace st ++ tr
    /\ scenario.failing_status (fst result) = negb (scenario.last_lock tr true).
Proof.
  intros Hiid result.
  destruct (RunCommandsPerProject_summary commandsPerProject gitLabContext diggerConfig
              service lock workingDir st n Hiid)
    as (flag & st' & Hrun & tr & Htr & _ & _ & Hflag).
  subst result. rewrite Hrun. exists tr. split; [exact Htr|].
  cbn [fst]. rewrite <- Hflag. destruct flag; reflexivity.
Qed.

(** C2, as the code has it. [RunCommandsPerProject] makes no call of
    [Authorizer.Check]. With the merge-request number set, every command
    of the batch that is one of "digger plan", "digger apply",
    "digger unlock", "digger lock" is handed to the executor, project by
    project and command by command in batch order; any other command
    string is passed over, and processing goes on to the end of the
    batch. *)
Theorem RunCommandsPerProject_delegates_unchecked
  (commandsPerProject : list digger.ProjectCommand.t)
  (gitLabContext : gitlab.GitLabContext.t) (diggerConfig : option DiggerConfig)
  (service : CIService) (lock : Lock) (workingDir : string) (st : State) (n : Z) :
  gitlab.GitLabContext.MergeRequestIId gitLabContext = Some n ->
  exists tr,
    trace (snd (RunCommandsPerProject commandsPerProject gitLabContext diggerConfig
                  service lock workingDir st))
    = trace st ++ tr
    /\ Forall (fun e => scenario.is_check e = false) tr
    /\ scenario.delegations tr = scenario.requested commandsPerProject.
Proof.
  intros Hiid.
  destruct (RunCommandsPerProject_summary commandsPerProject gitLabContext diggerConfig
              service lock workingDir st n Hiid)
    as (flag & st' & Hrun & tr & Htr & Hcheck & Hdel & _).
  rewrite Hrun. exists tr. repeat split; assumption.
Qed.

End OrchestratorProperties.

(** A batch with a plan, an unknown command and a lock: the plan and the
    lock reach the executor, and no check is made. *)
Lemma RunCommandsPerProject_delegates_unchecked_witness :
  exists tr,
    trace (snd (scenario.run
                  [scenario.command_for scenario.vpc ["digger plan"; "deploy"; "digger lock"]]
                  (Some 3%Z) [true]))
    = [] ++ tr
    /\ Forall (fun e => scenario.is_check e = false) tr
    /\ scenario.delegations tr = [("vpc", "digger plan"); ("vpc", "digger lock")].
Proof.
  apply (RunCommandsPerProject_delegates_unchecked scenario.idle scenario.idle scenario.idle
           scenario.scripted_Lock scenario.no_usage
           [scenario.command_for scenario.vpc ["digger plan"; "deploy"; "digger lock"]]
           (scenario.context "" (Some 3%Z)) None tt tt "/work" (mkState [true] []) 3%Z).
  reflexivity.
Defined.

(** C2 as stated fails: a batch with the single command "digger plan" is
    handed to the executor although no authorization decision precedes it
    in the trace. *)
Lemma RunCommandsPerProject_plan_without_check :
  let tr := trace (snd (scenario.run [scenario.command_for scenario.vpc ["digger plan"]]
                          (Some 3%Z) [])) in
  scenario.delegations tr = [("vpc", "digger plan")]
  /\ existsb scenario.is_check tr = false
  /\ scenario.authorized_before [] tr = false.
Proof. cbv zeta. repeat split. Qed.

(** C1 fails on the code. Two lock commands, of which the first acquisition
    returns [false] and the second [true]: a lock acquisition failed
    during the batch, yet the run returns [nil] and the status is not
    failing. *)
Theorem RunCommandsPerProject_later_lock_clears_failure :
  let result :=
    scenario.run [scenario.command_for scenario.vpc ["digger lock"];
                  scenario.command_for scenario.db ["digger lock"]]
      (Some 3%Z) [false; true] in
  scenario.lock_failed (trace (snd result)) = true
  /\ fst result = Returned None
  /\ scenario.failing_status (fst result) = false.
Proof. cbv zeta. repeat split. Qed.

(** * Further properties *)

(** ** The policy provider: requests, failures, normalisation *)

(** Replacing "/" by "-" acts character by character. *)
Lemma ReplaceAll_slash_dash (s : string) :
  strings_ReplaceAll s "/" "-" = observe.map_chars observe.dash s.
Proof.
  unfold strings_ReplaceAll.
  induction s as [|c s IH]; [reflexivity|].
  cbn [replace_from observe.map_chars]. unfold observe.dash.
  cbn [prefix].
  destruct (Ascii.ascii_dec "/" c) as [<-|Hc].
  - replace (prefix "" s) with true by (destruct s; reflexivity).
    cbn. rewrite IH. reflexivity.
  - rewrite IH.
    destruct (Ascii.eqb c "/") eqn:E; [|reflexivity].
    apply Ascii.eqb_eq in E. congruence.
Qed.

Lemma dashed_has_no_slash (s : string) :
  strings_Contains (observe.map_chars observe.dash s) "/" = false.
Proof.
  induction s as [|c s IH]; [reflexivity|].
  cbn [observe.map_chars]. rewrite strings_Contains_unfold. cbn [prefix].
  destruct (Ascii.ascii_dec "/" (observe.dash c)) as [E|_]; [|exact IH].
  unfold observe.dash in E.
  destruct (Ascii.eqb c "/") eqn:Ec; [discriminate|].
  apply Ascii.eqb_neq in Ec. congruence.
Qed.

Lemma dashed_length (s : string) :
  String.length (observe.map_chars observe.dash s) = String.length s.
Proof. induction s as [|c s IH]; cbn; congruence. Qed.

Lemma dashed_without_slash (s : string) :
  strings_Contains s "/" = false -> observe.map_chars observe.dash s = s.
Proof.
  induction s as [|c s IH]; [reflexivity|].
  rewrite strings_Contains_unfold. cbn [prefix observe.map_chars].
  destruct (Ascii.ascii_dec "/" c) as [<-|Hc].
  - replace (prefix "" s) with true by (destruct s; reflexivity). discriminate.
  - intros H. rewrite (IH H). f_equal.
    unfold observe.dash.
    destruct (Ascii.eqb c "/") eqn:E; [|reflexivity].
    apply Ascii.eqb_eq in E. congruence.
Qed.

Lemma requests_app (tr1 tr2 : list policy.Event) :
  observe.requests (tr1 ++ tr2) = observe.requests tr1 ++ observe.requests tr2.
Proof. apply flat_map_app. Qed.

Section ProviderExtras.
Context {World : Type}.
Variable url_Parse_error : string -> option error.

Local Abbreviation getPolicyForNamespace := (@policy.getPolicyForNamespace World url_Parse_error).
Local Abbreviation GetPolicy := (@policy.GetPolicy World url_Parse_error).

Variable p : @policy.DiggerHttpPolicyProvider World.
Variables namespace projectName : string.
Variable st : Go.State World policy.Event.

Local Abbreviation project_req :=
  (observe.project_request p (strings_ReplaceAll namespace "/" "-") projectName).
Local Abbreviation organisation_req := (observe.organisation_request p).

(** X1. Whenever [GetPolicy] returns an error, the policy text it
    returns with it is the empty string. *)
Theorem GetPolicy_error_has_no_text
  (content : string) (err : option error) (st' : Go.State World policy.Event) :
  policy.GetPolicy url_Parse_error p namespace projectName st
  = (Returned (content, err), st') ->
  err <> None ->
  content = "".
Proof.
  intros Hrun Herr.
  destruct (GetPolicy_returns url_Parse_error p namespace projectName st)
    as (content0 & err0 & st0 & Hrun0 & Hempty & _).
  rewrite Hrun0 in Hrun. injection Hrun as -> -> _.
  exact (Hempty Herr).
Qed.

(** X2. [GetPolicy] sends at most two requests: first the GET for the
    project's access policy, then the GET for the organisation's, both
    with the bearer token as their only header. The second is sent only
    when the first was answered with status 404. *)
Theorem GetPolicy_sends_at_most_two_requests :
  exists rs,
    observe.requests (trace (snd (GetPolicy p namespace projectName st)))
    = observe.requests (trace st) ++ rs
    /\ (rs = [] \/ rs = [project_req] \/ rs = [project_req; organisation_req])
    /\ (List.length rs = 2%nat ->
        exists resp w,
          policy.Do (policy.HttpClient p) project_req (world st) = (inl resp, w)
          /\ policy.StatusCode resp = 404%Z).
Proof.
  unfold policy.GetPolicy, bind.
  rewrite getPolicyForNamespace_run.
  destruct (url_Parse_error (policy.URL project_req)) as [err|].
  { exists []. cbn. rewrite app_nil_r. repeat split; [now left | discriminate]. }
  destruct (policy.Do (policy.HttpClient p) project_req (world st)) as [[resp|err] w] eqn:EDo.
  2:{ exists [project_req]. cbn. rewrite requests_app. cbn.
      repeat split; [right; now left | discriminate]. }
  cbn [deref ret].
  destruct (policy.StatusCode resp =? 200)%Z eqn:E200.
  { exists [project_req]. cbn. rewrite requests_app. cbn.
    repeat split; [right; now left | discriminate]. }
  destruct (policy.StatusCode resp =? 404)%Z eqn:E404.
  2:{ exists [project_req]. cbn. rewrite requests_app. cbn.
      repeat split; [right; now left | discriminate]. }
  apply Z.eqb_eq in E404.
  rewrite getPolicyForOrganisation_run. cbn [world trace].
  destruct (url_Parse_error (policy.URL organisation_req)) as [err|].
  { exists [project_req]. cbn. rewrite requests_app. cbn.
    repeat split; [right; now left | discriminate]. }
  destruct (policy.Do (policy.HttpClient p) organisation_req w) as [[resp'|err] w'].
  - exists [project_req; organisation_req].
    cbn [deref ret].
    destruct (policy.StatusCode resp' =? 200)%Z;
      [ | destruct (policy.StatusCode resp' =? 404)%Z ];
      cbn; rewrite !requests_app; cbn; rewrite <- app_assoc;
      (repeat split; [right; now right | intros _; now exists resp, w]).
  - exists [project_req; organisation_req].
    cbn; rewrite !requests_app; cbn; rewrite <- app_assoc.
    repeat split; [right; now right | intros _; now exists resp, w].
Qed.

(** X3. The project-scoped fetch sends at most one request, and in its
    path the namespace appears with every "/" replaced by "-" and every
    other character unchanged. The segment therefore has the length of
    the namespace, holds no "/", and is the namespace itself when that
    holds no "/". *)
Theorem getPolicyForNamespace_normalises_namespace :
  let segment := observe.map_chars observe.dash namespace in
  let rs :=
    observe.requests
      (trace (snd (policy.getPolicyForNamespace url_Parse_error p namespace projectName st))) in
  (rs = observe.requests (trace st)
   \/ rs = observe.requests (trace st) ++ [observe.project_request p segment projectName])
  /\ (forall i : nat,
        String.get i segment
        = match String.get i namespace with
          | Some c => Some (if Ascii.eqb c "/" then "-"%char else c)
          | None => None
          end)
  /\ strings_Contains segment "/" = false
  /\ String.length segment = String.length namespace
  /\ (strings_Contains namespace "/" = false -> segment = namespace).
Proof.
  cbv zeta. split.
  - rewrite getPolicyForNamespace_run, ReplaceAll_slash_dash.
    destruct (url_Parse_error _) as [err|]; [now left|].
    destruct (policy.Do _ _ _) as [[resp|err] w];
      right; cbn; rewrite requests_app; reflexivity.
  - split; [ | split; [apply dashed_has_no_slash
                      | split; [apply dashed_length | apply dashed_without_slash]]].
    induction namespace as [|c s IH]; intros i; [reflexivity|].
    destruct i as [|i]; [reflexivity|].
    cbn [observe.map_chars String.get]. apply IH.
Qed.

(** X4. A request that gets no response ends [GetPolicy] with the
    client's error, unchanged, and the empty text: at the project level
    without any request to the organisation, and at the organisation
    level after a project-level 404. *)
Theorem GetPolicy_transport_error_is_returned :
  url_Parse_error (policy.URL project_req) = None ->
  (forall err w,
      policy.Do (policy.HttpClient p) project_req (world st) = (inr err, w) ->
      GetPolicy p namespace projectName st
      = (Returned ("", Some err), mkState w (trace st ++ [policy.EvHttpDo project_req])))
  /\ (forall resp w err w',
         policy.Do (policy.HttpClient p) project_req (world st) = (inl resp, w) ->
         policy.StatusCode resp = 404%Z ->
         url_Parse_error (policy.URL organisation_req) = None ->
         policy.Do (policy.HttpClient p) organisation_req w = (inr err, w') ->
         fst (GetPolicy p namespace projectName st) = Returned ("", Some err)).
Proof.
  intros Hurl. split.
  - intros err w HDo.
    unfold policy.GetPolicy, bind. rewrite getPolicyForNamespace_run, Hurl, HDo.
    reflexivity.
  - intros resp w err w' HDo H404 Hurl' HDo'.
    unfold policy.GetPolicy, bind. rewrite getPolicyForNamespace_run, Hurl, HDo.
    cbn [deref ret]. rewrite H404. cbn [Z.eqb Pos.eqb].
    rewrite getPolicyForOrganisation_run, Hurl'. cbn [world]. rewrite HDo'.
    reflexivity.
Qed.

(** X5. When the project URL does not parse, [GetPolicy] returns the
    parser's error and the empty text and touches nothing: no request is
    sent and the state is the one it started in. *)
Theorem GetPolicy_bad_url_sends_nothing (err : error) :
  url_Parse_error (policy.URL project_req) = Some err ->
  GetPolicy p namespace projectName st = (Returned ("", Some err), st).
Proof.
  intros Hurl.
  unfold policy.GetPolicy, bind. rewrite getPolicyForNamespace_run, Hurl.
  reflexivity.
Qed.

(** X6. A failure to read the body of a response is not reported: a
    project-level 200 whose body cannot be read makes [GetPolicy] return
    the empty text with no error. *)
Theorem GetPolicy_unreadable_body_is_empty_policy
  (resp : policy.Response) (w : World) (rerr : error) :
  url_Parse_error (policy.URL project_req) = None ->
  policy.Do (policy.HttpClient p) project_req (world st) = (inl resp, w) ->
  policy.StatusCode resp = 200%Z ->
  policy.Body resp = inr rerr ->
  fst (GetPolicy p namespace projectName st) = Returned ("", None).
Proof.
  intros Hurl HDo H200 Hbody.
  unfold policy.GetPolicy, bind. rewrite getPolicyForNamespace_run, Hurl, HDo.
  cbn [deref ret]. rewrite H200, Hbody. reflexivity.
Qed.

End ProviderExtras.

(** A project-level 500: an error, and no text with it. *)
Lemma GetPolicy_error_has_no_text_witness :
  exists content err st',
    policy.GetPolicy scenario.url_ok
      (scenario.provider scenario.server_error (scenario.found "package org"))
      "acme/infra" "vpc" scenario.start
    = (Returned (content, err), st')
    /\ err <> None
    /\ content = "".
Proof.
  eexists _, _, _. split; [reflexivity|]. split; [discriminate|].
  eapply (GetPolicy_error_has_no_text scenario.url_ok
            (scenario.provider scenario.server_error (scenario.found "package org"))
            "acme/infra" "vpc" scenario.start);
    [reflexivity | discriminate].
Defined.

(** The project request is refused: the error comes back after a single
    request; it is refused at the organisation level after a 404: the
    error comes back as well. *)
Lemma GetPolicy_transport_error_is_returned_witness :
  (exists st',
      policy.GetPolicy scenario.url_ok
        (scenario.provider observe.unreachable scenario.not_found)
        "acme/infra" "vpc" scenario.start
      = (Returned ("", Some (errors_New "connection refused")), st')
      /\ List.length (trace st') = 1%nat)
  /\ fst (policy.GetPolicy scenario.url_ok
            (scenario.provider scenario.not_found observe.unreachable)
            "acme/infra" "vpc" scenario.start)
     = Returned ("", Some (errors_New "connection refused")).
Proof.
  split.
  - destruct (GetPolicy_transport_error_is_returned scenario.url_ok
                (scenario.provider observe.unreachable scenario.not_found)
                "acme/infra" "vpc" scenario.start eq_refl) as (H & _).
    eexists. split; [apply H; reflexivity | reflexivity].
  - destruct (GetPolicy_transport_error_is_returned scenario.url_ok
                (scenario.provider scenario.not_found observe.unreachable)
                "acme/infra" "vpc" scenario.start eq_refl) as (_ & H).
    eapply H; reflexivity.
Defined.

Lemma GetPolicy_bad_url_sends_nothing_witness :
  policy.GetPolicy observe.url_bad
    (scenario.provider (scenario.found "package digger") scenario.not_found)
    "acme/infra" "vpc" scenario.start
  = (Returned ("", Some (errors_New "invalid URL escape")), scenario.start).
Proof.
  apply (GetPolicy_bad_url_sends_nothing observe.url_bad
           (scenario.provider (scenario.found "package digger") scenario.not_found)
           "acme/infra" "vpc" scenario.start (errors_New "invalid URL escape")).
  reflexivity.
Defined.

Lemma GetPolicy_unreadable_body_is_empty_policy_witness :
  fst (policy.GetPolicy scenario.url_ok
         (scenario.provider (observe.unreadable 200) scenario.server_error)
         "acme/infra" "vpc" scenario.start)
  = Returned ("", None).
Proof.
  eapply (GetPolicy_unreadable_body_is_empty_policy scenario.url_ok
            (scenario.provider (observe.unreadable 200) scenario.server_error)
            "acme/infra" "vpc" scenario.start); reflexivity.
Defined.

(** ** The checker: what it never does, and how failures surface *)

Lemma Check_expressions_shape (l : list policy.ExpressionValue) :
  policy.Check_expressions l = (true, None) \/ fst (policy.Check_expressions l) = false.
Proof.
  induction l as [|e l IH]; cbn; [now left|].
  destruct (policy.Value e) as [ | [|] | | | | ]; cbn; auto.
Qed.

Section CheckerExtras.
Context {World : Type}.
Variable url_Parse_error : string -> option error.
Variable rego_compile_error : string -> string -> string -> option error.
Variable rego_Eval : policy.PreparedEvalQuery -> policy.Input -> World
                     -> (policy.ResultSet * option error) * World.

Local Abbreviation GetPolicy := (@policy.GetPolicy World url_Parse_error).
Local Abbreviation checker_Check :=
  (@policy.DiggerPolicyChecker_Check World url_Parse_error rego_compile_error rego_Eval).

Variable c : @policy.DiggerPolicyChecker World.
Variables githubOrganisation namespace projectName command requestedBy : string.
Variable st : Go.State World policy.Event.

Local Abbreviation fetched := (GetPolicy (policy.PolicyProvider c) namespace projectName st).
Local Abbreviation lookup :=
  (policy.GetUserTeams (policy.ciService c) githubOrganisation requestedBy
     (world (snd fetched))).
Local Abbreviation result :=
  (checker_Check c githubOrganisation namespace projectName command requestedBy st).
Local Abbreviation unfolded :=
  (Check_unfold url_Parse_error rego_compile_error rego_Eval c
     githubOrganisation namespace projectName command requestedBy st).
Local Abbreviation query_of text :=
  (policy.mkPreparedEvalQuery "data.digger.allow" "digger" text).
Local Abbreviation facts_of teams :=
  (scenario.facts requestedBy (policy.DiggerOrganisation (policy.PolicyProvider c))
     teams command projectName).

(** For a checker that holds a provider with a client and a CI service,
    [Check] returns a decision, and the decision is never [true] together
    with an error. *)
Lemma Check_returns_a_decision :
  exists allowed err st',
    policy.DiggerPolicyChecker_Check url_Parse_error rego_compile_error rego_Eval c
      githubOrganisation namespace projectName command requestedBy st
    = (Returned (allowed, err), st')
    /\ (allowed = true -> err = None).
Proof.
  destruct (GetPolicy_returns url_Parse_error (policy.PolicyProvider c)
              namespace projectName st) as (text & perr & st1 & Hf & _ & _).
  rewrite (unfolded text perr) by (rewrite Hf; reflexivity).
  cbv zeta.
  destruct (snd (fst lookup)) as [terr|].
  { eexists _, _, _. split; [reflexivity | discriminate]. }
  destruct (text =? "").
  { eexists _, _, _. split; [reflexivity | reflexivity]. }
  destruct (rego_compile_error _ _ _) as [cerr|].
  { eexists _, _, _. split; [reflexivity | discriminate]. }
  match goal with
  | |- context [if ?b then _ else policy.Check_expressions ?l] =>
      destruct b; [ | destruct (Check_expressions_shape l) as [E|E] ]
  end.
  - eexists _, _, _. split; [reflexivity | discriminate].
  - rewrite E. eexists _, _, _. split; [reflexivity | reflexivity].
  - match goal with
    | |- context [policy.Check_expressions ?l] =>
        destruct (policy.Check_expressions l) as [allowed err]
    end.
    cbn in E. subst allowed.
    eexists _, _, _. split; [reflexivity | discriminate].
Qed.

(** X7. [Check] never returns [true] together with an error: whenever
    it returns [(allowed, err)] with [allowed] true, [err] is nil. *)
Theorem Check_never_grants_with_error
  (allowed : bool) (err : option error) (st' : Go.State World policy.Event) :
  policy.DiggerPolicyChecker_Check url_Parse_error rego_compile_error rego_Eval c
    githubOrganisation namespace projectName command requestedBy st
  = (Returned (allowed, err), st') ->
  allowed = true ->
  err = None.
Proof.
  intros Hrun Hallowed.
  destruct Check_returns_a_decision as (allowed0 & err0 & st0 & Hrun0 & Hnone).
  rewrite Hrun0 in Hrun. injection Hrun as -> -> _.
  exact (Hnone Hallowed).
Qed.

(** X8. When the policy module does not compile, [Check] denies with the
    compiler's error and the engine is never asked to evaluate: after the
    team lookup the run makes the debug print and the one call that
    prepares the query, and nothing more. *)
Theorem Check_compile_failure_denies
  (text : string) (perr : option error) (teams : list string) (w2 : World) (cerr : error) :
  fst fetched = Returned (text, perr) ->
  text <> "" ->
  lookup = ((teams, None), w2) ->
  rego_compile_error "data.digger.allow" "digger" text = Some cerr ->
  result
  = (Returned (false, Some cerr),
     mkState w2
       (trace (snd fetched)
        ++ [policy.EvGetUserTeams githubOrganisation requestedBy;
            policy.EvPrintf "DEBUG: passing the following input policy: %v ||| text: %v"
              [policy.OpMap (facts_of teams); policy.OpAny (AString text)];
            policy.EvRegoPrepare "data.digger.allow" "digger" text])).
Proof.
  intros Hf Htext Hl Hc.
  rewrite (unfolded text perr Hf). cbv zeta. rewrite Hl. cbn [fst snd world trace].
  apply String.eqb_neq in Htext. rewrite Htext, Hc.
  rewrite <- !app_assoc. reflexivity.
Qed.

(** X9. What the engine reports as an error is never returned, and only
    the first result counts. When the evaluation gives no result, [Check]
    answers "no result found" whatever error the engine gave; when it
    gives results, the decision is read off the elements of the first
    one alone. *)
Theorem Check_evaluation_error_is_masked
  (text : string) (perr : option error) (teams : list string) (w2 w3 : World)
  (results : policy.ResultSet) (everr : option error) :
  fst fetched = Returned (text, perr) ->
  text <> "" ->
  lookup = ((teams, None), w2) ->
  rego_compile_error "data.digger.allow" "digger" text = None ->
  rego_Eval (query_of text) (facts_of teams) w2 = ((results, everr), w3) ->
  (results = [] -> fst result = Returned (false, Some (fmt_Errorf "no result found")))
  /\ (forall first rest,
         results = first :: rest ->
         policy.Expressions first <> [] ->
         fst result = Returned (policy.Check_expressions (policy.Expressions first))).
Proof.
  intros Hf Htext Hl Hc He.
  rewrite (unfolded text perr Hf). cbv zeta. rewrite Hl. cbn [fst snd world trace].
  apply String.eqb_neq in Htext. rewrite Htext, Hc, He. cbn [fst snd].
  split.
  - intros ->. reflexivity.
  - intros first rest -> Hne. cbn [nth List.length Nat.eqb orb].
    destruct (policy.Expressions first); [now elim Hne | reflexivity].
Qed.

(** X10. An error of the policy fetch never reaches the caller of
    [Check]: whenever [GetPolicy] returns an error and the team lookup
    succeeds, [Check] returns [(true, nil)]. *)
Theorem Check_policy_error_is_dropped
  (text : string) (perr : error) (teams : list string) (w2 : World) :
  fst fetched = Returned (text, Some perr) ->
  lookup = ((teams, None), w2) ->
  fst result = Returned (true, None).
Proof.
  intros Hf Hl.
  exact (Check_drops_policy_error url_Parse_error rego_compile_error rego_Eval c
           githubOrganisation namespace projectName command requestedBy st
           text perr teams w2 Hf Hl).
Qed.

(** X11. The order of the calls and what the engine is given. With a
    non-empty policy that compiles, the run continues after the policy
    fetch with the team lookup for the SCM organisation and the
    requester, the debug print, the preparation of the query
    "data.digger.allow" over the module "digger" holding the policy text,
    and one evaluation. Its input holds the requester as "user", the
    provider's own organisation (not the SCM organisation) as
    "organisation", the teams the lookup returned, the command as
    "action" and the project name as "project". *)
Theorem Check_engine_call
  (text : string) (perr : option error) (teams : list string) (w2 : World) :
  fst fetched = Returned (text, perr) ->
  text <> "" ->
  lookup = ((teams, None), w2) ->
  rego_compile_error "data.digger.allow" "digger" text = None ->
  trace (snd result)
  = trace (snd fetched)
    ++ [policy.EvGetUserTeams githubOrganisation requestedBy;
        policy.EvPrintf "DEBUG: passing the following input policy: %v ||| text: %v"
          [policy.OpMap (facts_of teams); policy.OpAny (AString text)];
        policy.EvRegoPrepare "data.digger.allow" "digger" text;
        policy.EvRegoEval (query_of text)
          [ ("user", AString requestedBy);
            ("organisation", AString (policy.DiggerOrganisation (policy.PolicyProvider c)));
            ("teams", AStrings teams);
            ("action", AString command);
            ("project", AString projectName) ]].
Proof.
  intros Hf Htext Hl Hc.
  rewrite (unfolded text perr Hf). cbv zeta. rewrite Hl. cbn [fst snd world trace].
  apply String.eqb_neq in Htext. rewrite Htext, Hc. cbn [snd trace].
  rewrite <- !app_assoc. reflexivity.
Qed.

End CheckerExtras.

Section UnreadablePolicy.
Context {World : Type}.
Variable url_Parse_error : string -> option error.
Variable rego_compile_error : string -> string -> string -> option error.
Variable rego_Eval : policy.PreparedEvalQuery -> policy.Input -> World
                     -> (policy.ResultSet * option error) * World.

(** X12. A policy that exists but cannot be read grants. When the
    project-level request is answered with status 200 and reading the
    body fails, and the team lookup succeeds, [Check] returns
    [(true, nil)]: the unread policy counts as no policy. *)
Theorem Check_unreadable_policy_grants
  (c : @policy.DiggerPolicyChecker World)
  (githubOrganisation namespace projectName command requestedBy : string)
  (st : Go.State World policy.Event)
  (resp : policy.Response) (rerr : error) (teams : list string) (w w2 : World) :
  let request :=
    observe.project_request (policy.PolicyProvider c)
      (strings_ReplaceAll namespace "/" "-") projectName in
  url_Parse_error (policy.URL request) = None ->
  policy.Do (policy.HttpClient (policy.PolicyProvider c)) request (world st) = (inl resp, w) ->
  policy.StatusCode resp = 200%Z ->
  policy.Body resp = inr rerr ->
  policy.GetUserTeams (policy.ciService c) githubOrganisation requestedBy w
  = ((teams, None), w2) ->
  fst (policy.DiggerPolicyChecker_Check url_Parse_error rego_compile_error rego_Eval c
         githubOrganisation namespace projectName command requestedBy st)
  = Returned (true, None).
Proof.
  intros request Hurl HDo H200 Hbody Hl.
  assert (Hf : policy.GetPolicy url_Parse_error (policy.PolicyProvider c)
                 namespace projectName st
               = (Returned ("", None),
                  mkState w (trace st ++ [policy.EvHttpDo request; policy.EvBodyClose resp]))).
  { unfold policy.GetPolicy, bind. rewrite getPolicyForNamespace_run.
    fold request. rewrite Hurl, HDo. cbn [deref ret]. rewrite H200, Hbody. reflexivity. }
  rewrite (Check_unfold url_Parse_error rego_compile_error rego_Eval c
             githubOrganisation namespace projectName command requestedBy st "" None)
    by (rewrite Hf; reflexivity).
  cbv zeta. rewrite Hf. cbn [snd world]. rewrite Hl. reflexivity.
Qed.

End UnreadablePolicy.

Lemma Check_unreadable_policy_grants_witness :
  fst (policy.DiggerPolicyChecker_Check scenario.url_ok scenario.compile_ok
         (scenario.eval_to [])
         (scenario.checker (observe.unreadable 200) scenario.not_found (["dev"], None))
         "acme" "acme/infra" "vpc" "digger apply" "mallory" scenario.start)
  = Returned (true, None).
Proof.
  eapply (Check_unreadable_policy_grants scenario.url_ok scenario.compile_ok
            (scenario.eval_to [])
            (scenario.checker (observe.unreadable 200) scenario.not_found (["dev"], None))
            "acme" "acme/infra" "vpc" "digger apply" "mallory" scenario.start);
    reflexivity.
Defined.

(** Every element [true]: granted, and with no error. *)
Lemma Check_never_grants_with_error_witness :
  let run :=
    policy.DiggerPolicyChecker_Check scenario.url_ok scenario.compile_ok
      (scenario.eval_to [policy.mkResult [scenario.expr (ABool true)]])
      (scenario.checker (scenario.found "package digger") scenario.not_found (["ops"], None))
      "acme" "acme/infra" "vpc" "digger apply" "bob" scenario.start in
  exists err, run = (Returned (true, err), snd run) /\ err = None.
Proof.
  intros run. exists None. split; [reflexivity|].
  exact (Check_never_grants_with_error scenario.url_ok scenario.compile_ok
           (scenario.eval_to [policy.mkResult [scenario.expr (ABool true)]])
           (scenario.checker (scenario.found "package digger") scenario.not_found
              (["ops"], None))
           "acme" "acme/infra" "vpc" "digger apply" "bob" scenario.start
           true None (snd run) eq_refl eq_refl).
Defined.

Lemma Check_compile_failure_denies_witness :
  fst (policy.DiggerPolicyChecker_Check scenario.url_ok observe.compile_fails
         (scenario.eval_to [policy.mkResult [scenario.expr (ABool true)]])
         (scenario.checker (scenario.found "package digger") scenario.not_found
            (["ops"], None))
         "acme" "acme/infra" "vpc" "digger apply" "bob" scenario.start)
  = Returned (false, Some (errors_New "rego_parse_error")).
Proof.
  assert (Htext : "package digger" <> "") by discriminate.
  rewrite (Check_compile_failure_denies scenario.url_ok observe.compile_fails
             (scenario.eval_to [policy.mkResult [scenario.expr (ABool true)]])
             (scenario.checker (scenario.found "package digger") scenario.not_found
                (["ops"], None))
             "acme" "acme/infra" "vpc" "digger apply" "bob" scenario.start
             "package digger" None ["ops"] tt (errors_New "rego_parse_error")
             eq_refl Htext eq_refl eq_refl).
  reflexivity.
Defined.

Lemma Check_evaluation_error_is_masked_witness :
  fst (policy.DiggerPolicyChecker_Check scenario.url_ok scenario.compile_ok
         observe.eval_fails
         (scenario.checker (scenario.found "package digger") scenario.not_found
            (["ops"], None))
         "acme" "acme/infra" "vpc" "digger apply" "bob" scenario.start)
  = Returned (false, Some (errors_New "no result found")).
Proof.
  assert (Htext : "package digger" <> "") by discriminate.
  destruct (Check_evaluation_error_is_masked scenario.url_ok scenario.compile_ok
              observe.eval_fails
              (scenario.checker (scenario.found "package digger") scenario.not_found
                 (["ops"], None))
              "acme" "acme/infra" "vpc" "digger apply" "bob" scenario.start
              "package digger" None ["ops"] tt tt [] (Some (errors_New "eval_internal_error"))
              eq_refl Htext eq_refl eq_refl eq_refl) as (H & _).
  apply H. reflexivity.
Defined.

Lemma Check_policy_error_is_dropped_witness :
  fst (policy.DiggerPolicyChecker_Check scenario.url_ok scenario.compile_ok
         (scenario.eval_to [])
         (scenario.checker observe.unreachable scenario.not_found (["ops"], None))
         "acme" "acme/infra" "vpc" "digger apply" "mallory" scenario.start)
  = Returned (true, None).
Proof.
  apply (Check_policy_error_is_dropped scenario.url_ok scenario.compile_ok
           (scenario.eval_to [])
           (scenario.checker observe.unreachable scenario.not_found (["ops"], None))
           "acme" "acme/infra" "vpc" "digger apply" "mallory" scenario.start
           "" (errors_New "connection refused") ["ops"] tt eq_refl eq_refl).
Defined.

Lemma Check_engine_call_witness :
  List.length
    (trace (snd (policy.DiggerPolicyChecker_Check scenario.url_ok scenario.compile_ok
                   (scenario.eval_to [policy.mkResult [scenario.expr (ABool true)]])
                   (scenario.checker (scenario.found "package digger") scenario.not_found
                      (["ops"], None))
                   "acme-scm" "acme/infra" "vpc" "digger apply" "bob" scenario.start)))
  = 6%nat.
Proof.
  assert (Htext : "package digger" <> "") by discriminate.
  rewrite (Check_engine_call scenario.url_ok scenario.compile_ok
             (scenario.eval_to [policy.mkResult [scenario.expr (ABool true)]])
             (scenario.checker (scenario.found "package digger") scenario.not_found
                (["ops"], None))
             "acme-scm" "acme/infra" "vpc" "digger apply" "bob" scenario.start
             "package digger" None ["ops"] tt eq_refl Htext eq_refl eq_refl).
  reflexivity.
Defined.

(** ** The event router: edges, sizes, and what fires *)

(** The router by cases on the event type, its loops in closed form. *)
Lemma ConvertGitLabEventToCommands_cases (event : gitlab.GitLabEvent.t)
  (gitLabContext : option gitlab.GitLabContext.t) (impactedProjects : list digger.Project.t) :
  gitlab.ConvertGitLabEventToCommands event gitLabContext impactedProjects
  = let stage commands_of :=
      Returned (map (fun p => scenario.command_for p (commands_of (scenario.workflow p)))
                  impactedProjects, @None error) in
    if gitlab.GitLabEvent.EventType event =? gitlab.MergeRequestOpened
    then stage digger.OnCommitToDefault
    else if gitlab.GitLabEvent.EventType event =? gitlab.MergeRequestUpdated
    then stage digger.OnPullRequestPushed
    else if gitlab.GitLabEvent.EventType event =? gitlab.MergeRequestClosed
    then stage digger.OnPullRequestClosed
    else if gitlab.GitLabEvent.EventType event =? gitlab.MergeRequestComment
    then match gitLabContext with
         | None => Panicked nil_dereference
         | Some ctx =>
             Returned
               (flat_map (fun phrase => map (fun p => scenario.command_for p [phrase])
                                          impactedProjects)
                  (filter (strings_Contains (gitlab.GitLabContext.DiggerCommand ctx))
                     scenario.vocabulary), None)
         end
    else Returned ([], Some (fmt_Errorf ("unsupported GitLab event type: {"
                                         ++ gitlab.GitLabEvent.EventType event ++ "}")%string)).
Proof.
  unfold gitlab.ConvertGitLabEventToCommands. cbv zeta.
  destruct (gitlab.GitLabEvent.EventType event =? gitlab.MergeRequestOpened).
  { rewrite (fold_left_append_map
               (fun p => scenario.command_for p (digger.OnCommitToDefault (scenario.workflow p)))).
    reflexivity. }
  destruct (gitlab.GitLabEvent.EventType event =? gitlab.MergeRequestUpdated).
  { rewrite (fold_left_append_map
               (fun p => scenario.command_for p (digger.OnPullRequestPushed (scenario.workflow p)))).
    reflexivity. }
  destruct (gitlab.GitLabEvent.EventType event =? gitlab.MergeRequestClosed).
  { rewrite (fold_left_append_map
               (fun p => scenario.command_for p (digger.OnPullRequestClosed (scenario.workflow p)))).
    reflexivity. }
  destruct (gitlab.GitLabEvent.EventType event =? gitlab.MergeRequestComment);
    [|reflexivity].
  destruct gitLabContext as [ctx|]; [|reflexivity].
  rewrite (comment_loop ctx impactedProjects). reflexivity.
Qed.

Lemma matched_in_vocabulary (text phrase : string) :
  In phrase (filter (strings_Contains text) scenario.vocabulary) ->
  In phrase scenario.vocabulary /\ strings_Contains text phrase = true.
Proof. intros H. apply filter_In in H. exact H. Qed.

Lemma length_fired {A B : Type} (f : string -> A -> B) (l : list A) (phrases : list string) :
  List.length (flat_map (fun phrase => map (f phrase) l) phrases)
  = (List.length phrases * List.length l)%nat.
Proof.
  induction phrases as [|phrase phrases IH]; [reflexivity|].
  cbn [flat_map]. rewrite length_app, length_map, IH. reflexivity.
Qed.

(** X13. A Commented event with a nil context panics on a nil
    dereference, for any list of projects, also the empty one. *)
Theorem ConvertGitLabEventToCommands_comment_needs_context
  (impactedProjects : list digger.Project.t) :
  gitlab.ConvertGitLabEventToCommands (gitlab.GitLabEvent.mk gitlab.MergeRequestComment)
    None impactedProjects
  = Panicked nil_dereference.
Proof.
  rewrite ConvertGitLabEventToCommands_cases. reflexivity.
Qed.

(** X14. With a context the router always returns; it returns an error
    exactly when the event type is none of the four it knows, and then
    with no commands. It returns at most four commands per impacted
    project, and none when no project is impacted. *)
Theorem ConvertGitLabEventToCommands_error_and_size
  (event : gitlab.GitLabEvent.t) (ctx : gitlab.GitLabContext.t)
  (impactedProjects : list digger.Project.t) :
  exists commands err,
    gitlab.ConvertGitLabEventToCommands event (Some ctx) impactedProjects
    = Returned (commands, err)
    /\ (err = None
        <-> In (gitlab.GitLabEvent.EventType event)
              [gitlab.MergeRequestOpened; gitlab.MergeRequestUpdated;
               gitlab.MergeRequestClosed; gitlab.MergeRequestComment])
    /\ (err <> None -> commands = [])
    /\ (List.length commands <= 4 * List.length impactedProjects)%nat
    /\ (impactedProjects = [] -> commands = []).
Proof.
  rewrite ConvertGitLabEventToCommands_cases. cbv zeta.
  destruct (gitlab.GitLabEvent.EventType event =? gitlab.MergeRequestOpened) eqn:E1;
    [ | destruct (gitlab.GitLabEvent.EventType event =? gitlab.MergeRequestUpdated) eqn:E2;
        [ | destruct (gitlab.GitLabEvent.EventType event =? gitlab.MergeRequestClosed) eqn:E3;
            [ | destruct (gitlab.GitLabEvent.EventType event =? gitlab.MergeRequestComment)
                  eqn:E4 ] ] ].
  - apply String.eqb_eq in E1.
    eexists _, _. split; [reflexivity|]. rewrite length_map.
    repeat split; try congruence; try lia; [intros _; left; congruence | now intros ->].
  - apply String.eqb_eq in E2.
    eexists _, _. split; [reflexivity|]. rewrite length_map.
    repeat split; try congruence; try lia;
      [intros _; right; left; congruence | now intros ->].
  - apply String.eqb_eq in E3.
    eexists _, _. split; [reflexivity|]. rewrite length_map.
    repeat split; try congruence; try lia;
      [intros _; right; right; left; congruence | now intros ->].
  - apply String.eqb_eq in E4.
    eexists _, _. split; [reflexivity|].
    rewrite (length_fired (fun phrase p => scenario.command_for p [phrase])).
    repeat split; try congruence.
    + intros _; right; right; right; left; congruence.
    + pose proof (filter_length_le
                    (strings_Contains (gitlab.GitLabContext.DiggerCommand ctx))
                    scenario.vocabulary) as Hle.
      change (List.length scenario.vocabulary) with 4%nat in Hle.
      apply Nat.mul_le_mono_r. exact Hle.
    + intros ->.
      induction (filter _ scenario.vocabulary) as [|q l IH]; [reflexivity | exact IH].
  - apply String.eqb_neq in E1, E2, E3, E4.
    eexists _, _. split; [reflexivity|].
    repeat split; try discriminate; cbn [List.length]; try lia.
    intros [H|[H|[H|[H|[]]]]]; congruence.
Qed.

(** X15. What a comment fires. A [ProjectCommand] is among the commands
    of a Commented event exactly when it is the single-phrase command of
    an impacted project for a phrase of the vocabulary that occurs in the
    comment text as a substring. *)
Theorem ConvertGitLabEventToCommands_comment_fires
  (ctx : gitlab.GitLabContext.t) (impactedProjects : list digger.Project.t)
  (pc : digger.ProjectCommand.t) :
  (exists commands,
      gitlab.ConvertGitLabEventToCommands (gitlab.GitLabEvent.mk gitlab.MergeRequestComment)
        (Some ctx) impactedProjects
      = Returned (commands, None)
      /\ In pc commands)
  <-> exists phrase project before after,
      In phrase scenario.vocabulary
      /\ gitlab.GitLabContext.DiggerCommand ctx = (before ++ phrase ++ after)%string
      /\ In project impactedProjects
      /\ pc = scenario.command_for project [phrase].
Proof.
  rewrite ConvertGitLabEventToCommands_cases. cbv zeta.
  cbn [gitlab.GitLabEvent.EventType].
  change (gitlab.MergeRequestComment =? gitlab.MergeRequestOpened) with false.
  change (gitlab.MergeRequestComment =? gitlab.MergeRequestUpdated) with false.
  change (gitlab.MergeRequestComment =? gitlab.MergeRequestClosed) with false.
  change (gitlab.MergeRequestComment =? gitlab.MergeRequestComment) with true.
  cbv iota. split.
  - intros (commands & Heq & Hin).
    injection Heq as <-.
    apply in_flat_map in Hin as (phrase & Hphrase & Hin).
    apply in_map_iff in Hin as (project & <- & Hproject).
    apply matched_in_vocabulary in Hphrase as (Hvoc & Hsub).
    apply strings_Contains_substring in Hsub as (before & after & Hsub).
    now exists phrase, project, before, after.
  - intros (phrase & project & before & after & Hvoc & Htext & Hproject & ->).
    eexists. split; [reflexivity|].
    apply in_flat_map. exists phrase. split.
    + apply filter_In. split; [exact Hvoc|].
      apply strings_Contains_substring. now exists before, after.
    + apply in_map_iff. now exists project.
Qed.

(** X16. The phrases of the vocabulary do not fire one another: a
    comment that is exactly one phrase gives that phrase, once per
    impacted project, and nothing else. *)
Theorem ConvertGitLabEventToCommands_exact_phrase
  (ctx : gitlab.GitLabContext.t) (impactedProjects : list digger.Project.t)
  (phrase : string) :
  In phrase scenario.vocabulary ->
  gitlab.GitLabContext.DiggerCommand ctx = phrase ->
  gitlab.ConvertGitLabEventToCommands (gitlab.GitLabEvent.mk gitlab.MergeRequestComment)
    (Some ctx) impactedProjects
  = Returned (map (fun p => scenario.command_for p [phrase]) impactedProjects, None).
Proof.
  intros Hvoc Htext.
  rewrite ConvertGitLabEventToCommands_cases. cbv zeta.
  cbn [gitlab.GitLabEvent.EventType].
  change (gitlab.MergeRequestComment =? gitlab.MergeRequestOpened) with false.
  change (gitlab.MergeRequestComment =? gitlab.MergeRequestUpdated) with false.
  change (gitlab.MergeRequestComment =? gitlab.MergeRequestClosed) with false.
  change (gitlab.MergeRequestComment =? gitlab.MergeRequestComment) with true.
  cbv iota. rewrite Htext.
  assert (Hone : filter (strings_Contains phrase) scenario.vocabulary = [phrase]).
  { destruct Hvoc as [<-|[<-|[<-|[<-|[]]]]]; reflexivity. }
  rewrite Hone. cbn [flat_map]. now rewrite app_nil_r.
Qed.

Lemma ConvertGitLabEventToCommands_exact_phrase_witness :
  gitlab.ConvertGitLabEventToCommands (gitlab.GitLabEvent.mk gitlab.MergeRequestComment)
    (Some (scenario.context "digger unlock" (Some 3%Z))) [scenario.vpc; scenario.db]
  = Returned ([scenario.command_for scenario.vpc ["digger unlock"];
               scenario.command_for scenario.db ["digger unlock"]], None).
Proof.
  apply (ConvertGitLabEventToCommands_exact_phrase
           (scenario.context "digger unlock" (Some 3%Z)) [scenario.vpc; scenario.db]
           "digger unlock").
  - right; right; left; reflexivity.
  - reflexivity.
Defined.

(** ** The orchestrator: terminal status, nil merge request, wiring *)

(** When the last acquisition of a trace returned [false], some
    acquisition of the trace returned [false]. *)
Lemma last_lock_false_is_a_failure {Lock CIService DiggerConfig : Type}
  (tr : list (@gitlab.Event Lock CIService DiggerConfig)) (acc : bool) :
  scenario.last_lock tr acc = false -> acc = false \/ scenario.lock_failed tr = true.
Proof.
  unfold scenario.lock_failed.
  revert acc. induction tr as [|e tr IH]; intros acc H; [now left|].
  cbn in H. apply IH in H. cbn [existsb].
  destruct e; cbn [orb]; try exact H.
  destruct H as [->|H]; right; [reflexivity | rewrite H; apply orb_true_r].
Qed.

(** A trace that delegates no lock command leaves the flag alone. *)
Lemma last_lock_without_lock {Lock CIService DiggerConfig : Type}
  (tr : list (@gitlab.Event Lock CIService DiggerConfig)) (acc : bool) :
  (forall name, ~ In (name, "digger lock") (scenario.delegations tr)) ->
  scenario.last_lock tr acc = acc.
Proof.
  revert acc. induction tr as [|e tr IH]; intros acc H; [reflexivity|].
  assert (Htl : forall name, ~ In (name, "digger lock") (scenario.delegations tr)).
  { intros name Hin. apply (H name). unfold scenario.delegations. cbn [flat_map].
    apply in_or_app. right. exact Hin. }
  destruct e; cbn; try (apply IH; exact Htl).
  exfalso. apply (H (gitlab.executor_projectName executor)). left. reflexivity.
Qed.

Lemma requested_mentions_commands (batch : list digger.ProjectCommand.t)
  (name command : string) :
  In (name, command) (scenario.requested batch) ->
  exists pc, In pc batch /\ In command (digger.ProjectCommand.Commands pc).
Proof.
  unfold scenario.requested. intros H.
  apply in_flat_map in H as (pc & Hpc & H).
  apply in_map_iff in H as (c & Hc & H).
  injection Hc as _ ->. apply filter_In in H as (H & _).
  now exists pc.
Qed.

Lemma requested_app (a b : list digger.ProjectCommand.t) :
  scenario.requested (a ++ b) = scenario.requested a ++ scenario.requested b.
Proof. apply flat_map_app. Qed.

(** The commands the router builds for recognised phrases are all
    requested of the orchestrator. *)
Lemma requested_fired (impactedProjects : list digger.Project.t) (phrases : list string) :
  Forall (fun phrase => scenario.recognised phrase = true) phrases ->
  scenario.requested
    (flat_map (fun phrase => map (fun p => scenario.command_for p [phrase]) impactedProjects)
       phrases)
  = flat_map (fun phrase => map (fun p => (digger.Project.Name p, phrase)) impactedProjects)
      phrases.
Proof.
  induction 1 as [|phrase phrases Hrec _ IH]; [reflexivity|].
  cbn [flat_map]. rewrite requested_app, IH. f_equal.
  clear IH. induction impactedProjects as [|p l IHl]; [reflexivity|].
  cbn [map]. unfold scenario.requested in *. cbn [flat_map].
  rewrite IHl. cbn [scenario.command_for digger.ProjectCommand.Commands
                      digger.ProjectCommand.ProjectName filter].
  rewrite Hrec. reflexivity.
Qed.

Lemma vocabulary_recognised (text : string) :
  Forall (fun phrase => scenario.recognised phrase = true)
    (filter (strings_Contains text) scenario.vocabulary).
Proof.
  apply Forall_forall. intros phrase H.
  apply filter_In in H as (H & _).
  destruct H as [<-|[<-|[<-|[<-|[]]]]]; reflexivity.
Qed.

Section OrchestratorExtras.
Context {World Lock CIService DiggerConfig : Type}.

Local Abbreviation Event := (@gitlab.Event Lock CIService DiggerConfig).
Local Abbreviation DiggerExecutor := (@gitlab.DiggerExecutor Lock CIService DiggerConfig).
Local Abbreviation State := (Go.State World Event).

Variable executor_Plan : DiggerExecutor -> Z -> World -> World.
Variable executor_Apply : DiggerExecutor -> Z -> World -> World.
Variable executor_Unlock : DiggerExecutor -> Z -> World -> World.
Variable executor_Lock : DiggerExecutor -> Z -> World -> bool * World.
Variable usage_record : string -> string -> string -> World -> World.

Variable commandsPerProject : list digger.ProjectCommand.t.
Variable gitLabContext : gitlab.GitLabContext.t.
Variable diggerConfig : option DiggerConfig.
Variable service : CIService.
Variable lock : Lock.
Variable workingDir : string.
Variable st : State.

Local Abbreviation run_on batch :=
  (gitlab.RunCommandsPerProject executor_Plan executor_Apply executor_Unlock
     executor_Lock usage_record batch gitLabContext diggerConfig service lock workingDir st).
Local Abbreviation result := (run_on commandsPerProject).
Local Abbreviation summarised :=
  (RunCommandsPerProject_summary executor_Plan executor_Apply executor_Unlock
     executor_Lock usage_record).

(** X17. With the merge-request number set, the run always ends by
    returning [nil] or by exiting with status 1, and which of the two is
    decided by the last lock acquisition alone: exit 1 when it returned
    [false], [nil] when it returned [true] or when no lock was attempted. *)
Theorem RunCommandsPerProject_exit_follows_last_lock (n : Z) :
  gitlab.GitLabContext.MergeRequestIId gitLabContext = Some n ->
  exists tr,
    trace (snd result) = trace st ++ tr
    /\ fst result = if scenario.last_lock tr true then Returned None else Exited 1%Z.
Proof.
  intros Hiid.
  destruct (summarised commandsPerProject gitLabContext diggerConfig service lock
              workingDir st n Hiid)
    as (flag & st' & Hrun & tr & Htr & _ & _ & Hflag).
  rewrite Hrun. exists tr. split; [exact Htr | now rewrite <- Hflag].
Qed.

(** X18. The run fails only if a lock acquisition failed: with the
    merge-request number set, a failing status means that some acquisition
    made during the run returned [false]. *)
Theorem RunCommandsPerProject_failure_needs_failed_lock (n : Z) (tr : list Event) :
  gitlab.GitLabContext.MergeRequestIId gitLabContext = Some n ->
  trace (snd result) = trace st ++ tr ->
  scenario.failing_status (fst result) = true ->
  scenario.lock_failed tr = true.
Proof.
  intros Hiid Htr Hfail.
  destruct (summarised commandsPerProject gitLabContext diggerConfig service lock
              workingDir st n Hiid)
    as (flag & st' & Hrun & tr' & Htr' & _ & _ & Hflag).
  rewrite Hrun in Htr, Hfail. cbn [fst snd] in Htr, Hfail.
  rewrite Htr' in Htr. apply app_inv_head in Htr. subst tr'.
  destruct flag; [discriminate|].
  symmetry in Hflag.
  destruct (last_lock_false_is_a_failure tr true Hflag) as [H|H]; [discriminate | exact H].
Qed.

(** X19. A batch without any "digger lock" command never fails: with the
    merge-request number set, the run returns [nil]. *)
Theorem RunCommandsPerProject_lock_free_batch_succeeds (n : Z) :
  gitlab.GitLabContext.MergeRequestIId gitLabContext = Some n ->
  observe.lock_free commandsPerProject ->
  fst result = Returned None.
Proof.
  intros Hiid Hfree.
  destruct (summarised commandsPerProject gitLabContext diggerConfig service lock
              workingDir st n Hiid)
    as (flag & st' & Hrun & tr & Htr & _ & Hdel & Hflag).
  rewrite Hrun. cbn [fst].
  rewrite (last_lock_without_lock tr true) in Hflag.
  - now subst flag.
  - intros name Hin. rewrite Hdel in Hin.
    apply requested_mentions_commands in Hin as (pc & Hpc & Hin).
    exact (Hfree pc Hpc Hin).
Qed.

End OrchestratorExtras.

Section RouterToOrchestrator.
Context {World Lock CIService DiggerConfig : Type}.

Local Abbreviation Event := (@gitlab.Event Lock CIService DiggerConfig).
Local Abbreviation DiggerExecutor := (@gitlab.DiggerExecutor Lock CIService DiggerConfig).

Variable executor_Plan : DiggerExecutor -> Z -> World -> World.
Variable executor_Apply : DiggerExecutor -> Z -> World -> World.
Variable executor_Unlock : DiggerExecutor -> Z -> World -> World.
Variable executor_Lock : DiggerExecutor -> Z -> World -> bool * World.
Variable usage_record : string -> string -> string -> World -> World.

(** X20. The router and the orchestrator agree on the vocabulary. For a
    Commented event, with the merge-request number set, running the
    commands the router returns hands to the executor every phrase of the
    vocabulary that occurs in the comment, once for every impacted
    project: phrases in vocabulary order, projects in their order, none
    passed over. *)
Theorem comment_commands_all_reach_the_executor
  (ctx : gitlab.GitLabContext.t) (impactedProjects : list digger.Project.t)
  (diggerConfig : option DiggerConfig) (service : CIService) (lock : Lock)
  (workingDir : string) (st : Go.State World Event) (n : Z) :
  gitlab.GitLabContext.MergeRequestIId ctx = Some n ->
  exists commands tr,
    gitlab.ConvertGitLabEventToCommands (gitlab.GitLabEvent.mk gitlab.MergeRequestComment)
      (Some ctx) impactedProjects
    = Returned (commands, None)
    /\ trace (snd (gitlab.RunCommandsPerProject executor_Plan executor_Apply executor_Unlock
                     executor_Lock usage_record commands ctx diggerConfig service lock
                     workingDir st))
       = trace st ++ tr
    /\ scenario.delegations tr
       = flat_map (fun phrase => map (fun p => (digger.Project.Name p, phrase)) impactedProjects)
           (filter (strings_Contains (gitlab.GitLabContext.DiggerCommand ctx))
              scenario.vocabulary).
Proof.
  intros Hiid.
  rewrite ConvertGitLabEventToCommands_cases. cbv zeta.
  cbn [gitlab.GitLabEvent.EventType].
  change (gitlab.MergeRequestComment =? gitlab.MergeRequestOpened) with false.
  change (gitlab.MergeRequestComment =? gitlab.MergeRequestUpdated) with false.
  change (gitlab.MergeRequestComment =? gitlab.MergeRequestClosed) with false.
  change (gitlab.MergeRequestComment =? gitlab.MergeRequestComment) with true.
  cbv iota.
  eexists. 
  match goal with
  | |- exists tr, Returned (?cmds, None) = _ /\ _ =>
      destruct (RunCommandsPerProject_summary executor_Plan executor_Apply executor_Unlock
                  executor_Lock usage_record cmds ctx diggerConfig service lock
                  workingDir st n Hiid)
        as (flag & st' & Hrun & tr & Htr & _ & Hdel & _)
  end.
  exists tr. split; [reflexivity|].
  rewrite Hrun. split; [exact Htr|].
  rewrite Hdel. apply requested_fired, vocabulary_recognised.
Qed.

End RouterToOrchestrator.

(** Two schemes for the loops of the orchestrator: a loop whose
    iterations return and append events that satisfy [P], and a loop whose
    iterations either do nothing or panic. *)
Lemma for_range_events {World Ev A : Type} (P : A -> Ev -> Prop)
  (body : bool -> A -> Go.M World Ev bool) :
  (forall x acc st, exists acc' st' tr,
      body acc x st = (Returned acc', st')
      /\ trace st' = trace st ++ tr /\ Forall (P x) tr) ->
  forall l acc st, exists acc' st' tr,
      for_range l body acc st = (Returned acc', st')
      /\ trace st' = trace st ++ tr
      /\ Forall (fun e => exists x, In x l /\ P x e) tr.
Proof.
  intros Hbody l. induction l as [|x l IH]; intros acc st.
  - exists acc, st, []. rewrite app_nil_r. repeat split. constructor.
  - destruct (Hbody x acc st) as (acc1 & st1 & tr1 & Hrun & Htr & HP).
    destruct (IH acc1 st1) as (acc2 & st2 & tr2 & Hrun' & Htr' & HP').
    exists acc2, st2, (tr1 ++ tr2). repeat split.
    + cbn [for_range]. unfold bind. rewrite Hrun. exact Hrun'.
    + rewrite Htr', Htr. now rewrite app_assoc.
    + apply Forall_app. split.
      * eapply Forall_impl; [|exact HP]. intros e He. exists x. split; [now left | exact He].
      * eapply Forall_impl; [|exact HP']. intros e (y & Hy & He).
        exists y. split; [now right | exact He].
Qed.

Lemma for_range_halts {World Ev A : Type} (skip : A -> bool)
  (halted : Go.State World Ev -> Go.State World Ev -> Prop)
  (body : bool -> A -> Go.M World Ev bool) :
  (forall x acc st, skip x = true -> body acc x st = (Returned acc, st)) ->
  (forall x acc st, skip x = false ->
     exists st', body acc x st = (Panicked nil_dereference, st') /\ halted st st') ->
  forall l acc st,
    if forallb skip l
    then for_range l body acc st = (Returned acc, st)
    else exists st', for_range l body acc st = (Panicked nil_dereference, st') /\ halted st st'.
Proof.
  intros Hskip Hhalt l. induction l as [|x l IH]; intros acc st; [reflexivity|].
  cbn [forallb for_range]. unfold bind.
  destruct (skip x) eqn:E; cbn [andb].
  - rewrite (Hskip x acc st E). apply IH.
  - destruct (Hhalt x acc st E) as (st' & Hrun & Hh).
    exists st'. rewrite Hrun. split; [reflexivity | exact Hh].
Qed.

Lemma requested_nil (batch : list digger.ProjectCommand.t) :
  scenario.requested batch = []
  <-> forallb (fun pc => forallb (fun c => negb (scenario.recognised c))
                           (digger.ProjectCommand.Commands pc)) batch = true.
Proof.
  unfold scenario.requested.
  induction batch as [|pc batch IH]; [split; reflexivity|].
  cbn [flat_map forallb]. rewrite andb_true_iff, <- IH. clear IH.
  assert (Hpc : map (pair (digger.ProjectCommand.ProjectName pc))
                  (filter scenario.recognised (digger.ProjectCommand.Commands pc)) = []
                <-> forallb (fun c => negb (scenario.recognised c))
                      (digger.ProjectCommand.Commands pc) = true).
  { induction (digger.ProjectCommand.Commands pc) as [|c l IHl]; [split; reflexivity|].
    cbn [filter forallb]. destruct (scenario.recognised c); cbn.
    - split; discriminate.
    - exact IHl. }
  rewrite <- Hpc. split.
  - intros H. apply app_eq_nil in H. exact H.
  - intros [-> ->]. reflexivity.
Qed.

(** A loop whose iterations either do nothing or panic stops at the
    first element that panics, in the state that element leaves. *)
Lemma for_range_halts_at {World Ev A : Type} (stop : A -> bool)
  (halted : A -> Go.State World Ev -> Go.State World Ev -> Prop)
  (body : bool -> A -> Go.M World Ev bool) :
  (forall x acc st, stop x = false -> body acc x st = (Returned acc, st)) ->
  (forall x acc st, stop x = true ->
     exists st', body acc x st = (Panicked nil_dereference, st') /\ halted x st st') ->
  forall l acc st,
    match find stop l with
    | None => for_range l body acc st = (Returned acc, st)
    | Some x =>
        exists st', for_range l body acc st = (Panicked nil_dereference, st')
                    /\ halted x st st'
    end.
Proof.
  intros Hpass Hstop l. induction l as [|x l IH]; intros acc st; [reflexivity|].
  cbn [find for_range]. unfold bind.
  destruct (stop x) eqn:E.
  - destruct (Hstop x acc st E) as (st' & Hrun & Hh).
    exists st'. rewrite Hrun. split; [reflexivity | exact Hh].
  - rewrite (Hpass x acc st E). apply IH.
Qed.

Lemma find_recognised (commands : list string) :
  match find scenario.recognised commands with
  | None => filter scenario.recognised commands = []
  | Some command =>
      exists rest, filter scenario.recognised commands = command :: rest
  end.
Proof.
  induction commands as [|c l IH]; [reflexivity|].
  cbn [find filter]. destruct (scenario.recognised c); [now exists (filter scenario.recognised l)|].
  exact IH.
Qed.

(** The first recognised command of a batch is the head of what is
    requested of the orchestrator. *)
Lemma requested_head (batch : list digger.ProjectCommand.t) :
  match find (fun pc => existsb scenario.recognised (digger.ProjectCommand.Commands pc))
          batch with
  | None => scenario.requested batch = []
  | Some pc =>
      exists command rest,
        find scenario.recognised (digger.ProjectCommand.Commands pc) = Some command
        /\ scenario.requested batch
           = (digger.ProjectCommand.ProjectName pc, command) :: rest
  end.
Proof.
  unfold scenario.requested.
  induction batch as [|pc batch IH]; [reflexivity|].
  cbn [find flat_map].
  pose proof (find_recognised (digger.ProjectCommand.Commands pc)) as Hfind.
  destruct (existsb scenario.recognised (digger.ProjectCommand.Commands pc)) eqn:E.
  - destruct (find scenario.recognised (digger.ProjectCommand.Commands pc)) as [command|] eqn:F.
    + destruct Hfind as (rest & Hrest). rewrite Hrest. cbn [map app].
      now eexists command, _.
    + apply existsb_exists in E as (c & Hin & Hc).
      assert (In c (filter scenario.recognised (digger.ProjectCommand.Commands pc)))
        by (apply filter_In; now split).
      rewrite Hfind in H. destruct H.
  - destruct (find scenario.recognised (digger.ProjectCommand.Commands pc)) as [command|] eqn:F.
    + apply find_some in F as (Hin & Hc).
      assert (existsb scenario.recognised (digger.ProjectCommand.Commands pc) = true)
        by (apply existsb_exists; now exists command).
      congruence.
    + rewrite Hfind. exact IH.
Qed.

Section OrchestratorEdges.
Context {World Lock CIService DiggerConfig : Type}.

Local Abbreviation Event := (@gitlab.Event Lock CIService DiggerConfig).
Local Abbreviation DiggerExecutor := (@gitlab.DiggerExecutor Lock CIService DiggerConfig).
Local Abbreviation State := (Go.State World Event).

Variable executor_Plan : DiggerExecutor -> Z -> World -> World.
Variable executor_Apply : DiggerExecutor -> Z -> World -> World.
Variable executor_Unlock : DiggerExecutor -> Z -> World -> World.
Variable executor_Lock : DiggerExecutor -> Z -> World -> bool * World.
Variable usage_record : string -> string -> string -> World -> World.

Local Abbreviation RunCommandsPerProject :=
  (gitlab.RunCommandsPerProject executor_Plan executor_Apply executor_Unlock
     executor_Lock usage_record).

(** The state after one usage record was sent from [st] and nothing else
    happened. *)
Local Abbreviation one_usage_record st st' :=
  (exists owner eventName action,
      st' = mkState (usage_record owner eventName action (world st))
              (trace st ++ [gitlab.EvSendUsageRecord owner eventName action])).

(** The run with a nil merge-request number. *)
Lemma RunCommandsPerProject_nil_run
  (commandsPerProject : list digger.ProjectCommand.t)
  (gitLabContext : gitlab.GitLabContext.t) (diggerConfig : option DiggerConfig)
  (service : CIService) (lock : Lock) (workingDir : string) (st : State) :
  gitlab.GitLabContext.MergeRequestIId gitLabContext = None ->
  if forallb (fun pc => forallb (fun c => negb (scenario.recognised c))
                          (digger.ProjectCommand.Commands pc)) commandsPerProject
  then RunCommandsPerProject commandsPerProject gitLabContext diggerConfig service lock
         workingDir st = (Returned None, st)
  else exists st',
      RunCommandsPerProject commandsPerProject gitLabContext diggerConfig service lock
        workingDir st = (Panicked nil_dereference, st')
      /\ one_usage_record st st'.
Proof.
  intros Hiid.
  unfold gitlab.RunCommandsPerProject.
  unfold bind at 1.
  match goal with
  | |- context [for_range commandsPerProject ?body true st] =>
      pose proof (for_range_halts
                    (fun pc => forallb (fun c => negb (scenario.recognised c))
                                 (digger.ProjectCommand.Commands pc))
                    (fun st st' : State => one_usage_record st st')
                    body) as Houter
  end.
  match type of Houter with
  | ?A -> ?B -> _ => assert (H1 : A); [ | assert (H2 : B) ]
  end.
  - intros pc acc0 st0 Hskip.
    match goal with
    | |- for_range _ ?inner acc0 st0 = _ =>
        pose proof (for_range_halts (fun c => negb (scenario.recognised c))
                      (fun st st' : State => one_usage_record st st') inner) as Hin
    end.
    match type of Hin with
    | ?A -> ?B -> _ => assert (I1 : A); [ | assert (I2 : B) ]
    end.
    + intros command acc1 st1 Hc. apply negb_true_iff in Hc.
      unfold scenario.recognised, scenario.vocabulary in Hc. cbn [existsb] in Hc.
      apply orb_false_iff in Hc as (E1 & Hc).
      apply orb_false_iff in Hc as (E2 & Hc).
      apply orb_false_iff in Hc as (E3 & Hc).
      apply orb_false_iff in Hc as (E4 & _).
      rewrite E1, E2, E3, E4. reflexivity.
    + intros command acc1 st1 Hc. apply negb_false_iff in Hc. rewrite Hiid.
      unfold scenario.recognised, scenario.vocabulary in Hc. cbn [existsb] in Hc.
      destruct (command =? "digger plan");
        [ | destruct (command =? "digger apply");
            [ | destruct (command =? "digger unlock");
                [ | destruct (command =? "digger lock"); [ | discriminate ] ] ] ];
        (eexists; split; [reflexivity | eexists _, _, _; reflexivity]).
    + specialize (Hin I1 I2 (digger.ProjectCommand.Commands pc) acc0 st0).
      rewrite Hskip in Hin. exact Hin.
  - intros pc acc0 st0 Hskip.
    match goal with
    | |- exists st', for_range _ ?inner acc0 st0 = _ /\ _ =>
        pose proof (for_range_halts (fun c => negb (scenario.recognised c))
                      (fun st st' : State => one_usage_record st st') inner) as Hin
    end.
    match type of Hin with
    | ?A -> ?B -> _ => assert (I1 : A); [ | assert (I2 : B) ]
    end.
    + intros command acc1 st1 Hc. apply negb_true_iff in Hc.
      unfold scenario.recognised, scenario.vocabulary in Hc. cbn [existsb] in Hc.
      apply orb_false_iff in Hc as (E1 & Hc).
      apply orb_false_iff in Hc as (E2 & Hc).
      apply orb_false_iff in Hc as (E3 & Hc).
      apply orb_false_iff in Hc as (E4 & _).
      rewrite E1, E2, E3, E4. reflexivity.
    + intros command acc1 st1 Hc. apply negb_false_iff in Hc. rewrite Hiid.
      unfold scenario.recognised, scenario.vocabulary in Hc. cbn [existsb] in Hc.
      destruct (command =? "digger plan");
        [ | destruct (command =? "digger apply");
            [ | destruct (command =? "digger unlock");
                [ | destruct (command =? "digger lock"); [ | discriminate ] ] ] ];
        (eexists; split; [reflexivity | eexists _, _, _; reflexivity]).
    + specialize (Hin I1 I2 (digger.ProjectCommand.Commands pc) acc0 st0).
      rewrite Hskip in Hin. exact Hin.
  - specialize (Houter H1 H2 commandsPerProject true st).
    destruct (forallb _ commandsPerProject).
    + rewrite Houter. reflexivity.
    + destruct Houter as (st' & Hrun & Hh). exists st'.
      unfold bind at 1. rewrite Hrun.
      split; [reflexivity | exact Hh].
Qed.

(** The run with a nil merge-request number stops at the first project
    command that holds a recognised command, in the state in which the
    usage record of that command has been sent. *)
Lemma RunCommandsPerProject_nil_run_at
  (commandsPerProject : list digger.ProjectCommand.t)
  (gitLabContext : gitlab.GitLabContext.t) (diggerConfig : option DiggerConfig)
  (service : CIService) (lock : Lock) (workingDir : string) (st : State) :
  gitlab.GitLabContext.MergeRequestIId gitLabContext = None ->
  match find (fun pc => existsb scenario.recognised (digger.ProjectCommand.Commands pc))
          commandsPerProject with
  | None =>
      RunCommandsPerProject commandsPerProject gitLabContext diggerConfig service lock
        workingDir st = (Returned None, st)
  | Some pc =>
      exists command,
        find scenario.recognised (digger.ProjectCommand.Commands pc) = Some command
        /\ RunCommandsPerProject commandsPerProject gitLabContext diggerConfig service lock
             workingDir st
           = (Panicked nil_dereference,
              observe.sent usage_record (observe.usage_of gitLabContext command) st)
  end.
Proof.
  intros Hiid.
  unfold gitlab.RunCommandsPerProject.
  match goal with
  | |- context [for_range commandsPerProject ?body true] =>
      pose proof (for_range_halts_at
                    (fun pc => existsb scenario.recognised (digger.ProjectCommand.Commands pc))
                    (fun pc (st st' : State) =>
                       exists command,
                         find scenario.recognised (digger.ProjectCommand.Commands pc)
                         = Some command
                         /\ st' = observe.sent usage_record
                                    (observe.usage_of gitLabContext command) st)
                    body) as Houter
  end.
  assert (Hinner : forall (pc : digger.ProjectCommand.t)
                          (inner : bool -> string -> Go.M World Event bool),
             (forall command acc1 st1, scenario.recognised command = false ->
                inner acc1 command st1 = (Returned acc1, st1)) ->
             (forall command acc1 st1, scenario.recognised command = true ->
                exists st', inner acc1 command st1 = (Panicked nil_dereference, st')
                            /\ st' = observe.sent usage_record
                                       (observe.usage_of gitLabContext command) st1) ->
             forall acc0 st0,
               match find scenario.recognised (digger.ProjectCommand.Commands pc) with
               | None =>
                   for_range (digger.ProjectCommand.Commands pc) inner acc0 st0
                   = (Returned acc0, st0)
               | Some command =>
                   for_range (digger.ProjectCommand.Commands pc) inner acc0 st0
                   = (Panicked nil_dereference,
                      observe.sent usage_record (observe.usage_of gitLabContext command) st0)
               end).
  { intros pc inner I1 I2 acc0 st0.
    pose proof (for_range_halts_at scenario.recognised
                  (fun command (st st' : State) =>
                     st' = observe.sent usage_record
                             (observe.usage_of gitLabContext command) st)
                  inner I1 I2 (digger.ProjectCommand.Commands pc) acc0 st0) as H.
    destruct (find scenario.recognised (digger.ProjectCommand.Commands pc)); [|exact H].
    destruct H as (st' & Hrun & ->). exact Hrun. }
  assert (I1 : forall (command : string), scenario.recognised command = false ->
               (command =? "digger plan") = false /\ (command =? "digger apply") = false
               /\ (command =? "digger unlock") = false /\ (command =? "digger lock") = false).
  { intros command Hc.
    unfold scenario.recognised, scenario.vocabulary in Hc. cbn [existsb] in Hc.
    apply orb_false_iff in Hc as (E1 & Hc).
    apply orb_false_iff in Hc as (E2 & Hc).
    apply orb_false_iff in Hc as (E3 & Hc).
    apply orb_false_iff in Hc as (E4 & _). now repeat split. }
  match type of Houter with
  | ?A -> ?B -> _ => assert (H1 : A); [ | assert (H2 : B) ]
  end.
  - intros pc acc0 st0 Hstop.
    match goal with
    | |- for_range _ ?inner acc0 st0 = _ => pose proof (Hinner pc inner) as Hin
    end.
    match type of Hin with
    | ?A -> ?B -> _ => assert (J1 : A); [ | assert (J2 : B) ]
    end.
    + intros command acc1 st1 Hc. destruct (I1 command Hc) as (E1 & E2 & E3 & E4).
      rewrite E1, E2, E3, E4. reflexivity.
    + intros command acc1 st1 Hc. rewrite Hiid.
      unfold scenario.recognised, scenario.vocabulary in Hc. cbn [existsb] in Hc.
      unfold observe.usage_of.
      destruct (command =? "digger plan");
        [ | destruct (command =? "digger apply");
            [ | destruct (command =? "digger unlock");
                [ | destruct (command =? "digger lock"); [ | discriminate ] ] ] ];
        (eexists; split; reflexivity).
    + specialize (Hin J1 J2 acc0 st0).
      destruct (find scenario.recognised (digger.ProjectCommand.Commands pc)) as [command|] eqn:F;
        [|exact Hin].
      apply find_some in F as (Hmem & Hc).
      assert (existsb scenario.recognised (digger.ProjectCommand.Commands pc) = true)
        by (apply existsb_exists; now exists command).
      congruence.
  - intros pc acc0 st0 Hstop.
    match goal with
    | |- exists st', for_range _ ?inner acc0 st0 = _ /\ _ =>
        pose proof (Hinner pc inner) as Hin
    end.
    match type of Hin with
    | ?A -> ?B -> _ => assert (J1 : A); [ | assert (J2 : B) ]
    end.
    + intros command acc1 st1 Hc. destruct (I1 command Hc) as (E1 & E2 & E3 & E4).
      rewrite E1, E2, E3, E4. reflexivity.
    + intros command acc1 st1 Hc. rewrite Hiid.
      unfold scenario.recognised, scenario.vocabulary in Hc. cbn [existsb] in Hc.
      unfold observe.usage_of.
      destruct (command =? "digger plan");
        [ | destruct (command =? "digger apply");
            [ | destruct (command =? "digger unlock");
                [ | destruct (command =? "digger lock"); [ | discriminate ] ] ] ];
        (eexists; split; reflexivity).
    + specialize (Hin J1 J2 acc0 st0).
      pose proof (find_recognised (digger.ProjectCommand.Commands pc)) as Hfind.
      destruct (find scenario.recognised (digger.ProjectCommand.Commands pc)) as [command|] eqn:F.
      * eexists. split; [exact Hin|]. now exists command.
      * apply existsb_exists in Hstop as (c0 & Hmem & Hc0).
        assert (In c0 (filter scenario.recognised (digger.ProjectCommand.Commands pc)))
          by (apply filter_In; now split).
        rewrite Hfind in H. destruct H.
  - specialize (Houter H1 H2 commandsPerProject true st).
    destruct (find _ commandsPerProject) as [pc|].
    + destruct Houter as (st' & Hrun & command & Hfind & ->).
      exists command. split; [exact Hfind|].
      unfold bind at 1. rewrite Hrun. reflexivity.
    + unfold bind at 1. rewrite Houter. reflexivity.
Qed.

(** X21. With a nil merge-request number nothing reaches the executor.
    A batch without recognised commands returns [nil] and leaves the state
    untouched. Any other batch panics on the nil dereference at its first
    recognised command, in the state in which exactly the usage record of
    that command has been sent: under the repository's namespace for
    plan, unlock and lock, under the repository's name for apply, with
    the event type of the context and the action named by the command. *)
Theorem RunCommandsPerProject_nil_merge_request
  (commandsPerProject : list digger.ProjectCommand.t)
  (gitLabContext : gitlab.GitLabContext.t) (diggerConfig : option DiggerConfig)
  (service : CIService) (lock : Lock) (workingDir : string) (st : State) :
  gitlab.GitLabContext.MergeRequestIId gitLabContext = None ->
  let result :=
    RunCommandsPerProject commandsPerProject gitLabContext diggerConfig service lock
      workingDir st in
  (scenario.requested commandsPerProject = [] -> result = (Returned None, st))
  /\ (forall name command rest,
        scenario.requested commandsPerProject = (name, command) :: rest ->
        result
        = (Panicked nil_dereference,
           observe.sent usage_record (observe.usage_of gitLabContext command) st)).
Proof.
  intros Hiid result.
  pose proof (RunCommandsPerProject_nil_run_at commandsPerProject gitLabContext diggerConfig
                service lock workingDir st Hiid) as Hrun.
  pose proof (requested_head commandsPerProject) as Hhead.
  destruct (find _ commandsPerProject) as [pc|].
  - destruct Hhead as (command & rest & Hfind & Hreq).
    destruct Hrun as (command' & Hfind' & Hrun).
    rewrite Hfind in Hfind'. injection Hfind' as <-.
    split.
    + intros He. rewrite Hreq in He. discriminate.
    + intros name command0 rest0 He. rewrite Hreq in He. injection He as _ <- _.
      exact Hrun.
  - split; [intros _; exact Hrun|].
    intros name command rest He. rewrite Hhead in He. discriminate.
Qed.

(** X22. [RunCommandsPerProject] never returns an error. Every run ends
    in one of three ways: it returns [nil], it exits with status 1, or,
    only when the merge-request number is nil, it panics on the nil
    dereference. *)
Theorem RunCommandsPerProject_never_returns_an_error
  (commandsPerProject : list digger.ProjectCommand.t)
  (gitLabContext : gitlab.GitLabContext.t) (diggerConfig : option DiggerConfig)
  (service : CIService) (lock : Lock) (workingDir : string) (st : State) :
  let outcome :=
    fst (RunCommandsPerProject commandsPerProject gitLabContext diggerConfig service lock
           workingDir st) in
  outcome = Returned None
  \/ outcome = Exited 1%Z
  \/ (outcome = Panicked nil_dereference
      /\ gitlab.GitLabContext.MergeRequestIId gitLabContext = None).
Proof.
  cbv zeta.
  destruct (gitlab.GitLabContext.MergeRequestIId gitLabContext) as [n|] eqn:Hiid.
  - destruct (RunCommandsPerProject_summary executor_Plan executor_Apply executor_Unlock
                executor_Lock usage_record commandsPerProject gitLabContext diggerConfig
                service lock workingDir st n Hiid)
      as (flag & st' & Hrun & _).
    rewrite Hrun. destruct flag; [now left | right; now left].
  - pose proof (RunCommandsPerProject_nil_run commandsPerProject gitLabContext diggerConfig
                  service lock workingDir st Hiid) as Hrun.
    destruct (forallb _ commandsPerProject).
    + rewrite Hrun. now left.
    + destruct Hrun as (st' & Hrun & _). rewrite Hrun. right; right. now split.
Qed.

(** X23. Every call that reaches the executor is wired to its project
    command. With the merge-request number set to [n], each plan, apply,
    unlock and lock call of the run is made for merge request [n] with an
    executor that carries the name, dir, workspace and tool-dialect flag
    of a project command of the batch and the namespace and name of the
    repository, and whose project lock is keyed by that same owner,
    repository and project and holds the caller's lock store and CI
    service. *)
Theorem RunCommandsPerProject_executor_is_wired
  (commandsPerProject : list digger.ProjectCommand.t)
  (gitLabContext : gitlab.GitLabContext.t) (diggerConfig : option DiggerConfig)
  (service : CIService) (lock : Lock) (workingDir : string) (st : State) (n : Z) :
  gitlab.GitLabContext.MergeRequestIId gitLabContext = Some n ->
  exists tr,
    trace (snd (RunCommandsPerProject commandsPerProject gitLabContext diggerConfig
                  service lock workingDir st))
    = trace st ++ tr
    /\ Forall (fun e => exists pc, In pc commandsPerProject
                                  /\ observe.wired gitLabContext diggerConfig service lock
                                       workingDir n pc e) tr.
Proof.
  intros Hiid.
  unfold gitlab.RunCommandsPerProject.
  unfold bind at 1.
  match goal with
  | |- context [for_range commandsPerProject ?body true st] =>
      destruct (for_range_events
                  (observe.wired gitLabContext diggerConfig service lock workingDir n)
                  body) with (l := commandsPerProject) (acc := true) (st := st)
        as (flag & st' & tr & Hrun & Htr & Hwired)
  end.
  - intros pc acc0 st0.
    match goal with
    | |- context [for_range _ ?inner acc0 st0] =>
        destruct (for_range_events
                    (fun _ : string =>
                       observe.wired gitLabContext diggerConfig service lock workingDir n pc)
                    inner) with (l := digger.ProjectCommand.Commands pc)
                                (acc := acc0) (st := st0)
          as (acc1 & st1 & tr1 & Hrun1 & Htr1 & Hwired1)
    end.
    + intros command acc1 st1. rewrite Hiid.
      destruct (command =? "digger plan");
        [ | destruct (command =? "digger apply");
            [ | destruct (command =? "digger unlock");
                [ | destruct (command =? "digger lock") ] ] ].
      * eexists _, _, [_; _]. split; [reflexivity|].
        split; [cbn; rewrite <- app_assoc; reflexivity|].
        repeat (constructor; [unfold observe.wired; cbn; repeat split | ]). constructor.
      * eexists _, _, [_; _]. split; [reflexivity|].
        split; [cbn; rewrite <- app_assoc; reflexivity|].
        repeat (constructor; [unfold observe.wired; cbn; repeat split | ]). constructor.
      * eexists _, _, [_; _]. split; [reflexivity|].
        split; [cbn; rewrite <- app_assoc; reflexivity|].
        repeat (constructor; [unfold observe.wired; cbn; repeat split | ]). constructor.
      * unfold bind, gitlab.utils_SendUsageRecord, gitlab.DiggerExecutor_Lock, deref,
          bind, emit, external, ret. cbn.
        destruct (executor_Lock _ n _) as [acquired w'].
        eexists _, _, [_; _]. split; [reflexivity|].
        split; [cbn; rewrite <- app_assoc; reflexivity|].
        repeat (constructor; [unfold observe.wired; cbn; repeat split | ]). constructor.
      * exists acc1, st1, []. rewrite app_nil_r. repeat split. constructor.
    + exists acc1, st1, tr1. split; [exact Hrun1 | split; [exact Htr1|]].
      eapply Forall_impl; [|exact Hwired1]. intros e (_ & _ & He). exact He.
  - rewrite Hrun. exists tr. split; [ | exact Hwired ].
    destruct flag; exact Htr.
Qed.

End OrchestratorEdges.

(** Two lock commands answered [true] then [false]: exit status 1. *)
Lemma RunCommandsPerProject_exit_follows_last_lock_witness :
  fst (scenario.run [scenario.command_for scenario.vpc ["digger lock"];
                     scenario.command_for scenario.db ["digger lock"]]
         (Some 3%Z) [true; false])
  = Exited 1%Z.
Proof.
  destruct (RunCommandsPerProject_exit_follows_last_lock scenario.idle scenario.idle
              scenario.idle scenario.scripted_Lock scenario.no_usage
              [scenario.command_for scenario.vpc ["digger lock"];
               scenario.command_for scenario.db ["digger lock"]]
              (scenario.context "" (Some 3%Z)) (@None unit) tt tt "/work"
              (mkState [true; false] []) 3%Z eq_refl) as (tr & Htr & Hfst).
  cbn in Htr. subst tr. exact Hfst.
Defined.

Lemma RunCommandsPerProject_failure_needs_failed_lock_witness :
  scenario.lock_failed
    (trace (snd (scenario.run [scenario.command_for scenario.vpc ["digger plan"; "digger lock"]]
                   (Some 3%Z) [false])))
  = true.
Proof.
  apply (RunCommandsPerProject_failure_needs_failed_lock scenario.idle scenario.idle
           scenario.idle scenario.scripted_Lock scenario.no_usage
           [scenario.command_for scenario.vpc ["digger plan"; "digger lock"]]
           (scenario.context "" (Some 3%Z)) None tt tt "/work" (mkState [false] []) 3%Z);
    reflexivity.
Defined.

Lemma RunCommandsPerProject_lock_free_batch_succeeds_witness :
  fst (scenario.run [scenario.command_for scenario.vpc ["digger plan"; "digger apply"]]
         (Some 3%Z) [false])
  = Returned None.
Proof.
  apply (RunCommandsPerProject_lock_free_batch_succeeds scenario.idle scenario.idle
           scenario.idle scenario.scripted_Lock scenario.no_usage
           [scenario.command_for scenario.vpc ["digger plan"; "digger apply"]]
           (scenario.context "" (Some 3%Z)) None tt tt "/work" (mkState [false] []) 3%Z).
  - reflexivity.
  - intros pc [<-|[]] [H|[H|[]]]; discriminate.
Defined.

(** A comment asking for a plan and a lock on two projects: four calls
    reach the executor, plans first. *)
Lemma comment_commands_all_reach_the_executor_witness :
  exists commands tr,
    gitlab.ConvertGitLabEventToCommands (gitlab.GitLabEvent.mk gitlab.MergeRequestComment)
      (Some (scenario.context "digger lock, then digger plan" (Some 3%Z)))
      [scenario.vpc; scenario.db]
    = Returned (commands, None)
    /\ trace (snd (gitlab.RunCommandsPerProject scenario.idle scenario.idle scenario.idle
                     scenario.scripted_Lock scenario.no_usage commands
                     (scenario.context "digger lock, then digger plan" (Some 3%Z))
                     (@None unit) tt tt "/work" (mkState [true; true] [])))
       = [] ++ tr
    /\ scenario.delegations tr
       = [("vpc", "digger plan"); ("db", "digger plan");
          ("vpc", "digger lock"); ("db", "digger lock")].
Proof.
  apply (comment_commands_all_reach_the_executor scenario.idle scenario.idle scenario.idle
           scenario.scripted_Lock scenario.no_usage
           (scenario.context "digger lock, then digger plan" (Some 3%Z))
           [scenario.vpc; scenario.db] (@None unit) tt tt "/work"
           (mkState [true; true] []) 3%Z).
  reflexivity.
Defined.

(** No merge-request number: an unknown command is passed over, the
    apply that follows panics after its usage record, which is sent under
    the repository's name. *)
Lemma RunCommandsPerProject_nil_merge_request_witness :
  scenario.run [scenario.command_for scenario.vpc ["deploy"; "digger apply"; "digger lock"]]
    None [true]
  = (Panicked nil_dereference,
     mkState [true] [gitlab.EvSendUsageRecord "infra" "merge_request_commented" "apply"]).
Proof.
  destruct (RunCommandsPerProject_nil_merge_request scenario.idle scenario.idle
              scenario.idle scenario.scripted_Lock scenario.no_usage
              [scenario.command_for scenario.vpc ["deploy"; "digger apply"; "digger lock"]]
              (scenario.context "" None) (@None unit) tt tt "/work" (mkState [true] []) eq_refl)
    as (_ & H).
  exact (H "vpc" "digger apply" [("vpc", "digger lock")] eq_refl).
Defined.

Lemma RunCommandsPerProject_executor_is_wired_witness :
  exists tr,
    trace (snd (scenario.run [scenario.command_for scenario.vpc ["digger apply"];
                              scenario.command_for scenario.db ["digger lock"]]
                  (Some 3%Z) [true]))
    = [] ++ tr
    /\ Forall (fun e => exists pc,
                   In pc [scenario.command_for scenario.vpc ["digger apply"];
                          scenario.command_for scenario.db ["digger lock"]]
                   /\ observe.wired (scenario.context "" (Some 3%Z)) (@None unit) tt tt "/work" 3%Z
                        pc e) tr.
Proof.
  apply (RunCommandsPerProject_executor_is_wired scenario.idle scenario.idle scenario.idle
           scenario.scripted_Lock scenario.no_usage
           [scenario.command_for scenario.vpc ["digger apply"];
            scenario.command_for scenario.db ["digger lock"]]
           (scenario.context "" (Some 3%Z)) None tt tt "/work" (mkState [true] []) 3%Z).
  reflexivity.
Defined.

(** ** The CI service and the event intake *)

Lemma set_index_after {A : Type} (done : list A) (x v : A) (rest : list A) :
  gitlab_ci.set_index (done ++ x :: rest) (List.length done) v = Some (done ++ v :: rest).
Proof.
  induction done as [|d done IH]; [reflexivity|].
  cbn. rewrite IH. reflexivity.
Qed.

(** The loop that fills [fileNames] by index, started after [done]
    changes have been copied, never runs out of range and copies the new
    path of every remaining change. *)
Lemma fill_file_names (done : list string) (changes : list gitlab_ci.MergeRequestDiff) :
  range_pure (combine (seq (List.length done) (List.length changes)) changes)
    (fun fileNames '(i, change) =>
       match gitlab_ci.set_index fileNames i (gitlab_ci.NewPath change) with
       | Some fileNames => Returned fileNames
       | None => Panicked gitlab_ci.index_out_of_range
       end)
    (done ++ repeat "" (List.length changes))
  = Returned (done ++ map gitlab_ci.NewPath changes).
Proof.
  revert done. induction changes as [|change changes IH]; intros done; [reflexivity|].
  cbn [List.length seq combine range_pure repeat map].
  rewrite set_index_after.
  specialize (IH (done ++ [gitlab_ci.NewPath change])).
  rewrite length_app, Nat.add_1_r, <- !app_assoc in IH. exact IH.
Qed.

Section ServiceProperties.
Context {World Client DiggerConfig : Type}.

Local Abbreviation State := (Go.State World gitlab_ci.Event).

Variable env_Parse : World -> (gitlab.GitLabContext.t * option error) * World.
Variable go_gitlab_NewClient : string -> World -> (Client + error) * World.
Variable MergeRequests_GetMergeRequestChanges :
  Client -> Z -> Z -> World -> (gitlab_ci.MergeRequest + error) * World.
Variable DiggerConfig_GetModifiedProjects :
  option DiggerConfig -> list string -> World -> list digger.Project.t * World.

Local Abbreviation GetChangedFiles :=
  (gitlab_ci.GitLabService_GetChangedFiles MergeRequests_GetMergeRequestChanges).
Local Abbreviation as_CIService :=
  (gitlab_ci.GitLabService_CIService MergeRequests_GetMergeRequestChanges).
Local Abbreviation ProcessGitLabEvent :=
  (@gitlab_ci.ProcessGitLabEvent World DiggerConfig DiggerConfig_GetModifiedProjects).

(** [GetChangedFiles] by cases on the pointers it dereferences and on the
    answer of the API. *)
Lemma GetChangedFiles_run (gitlabService : @gitlab_ci.GitLabService Client)
  (mergeRequestId : Z) (st : State) :
  GetChangedFiles gitlabService mergeRequestId st
  = match gitlab_ci.Client_ gitlabService, gitlab_ci.Context_ gitlabService with
    | Some client, Some context =>
        match gitlab.GitLabContext.ProjectId context with
        | Some projectId =>
            let st1 w := mkState w (trace st
                                    ++ [gitlab_ci.EvGetMergeRequestChanges projectId
                                          mergeRequestId]) in
            match MergeRequests_GetMergeRequestChanges client projectId mergeRequestId
                    (world st) with
            | (inl changes, w) =>
                (Returned (map gitlab_ci.NewPath (gitlab_ci.Changes changes), None), st1 w)
            | (inr err, w) =>
                (Exited 1%Z,
                 mkState w (trace (st1 w)
                            ++ [gitlab_ci.EvLogFatalf
                                  "error getting gitlab's merge request: %v" err]))
            end
        | None => (Panicked nil_dereference, st)
        end
    | _, _ => (Panicked nil_dereference, st)
    end.
Proof.
  unfold gitlab_ci.GitLabService_GetChangedFiles.
  destruct (gitlab_ci.Client_ gitlabService) as [client|]; [|reflexivity].
  destruct (gitlab_ci.Context_ gitlabService) as [context|]; [|reflexivity].
  unfold bind at 1. cbn [deref ret]. unfold bind at 1. cbn [deref ret].
  destruct (gitlab.GitLabContext.ProjectId context) as [projectId|]; [|reflexivity].
  unfold bind at 1. cbn [deref ret].
  unfold bind, emit, external, gitlab_ci.log_Fatalf, gitlab_ci.lift, os_Exit, bind, emit.
  cbn [world trace].
  destruct (MergeRequests_GetMergeRequestChanges _ _ _ _) as [[changes|err] w];
    [|reflexivity].
  unfold gitlab_ci.enumerate.
  pose proof (fill_file_names [] (gitlab_ci.Changes changes)) as Hfill.
  change (List.length (@nil string)) with 0%nat in Hfill.
  change ([] ++ repeat "" (List.length (gitlab_ci.Changes changes)))
    with (repeat "" (List.length (gitlab_ci.Changes changes))) in Hfill.
  rewrite Hfill. reflexivity.
Qed.

(** X24. [ParseGitLabContext] never fails: it returns a non-nil context
    and a nil error whatever [env.Parse] reports. The context is the one
    [env.Parse] left behind, also when parsing failed. *)
Theorem ParseGitLabContext_never_fails (st : State) :
  exists st',
    gitlab_ci.ParseGitLabContext env_Parse st
    = (Returned (Some (fst (fst (env_Parse (world st)))), None), st')
    /\ world st' = snd (env_Parse (world st)).
Proof.
  unfold gitlab_ci.ParseGitLabContext, bind, emit, external, gitlab_ci.fmt_Printf, emit, ret.
  cbn [world trace].
  destruct (env_Parse (world st)) as [[ctx [err|]] w]; cbn;
    eexists; split; reflexivity.
Qed.

(** X25. [NewGitLabService] never returns an error. When
    [go_gitlab.NewClient] gives a client, it returns the service that
    holds this client and the given context, with a nil error; when
    [NewClient] fails, the failure is logged with that error and the
    process exits with status 1. *)
Theorem NewGitLabService_fails_by_exiting (token : string)
  (gitLabContext : option gitlab.GitLabContext.t) (st : State) :
  let result :=
    gitlab_ci.NewGitLabService go_gitlab_NewClient MergeRequests_GetMergeRequestChanges
      token gitLabContext st in
  (forall client w,
      go_gitlab_NewClient token (world st) = (inl client, w) ->
      result
      = (Returned (as_CIService (gitlab_ci.mkGitLabService (Some client) gitLabContext), None),
         mkState w (trace st ++ [gitlab_ci.EvNewClient token])))
  /\ (forall err w,
         go_gitlab_NewClient token (world st) = (inr err, w) ->
         result
         = (Exited 1%Z,
            mkState w
              (trace st ++ [gitlab_ci.EvNewClient token;
                            gitlab_ci.EvLogFatalf "failed to create gitlab client: %v" err])))
  /\ (forall service err st', result = (Returned (service, err), st') -> err = None).
Proof.
  cbv zeta.
  unfold gitlab_ci.NewGitLabService, bind, emit, external, gitlab_ci.log_Fatalf, os_Exit,
    bind, emit.
  cbn [world trace].
  split; [ | split ].
  - intros client w ->. reflexivity.
  - intros err w ->. cbn. rewrite <- app_assoc. reflexivity.
  - intros service err st'.
    destruct (go_gitlab_NewClient token (world st)) as [[client|cerr] w]; cbn;
      [ | discriminate ].
    intros H. injection H as _ <- _. reflexivity.
Qed.

(** X26. When the API answers, [GetChangedFiles] returns the new path of
    every change of the merge request, in the order of the changes and as
    many as there are changes, with a nil error: filling the slice by
    index never runs out of range. *)
Theorem GetChangedFiles_lists_new_paths
  (gitlabService : @gitlab_ci.GitLabService Client) (mergeRequestId : Z) (st : State)
  (client : Client) (context : gitlab.GitLabContext.t) (projectId : Z)
  (changes : gitlab_ci.MergeRequest) (w : World) :
  gitlab_ci.Client_ gitlabService = Some client ->
  gitlab_ci.Context_ gitlabService = Some context ->
  gitlab.GitLabContext.ProjectId context = Some projectId ->
  MergeRequests_GetMergeRequestChanges client projectId mergeRequestId (world st)
  = (inl changes, w) ->
  exists fileNames,
    GetChangedFiles gitlabService mergeRequestId st
    = (Returned (fileNames, None),
       mkState w (trace st ++ [gitlab_ci.EvGetMergeRequestChanges projectId mergeRequestId]))
    /\ fileNames = map gitlab_ci.NewPath (gitlab_ci.Changes changes)
    /\ List.length fileNames = List.length (gitlab_ci.Changes changes).
Proof.
  intros Hclient Hcontext Hpid Hapi.
  rewrite GetChangedFiles_run, Hclient, Hcontext, Hpid. cbv zeta. rewrite Hapi.
  eexists. split; [reflexivity | split; [reflexivity | apply length_map]].
Qed.

(** X27. [GetChangedFiles] never returns an error: whenever it returns,
    the error is nil. A failure of the API is logged and ends the process
    with status 1. *)
Theorem GetChangedFiles_never_returns_an_error
  (gitlabService : @gitlab_ci.GitLabService Client) (mergeRequestId : Z) (st : State) :
  (forall fileNames err st',
      GetChangedFiles gitlabService mergeRequestId st = (Returned (fileNames, err), st') ->
      err = None)
  /\ (forall client context projectId apierr w,
         gitlab_ci.Client_ gitlabService = Some client ->
         gitlab_ci.Context_ gitlabService = Some context ->
         gitlab.GitLabContext.ProjectId context = Some projectId ->
         MergeRequests_GetMergeRequestChanges client projectId mergeRequestId (world st)
         = (inr apierr, w) ->
         GetChangedFiles gitlabService mergeRequestId st
         = (Exited 1%Z,
            mkState w
              (trace st
               ++ [gitlab_ci.EvGetMergeRequestChanges projectId mergeRequestId;
                   gitlab_ci.EvLogFatalf "error getting gitlab's merge request: %v" apierr]))).
Proof.
  split.
  - intros fileNames err st'. rewrite GetChangedFiles_run.
    destruct (gitlab_ci.Client_ gitlabService); [|discriminate].
    destruct (gitlab_ci.Context_ gitlabService) as [context|]; [|discriminate].
    destruct (gitlab.GitLabContext.ProjectId context); [|discriminate].
    cbv zeta.
    destruct (MergeRequests_GetMergeRequestChanges _ _ _ _) as [[changes|apierr] w];
      [|discriminate].
    intros H. injection H as _ <- _. reflexivity.
  - intros client context projectId apierr w Hclient Hcontext Hpid Hapi.
    rewrite GetChangedFiles_run, Hclient, Hcontext, Hpid. cbv zeta. rewrite Hapi.
    cbn [trace]. rewrite <- app_assoc. reflexivity.
Qed.

(** X28. When the service's file listing returns an error,
    [ProcessGitLabEvent] returns no projects and the fixed error
    "could not get changed files": the service's own error and whatever
    files came with it are dropped, and the configuration is not
    consulted. *)
Theorem ProcessGitLabEvent_replaces_service_error
  (context : gitlab.GitLabContext.t) (diggerConfig : option DiggerConfig)
  (service : @gitlab_ci.CIService World) (st st1 : State)
  (mergeRequestId : Z) (changedFiles : list string) (err : error) :
  gitlab.GitLabContext.MergeRequestIId context = Some mergeRequestId ->
  gitlab_ci.GetChangedFiles service mergeRequestId st
  = (Returned (changedFiles, Some err), st1) ->
  ProcessGitLabEvent (Some context) diggerConfig service st
  = (Returned ([], Some (fmt_Errorf "could not get changed files")), st1).
Proof.
  intros Hiid Hfiles.
  unfold gitlab_ci.ProcessGitLabEvent.
  unfold bind at 1. cbn [deref ret]. rewrite Hiid.
  unfold bind at 1. cbn [deref ret].
  unfold bind at 1. rewrite Hfiles. reflexivity.
Qed.

(** X29. Without a context, or with a context whose merge-request number
    is nil, [ProcessGitLabEvent] panics on the nil dereference before it
    calls the service: the state is left as it was. *)
Theorem ProcessGitLabEvent_needs_merge_request
  (gitlabContext : option gitlab.GitLabContext.t) (diggerConfig : option DiggerConfig)
  (service : @gitlab_ci.CIService World) (st : State) :
  match gitlabContext with
  | None => True
  | Some context => gitlab.GitLabContext.MergeRequestIId context = None
  end ->
  ProcessGitLabEvent gitlabContext diggerConfig service st = (Panicked nil_dereference, st).
Proof.
  unfold gitlab_ci.ProcessGitLabEvent.
  destruct gitlabContext as [context|]; [|reflexivity].
  intros Hiid. unfold bind at 1. cbn [deref ret]. rewrite Hiid. reflexivity.
Qed.

(** X30. With a [GitLabService] as the service, [ProcessGitLabEvent]
    never returns an error: the branch "could not get changed files" is
    never taken, because a failing API ends the process inside
    [GetChangedFiles]. When the API answers, the impacted projects are
    what the configuration makes of the new paths of the changes. *)
Theorem ProcessGitLabEvent_with_GitLabService
  (gitlabContext : option gitlab.GitLabContext.t) (diggerConfig : option DiggerConfig)
  (gitlabService : @gitlab_ci.GitLabService Client) (st : State) :
  let result :=
    ProcessGitLabEvent gitlabContext diggerConfig (as_CIService gitlabService) st in
  (forall impactedProjects err st',
      result = (Returned (impactedProjects, err), st') -> err = None)
  /\ (forall context mergeRequestId client serviceContext projectId changes w,
         gitlabContext = Some context ->
         gitlab.GitLabContext.MergeRequestIId context = Some mergeRequestId ->
         gitlab_ci.Client_ gitlabService = Some client ->
         gitlab_ci.Context_ gitlabService = Some serviceContext ->
         gitlab.GitLabContext.ProjectId serviceContext = Some projectId ->
         MergeRequests_GetMergeRequestChanges client projectId mergeRequestId (world st)
         = (inl changes, w) ->
         fst result
         = Returned
             (fst (DiggerConfig_GetModifiedProjects diggerConfig
                     (map gitlab_ci.NewPath (gitlab_ci.Changes changes)) w), None)).
Proof.
  cbv zeta. unfold gitlab_ci.ProcessGitLabEvent. split.
  - intros impactedProjects err st'.
    destruct gitlabContext as [context|]; [|discriminate].
    unfold bind at 1. cbn [deref ret].
    destruct (gitlab.GitLabContext.MergeRequestIId context) as [mergeRequestId|];
      [|discriminate].
    unfold bind at 1. cbn [deref ret].
    unfold bind at 1.
    cbn [gitlab_ci.GetChangedFiles gitlab_ci.GitLabService_CIService].
    rewrite GetChangedFiles_run.
    destruct (gitlab_ci.Client_ gitlabService); [|discriminate].
    destruct (gitlab_ci.Context_ gitlabService) as [serviceContext|]; [|discriminate].
    destruct (gitlab.GitLabContext.ProjectId serviceContext); [|discriminate].
    cbv zeta.
    destruct (MergeRequests_GetMergeRequestChanges _ _ _ _) as [[changes|apierr] w];
      [|discriminate].
    unfold bind, emit, external, ret. cbn [world trace].
    destruct (DiggerConfig_GetModifiedProjects _ _ _) as [projects w'].
    intros H. injection H as _ <- _. reflexivity.
  - intros context mergeRequestId client serviceContext projectId changes w
      -> Hiid Hclient Hcontext Hpid Hapi.
    unfold bind at 1. cbn [deref ret]. rewrite Hiid.
    unfold bind at 1. cbn [deref ret].
    unfold bind at 1.
    cbn [gitlab_ci.GetChangedFiles gitlab_ci.GitLabService_CIService].
    rewrite GetChangedFiles_run, Hclient, Hcontext, Hpid. cbv zeta. rewrite Hapi.
    unfold bind, emit, external, ret. cbn [world trace].
    destruct (DiggerConfig_GetModifiedProjects _ _ _) as [projects w']. reflexivity.
Qed.

End ServiceProperties.

(** A client that cannot be created: exit 1 after the log; one that can:
    the service is returned. *)
Lemma NewGitLabService_fails_by_exiting_witness :
  gitlab_ci.NewGitLabService observe.client_fails observe.api_fails
    "glpat" (Some observe.zero_context) observe.ci_start
  = (Exited 1%Z,
     mkState tt [gitlab_ci.EvNewClient "glpat";
                 gitlab_ci.EvLogFatalf "failed to create gitlab client: %v"
                   (errors_New "invalid base URL")])
  /\ fst (gitlab_ci.NewGitLabService observe.client_created observe.api_fails
            "glpat" (Some observe.zero_context) observe.ci_start)
     = Returned (gitlab_ci.GitLabService_CIService observe.api_fails
                   (gitlab_ci.mkGitLabService (Some tt) (Some observe.zero_context)), None).
Proof.
  split.
  - destruct (NewGitLabService_fails_by_exiting observe.client_fails observe.api_fails
                "glpat" (Some observe.zero_context) observe.ci_start) as (_ & H & _).
    apply H. reflexivity.
  - destruct (NewGitLabService_fails_by_exiting observe.client_created observe.api_fails
                "glpat" (Some observe.zero_context) observe.ci_start) as (H & _).
    rewrite (H tt tt eq_refl). reflexivity.
Defined.

Lemma GetChangedFiles_lists_new_paths_witness :
  fst (gitlab_ci.GitLabService_GetChangedFiles
         (observe.api_answers [gitlab_ci.mkMergeRequestDiff "infra/vpc/old.tf" "infra/vpc/main.tf";
                               gitlab_ci.mkMergeRequestDiff "README.md" "README.md"])
         (gitlab_ci.mkGitLabService (Some tt) (Some (scenario.context "" (Some 3%Z))))
         3%Z observe.ci_start)
  = Returned (["infra/vpc/main.tf"; "README.md"], None).
Proof.
  destruct (GetChangedFiles_lists_new_paths
              (observe.api_answers
                 [gitlab_ci.mkMergeRequestDiff "infra/vpc/old.tf" "infra/vpc/main.tf";
                  gitlab_ci.mkMergeRequestDiff "README.md" "README.md"])
              (gitlab_ci.mkGitLabService (Some tt) (Some (scenario.context "" (Some 3%Z))))
              3%Z observe.ci_start tt (scenario.context "" (Some 3%Z)) 11%Z _ tt
              eq_refl eq_refl eq_refl eq_refl) as (fileNames & Hrun & -> & _).
  rewrite Hrun. reflexivity.
Defined.

Lemma GetChangedFiles_never_returns_an_error_witness :
  fst (gitlab_ci.GitLabService_GetChangedFiles observe.api_fails
         (gitlab_ci.mkGitLabService (Some tt) (Some (scenario.context "" (Some 3%Z))))
         3%Z observe.ci_start)
  = Exited 1%Z.
Proof.
  destruct (GetChangedFiles_never_returns_an_error observe.api_fails
              (gitlab_ci.mkGitLabService (Some tt) (Some (scenario.context "" (Some 3%Z))))
              3%Z observe.ci_start) as (_ & H).
  rewrite (H tt (scenario.context "" (Some 3%Z)) 11%Z (errors_New "404 Not Found") tt
             eq_refl eq_refl eq_refl eq_refl).
  reflexivity.
Defined.

Lemma ProcessGitLabEvent_replaces_service_error_witness :
  gitlab_ci.ProcessGitLabEvent observe.modified_projects
    (Some (scenario.context "" (Some 3%Z))) None observe.broken_service observe.ci_start
  = (Returned ([], Some (errors_New "could not get changed files")), observe.ci_start).
Proof.
  apply (ProcessGitLabEvent_replaces_service_error observe.modified_projects
           (scenario.context "" (Some 3%Z)) None observe.broken_service
           observe.ci_start observe.ci_start 3%Z ["stale"] (errors_New "rate limited"));
    reflexivity.
Defined.

Lemma ProcessGitLabEvent_needs_merge_request_witness :
  gitlab_ci.ProcessGitLabEvent observe.modified_projects
    (Some observe.zero_context) None observe.broken_service observe.ci_start
  = (Panicked nil_dereference, observe.ci_start).
Proof.
  apply (ProcessGitLabEvent_needs_merge_request observe.modified_projects
           (Some observe.zero_context) None observe.broken_service observe.ci_start).
  reflexivity.
Defined.

(** A merge request that changes a file of project [vpc]: the project is
    impacted. *)
Lemma ProcessGitLabEvent_with_GitLabService_witness :
  fst (gitlab_ci.ProcessGitLabEvent observe.modified_projects
         (Some (scenario.context "" (Some 3%Z))) None
         (gitlab_ci.GitLabService_CIService
            (observe.api_answers
               [gitlab_ci.mkMergeRequestDiff "infra/vpc/old.tf" "infra/vpc/main.tf"])
            (gitlab_ci.mkGitLabService (Some tt) (Some (scenario.context "" (Some 3%Z)))))
         observe.ci_start)
  = Returned ([scenario.vpc], None).
Proof.
  destruct (ProcessGitLabEvent_with_GitLabService
              (observe.api_answers
                 [gitlab_ci.mkMergeRequestDiff "infra/vpc/old.tf" "infra/vpc/main.tf"])
              observe.modified_projects
              (Some (scenario.context "" (Some 3%Z))) None
              (gitlab_ci.mkGitLabService (Some tt) (Some (scenario.context "" (Some 3%Z))))
              observe.ci_start) as (_ & H).
  rewrite (H (scenario.context "" (Some 3%Z)) 3%Z tt (scenario.context "" (Some 3%Z)) 11%Z
             (gitlab_ci.mkMergeRequest
                [gitlab_ci.mkMergeRequestDiff "infra/vpc/old.tf" "infra/vpc/main.tf"]) tt
             eq_refl eq_refl eq_refl eq_refl eq_refl eq_refl).
  reflexivity.
Defined.
